(** * crosh: the mirror mutators (npm, pip, cargo, Docker, Go proxy)

    A shallow embedding of package [mirror] of crosh: the three operations
    [Enable], [Disable] and [Status] of each of the five mutators, over an
    explicit model of the part of the operating system they touch (home
    directory, environment variables, directories and files), followed by the
    properties of the specification that were checked against it.

    Go strings are byte sequences: they are [string] here (a list of 8-bit
    [ascii]). *)

From Stdlib Require Import String Ascii List Bool Arith NArith Lia.
From stdpp Require Import base option gmap strings list.

Import ListNotations.
Local Open Scope string_scope.
Local Open Scope list_scope.

(** ** Package [strings] of the Go standard library, as far as it is used *)

Module strings.

(** The line feed, the only separator the mutators split and join on. *)
Definition LF : ascii := "010"%char.
Definition NL : string := String LF EmptyString.

(** [strings.HasPrefix(s, prefix)] *)
Definition HasPrefix (s pre : string) : bool := String.prefix pre s.

(** [strings.Contains(s, substr)] *)
Fixpoint Contains (s sub : string) : bool :=
  String.prefix sub s ||
  match s with
  | EmptyString => false
  | String _ s' => Contains s' sub
  end.

(** [strings.HasSuffix(s, suffix)] *)
Fixpoint HasSuffix (s suf : string) : bool :=
  String.eqb s suf ||
  match s with
  | EmptyString => false
  | String _ s' => HasSuffix s' suf
  end.

(** [s[n:]] *)
Fixpoint drop (n : nat) (s : string) : string :=
  match n, s with
  | S n', String _ s' => drop n' s'
  | _, _ => s
  end.

(** [strings.TrimPrefix(s, prefix)] *)
Definition TrimPrefix (s pre : string) : string :=
  if HasPrefix s pre then drop (String.length pre) s else s.

(** [strings.Split(s, sep)] for a separator [sep] of one byte: the pieces
    between the separators, [[""]] for the empty string. *)
Fixpoint Split (s : string) (sep : ascii) : list string :=
  match s with
  | EmptyString => [EmptyString]
  | String c s' =>
      if Ascii.eqb c sep then EmptyString :: Split s' sep
      else match Split s' sep with
           | [] => [String c EmptyString]
           | l :: ls => String c l :: ls
           end
  end.

(** [strings.Join(elems, sep)] *)
Definition Join (elems : list string) (sep : string) : string :=
  String.concat sep elems.

(** [strings.SplitN(s, sep, 2)] for a separator of one byte: [[s]] when
    [sep] does not occur, else what is before and after its first
    occurrence. *)
Fixpoint cut (s : string) (sep : ascii) : option (string * string) :=
  match s with
  | EmptyString => None
  | String c s' =>
      if Ascii.eqb c sep then Some (EmptyString, s')
      else match cut s' sep with
           | Some (a, b) => Some (String c a, b)
           | None => None
           end
  end.

Definition SplitN2 (s : string) (sep : ascii) : list string :=
  match cut s sep with
  | Some (a, b) => [a; b]
  | None => [s]
  end.

(** *** [strings.TrimSpace]

    White space is what [unicode.IsSpace] accepts: the six ASCII characters
    and, in UTF-8, U+0085, U+00A0, U+1680, U+2000..U+200A, U+2028, U+2029,
    U+202F, U+205F and U+3000.  A byte sequence that is not the (shortest)
    encoding of one of them decodes to something that is not white space. *)

Definition byte (c : ascii) : N := N_of_ascii c.

Definition asciiSpace (c : ascii) : bool :=
  let n := byte c in (N.leb 9 n && N.leb n 13) || N.eqb n 32.

(** U+0085 = C2 85, U+00A0 = C2 A0 *)
Definition space2 (a b : ascii) : bool :=
  N.eqb (byte a) 194 && (N.eqb (byte b) 133 || N.eqb (byte b) 160).

(** U+1680 = E1 9A 80, U+2000..U+200A = E2 80 80..8A, U+2028 = E2 80 A8,
    U+2029 = E2 80 A9, U+202F = E2 80 AF, U+205F = E2 81 9F,
    U+3000 = E3 80 80 *)
Definition space3 (a b c : ascii) : bool :=
  (N.eqb (byte a) 225 && N.eqb (byte b) 154 && N.eqb (byte c) 128)
  || (N.eqb (byte a) 226 && N.eqb (byte b) 128 &&
      ((N.leb 128 (byte c) && N.leb (byte c) 138)
       || N.eqb (byte c) 168 || N.eqb (byte c) 169 || N.eqb (byte c) 175))
  || (N.eqb (byte a) 226 && N.eqb (byte b) 129 && N.eqb (byte c) 159)
  || (N.eqb (byte a) 227 && N.eqb (byte b) 128 && N.eqb (byte c) 128).

(** Drop white space from the front; [p2] and [p3] recognise the encodings
    of two and of three bytes in the order the bytes are met. *)
Fixpoint trimFront (p2 : ascii -> ascii -> bool)
    (p3 : ascii -> ascii -> ascii -> bool) (s : string) : string :=
  match s with
  | EmptyString => EmptyString
  | String a r1 =>
      if asciiSpace a then trimFront p2 p3 r1
      else match r1 with
           | EmptyString => s
           | String b r2 =>
               if p2 a b then trimFront p2 p3 r2
               else match r2 with
                    | EmptyString => s
                    | String c r3 =>
                        if p3 a b c then trimFront p2 p3 r3 else s
                    end
           end
  end.

Definition TrimLeftSpace (s : string) : string := trimFront space2 space3 s.

(** From the end the bytes of an encoding are met last byte first. *)
Definition space2r (b a : ascii) : bool := space2 a b.
Definition space3r (c b a : ascii) : bool := space3 a b c.

Definition TrimRightSpace (s : string) : string :=
  String.rev (trimFront space2r space3r (String.rev s)).

Definition TrimSpace (s : string) : string :=
  TrimRightSpace (TrimLeftSpace s).

(** [strings.Trim(s, cutset)] for a cutset of one byte. *)
Fixpoint trimFrontByte (s : string) (c : ascii) : string :=
  match s with
  | EmptyString => EmptyString
  | String a r => if Ascii.eqb a c then trimFrontByte r c else s
  end.

Definition Trim (s : string) (c : ascii) : string :=
  String.rev (trimFrontByte (String.rev (trimFrontByte s c)) c).

End strings.

Import strings.


(** ** The operating system, as far as package [os] is used

    A path is the list of its components below the root, so that
    [filepath.Join] appends components and [filepath.Dir] drops the last one.
    The world holds what the mutators read and write: the value of
    [runtime.GOOS], the home directory [os.UserHomeDir] reports (none when it
    fails), the process environment, the directories and the regular files.
    Permissions are not modelled, and neither is what the mutators print on
    the console. *)

Abbreviation path := (list string).

Record World := mkWorld {
  goos : string;
  home : option path;
  env : gmap string string;
  dirs : gset (list string);
  files : gmap (list string) string
}.

Inductive oserror := ENOENT | ENOTDIR | EISDIR | ENOTEMPTY | EINVAL.

(** Go [error] values.  [Wrapped ctx e] is [fmt.Errorf(ctx + ": %w", e)];
    [Panic] is not a returned error but a run-time panic of the goroutine. *)
Inductive error :=
| OsError (e : oserror)
| HomeError
| JsonError
| Wrapped (ctx : string) (cause : error)
| Panic (msg : string).

Inductive result (A : Type) :=
| Ok (a : A)
| Fail (e : error).
Arguments Ok {A} a.
Arguments Fail {A} e.

Module os.

(** [os.IsNotExist(err)] *)
Definition IsNotExist (e : oserror) : bool :=
  match e with ENOENT => true | _ => false end.

Definition is_dir (w : World) (p : path) : bool :=
  match p with
  | [] => true
  | _ => bool_decide (p ∈ dirs w)
  end.

Definition is_file (w : World) (p : path) : bool :=
  bool_decide (is_Some (files w !! p)).

(** The proper prefixes of a path, the root first. *)
Definition ancestors (p : path) : list path :=
  map (fun n => take n p) (seq 0 (length p)).

Definition under_file (w : World) (p : path) : bool :=
  existsb (is_file w) (ancestors p).

Definition parent (p : path) : path := removelast p.

(** [os.UserHomeDir()] *)
Definition UserHomeDir (w : World) : result path :=
  match home w with
  | Some h => Ok h
  | None => Fail HomeError
  end.

(** [os.Getenv(key)]: the empty string when the variable is not set. *)
Definition Getenv (key : string) (w : World) : string :=
  default "" (env w !! key).

(** [os.Setenv(key, value)]: it fails with [EINVAL], and sets nothing, for
    an empty key, for a key that holds [=] or a NUL byte and, except on
    Plan 9, for a value that holds a NUL byte. *)
Fixpoint any_byte (f : ascii -> bool) (s : string) : bool :=
  match s with
  | EmptyString => false
  | String a s' => f a || any_byte f s'
  end.

Definition is_nul (c : ascii) : bool := Ascii.eqb c "000".

Definition Setenv (key value : string) (w : World) : World * option oserror :=
  if String.eqb key ""
     || any_byte (fun c => Ascii.eqb c "=" || is_nul c) key
     || (negb (String.eqb (goos w) "plan9") && any_byte is_nul value)
  then (w, Some EINVAL)
  else (mkWorld (goos w) (home w) (<[key := value]> (env w)) (dirs w) (files w),
        None).

(** [os.Unsetenv(key)]: it does not fail. *)
Definition Unsetenv (key : string) (w : World) : World :=
  mkWorld (goos w) (home w) (delete key (env w)) (dirs w) (files w).

(** [os.Stat(name)]: only whether it succeeds is used. *)
Definition Stat (p : path) (w : World) : option oserror :=
  if is_file w p || is_dir w p then None
  else if under_file w p then Some ENOTDIR else Some ENOENT.

(** [os.ReadFile(name)] *)
Definition ReadFile (p : path) (w : World) : oserror + string :=
  match files w !! p with
  | Some data => inr data
  | None =>
      if is_dir w p then inl EISDIR
      else if under_file w p then inl ENOTDIR else inl ENOENT
  end.

(** [os.WriteFile(name, data, perm)]: the file is overwritten, or created
    in a directory that exists. *)
Definition WriteFile (p : path) (data : string) (w : World)
  : World * option oserror :=
  let w' := mkWorld (goos w) (home w) (env w) (dirs w) (<[p := data]> (files w)) in
  if is_file w p then (w', None)
  else if is_dir w p then (w, Some EISDIR)
  else if under_file w p then (w, Some ENOTDIR)
  else if is_dir w (parent p) then (w', None)
  else (w, Some ENOENT).

(** [os.MkdirAll(path, perm)]: the directory and the parents it lacks. *)
Definition MkdirAll (p : path) (w : World) : World * option oserror :=
  if is_dir w p then (w, None)
  else if is_file w p || under_file w p then (w, Some ENOTDIR)
  else (mkWorld (goos w) (home w) (env w)
          (dirs w ∪ list_to_set (tail (ancestors p ++ [p]))) (files w),
        None).

(** [os.Remove(name)]: a file, or a directory that is empty. *)
Definition has_entries (w : World) (p : path) : bool :=
  existsb (fun q => bool_decide (parent q = p ∧ q ≠ []))
    (elements (dirs w) ++ (map_to_list (files w)).*1).

Definition Remove (p : path) (w : World) : World * option oserror :=
  if is_file w p then
    (mkWorld (goos w) (home w) (env w) (dirs w) (delete p (files w)), None)
  else if is_dir w p then
    if has_entries w p then (w, Some ENOTEMPTY)
    else (mkWorld (goos w) (home w) (env w) (dirs w ∖ {[p]}) (files w), None)
  else if under_file w p then (w, Some ENOTDIR)
  else (w, Some ENOENT).

End os.

(** A world with one more file, or one more directory. *)
Definition with_file (p : path) (data : string) (w : World) : World :=
  mkWorld (goos w) (home w) (env w) (dirs w) (<[p := data]> (files w)).

Definition with_dir (p : path) (w : World) : World :=
  mkWorld (goos w) (home w) (env w) (dirs w ∪ {[p]}) (files w).

(** [filepath.Join(dir, name)] and the text of a path in a message. *)
Definition Join_path (dir : path) (name : string) : path := dir ++ [name].

Definition path_string (p : path) : string :=
  String.concat "" (map (fun c => "/" +:+ c) p).

(** A [for _, line := range lines] loop whose body updates the loop
    variables [S] is the left fold of its body. *)
Definition range {S : Type} (lines : list string) (body : S -> string -> S)
    (init : S) : S :=
  fold_left body lines init.

(** ** npm: the line-oriented key=value mutator *)

Module NPM.

Record NPMMirror := NewNPMMirror { registryURL : string }.

(** The loop of [Enable] over [newLines] and [hasRegistry]. *)
Definition enable_body (registryLine : string)
    (st : list string * bool) (line : string) : list string * bool :=
  let '(newLines, hasRegistry) := st in
  let trimmed := TrimSpace line in
  if HasPrefix trimmed "registry=" then (newLines ++ [registryLine], true)
  else if negb (String.eqb trimmed "") then (newLines ++ [line], hasRegistry)
  else (newLines, hasRegistry).

Definition enable_lines (n : NPMMirror) (lines : list string) : list string :=
  let registryLine := "registry=" +:+ registryURL n in
  let '(newLines, hasRegistry) :=
    range lines (enable_body registryLine) ([], false) in
  if negb hasRegistry then newLines ++ [registryLine] else newLines.

(** What [Enable] writes, from what it read. *)
Definition enable_content (n : NPMMirror) (existingContent : string) : string :=
  Join (enable_lines n (Split existingContent LF)) NL +:+ NL.

Definition Enable (n : NPMMirror) (w : World) : World * option error :=
  match os.UserHomeDir w with
  | Fail e => (w, Some (Wrapped "failed to get user home directory" e))
  | Ok homeDir =>
      let npmrcPath := Join_path homeDir ".npmrc" in
      let existingContent :=
        match os.ReadFile npmrcPath w with
        | inr data => data
        | inl _ => ""
        end in
      match os.WriteFile npmrcPath (enable_content n existingContent) w with
      | (w', Some e) => (w', Some (Wrapped "failed to write .npmrc" (OsError e)))
      | (w', None) => (w', None)
      end
  end.

(** The loop of [Disable] over [newLines]. *)
Definition disable_body (newLines : list string) (line : string) : list string :=
  let trimmed := TrimSpace line in
  if negb (HasPrefix trimmed "registry=") && negb (String.eqb trimmed "")
  then newLines ++ [line] else newLines.

Definition disable_lines (lines : list string) : list string :=
  range lines disable_body [].

Definition Disable (n : NPMMirror) (w : World) : World * option error :=
  match os.UserHomeDir w with
  | Fail e => (w, Some (Wrapped "failed to get user home directory" e))
  | Ok homeDir =>
      let npmrcPath := Join_path homeDir ".npmrc" in
      match os.ReadFile npmrcPath w with
      | inl e =>
          if os.IsNotExist e then (w, None)
          else (w, Some (Wrapped "failed to read .npmrc" (OsError e)))
      | inr data =>
          let newLines := disable_lines (Split data LF) in
          if Nat.ltb 0 (List.length newLines) then
            match os.WriteFile npmrcPath (Join newLines NL +:+ NL) w with
            | (w', Some e) =>
                (w', Some (Wrapped "failed to write .npmrc" (OsError e)))
            | (w', None) => (w', None)
            end
          else (fst (os.Remove npmrcPath w), None)
      end
  end.

(** The loop of [Status]: it returns at the first line that matches. *)
Fixpoint status_lines (lines : list string) : bool * string :=
  match lines with
  | [] => (false, "default registry")
  | line :: rest =>
      let trimmed := TrimSpace line in
      if HasPrefix trimmed "registry=" then
        (true, TrimPrefix trimmed "registry=")
      else status_lines rest
  end.

Definition Status (n : NPMMirror) (w : World)
  : World * (bool * string * option error) :=
  match os.UserHomeDir w with
  | Fail e =>
      (w, (false, "", Some (Wrapped "failed to get user home directory" e)))
  | Ok homeDir =>
      let npmrcPath := Join_path homeDir ".npmrc" in
      match os.ReadFile npmrcPath w with
      | inl e =>
          if os.IsNotExist e then (w, (false, "default registry", None))
          else (w, (false, "", Some (Wrapped "failed to read .npmrc" (OsError e))))
      | inr data =>
          let '(enabled, description) := status_lines (Split data LF) in
          (w, (enabled, description, None))
      end
  end.

End NPM.

(** ** Go proxy: the environment variable and the shell rc file *)

Module Go.

Record GoMirror := NewGoMirror { proxyURL : string }.

(** The rc file of the shell named by [$SHELL]; [.bashrc] by default. *)
Definition rcFile (homeDir : path) (w : World) : path :=
  let shell := os.Getenv "SHELL" w in
  if Contains shell "zsh" then Join_path homeDir ".zshrc"
  else if Contains shell "bash" then Join_path homeDir ".bashrc"
  else Join_path homeDir ".bashrc".

Definition replace_body (exportLine : string)
    (newLines : list string) (line : string) : list string :=
  if Contains line "export GOPROXY=" then newLines ++ [exportLine]
  else newLines ++ [line].

Definition enable_content (g : GoMirror) (existingContent : string) : string :=
  let exportLine := "export GOPROXY=" +:+ proxyURL g in
  if Contains existingContent "export GOPROXY=" then
    let lines := Split existingContent LF in
    Join (range lines (replace_body exportLine) []) NL
  else
    let existingContent :=
      if negb (HasSuffix existingContent NL) then existingContent +:+ NL
      else existingContent in
    existingContent +:+ (NL +:+ "# Added by crosh" +:+ NL +:+ exportLine +:+ NL).

Definition Enable (g : GoMirror) (w : World) : World * option error :=
  match os.UserHomeDir w with
  | Fail e => (w, Some (Wrapped "failed to get user home directory" e))
  | Ok homeDir =>
      let rc := rcFile homeDir w in
      let existingContent :=
        match os.ReadFile rc w with
        | inr data => data
        | inl _ => ""
        end in
      match os.WriteFile rc (enable_content g existingContent) w with
      | (w', Some e) =>
          (w', Some (Wrapped ("failed to write " +:+ path_string rc) (OsError e)))
      | (w', None) =>
          (* the error of [os.Setenv] is dropped *)
          (fst (os.Setenv "GOPROXY" (proxyURL g) w'), None)
      end
  end.

(** The loop of [Disable] over [newLines] and [skipNext]. *)
Definition disable_body (st : list string * bool) (line : string)
  : list string * bool :=
  let '(newLines, skipNext) := st in
  if String.eqb (TrimSpace line) "# Added by crosh" then (newLines, true)
  else if skipNext && Contains line "export GOPROXY=" then (newLines, false)
  else if negb (Contains line "export GOPROXY=") then
    (newLines ++ [line], skipNext)
  else (newLines, skipNext).

Definition disable_content (data : string) : string :=
  Join (fst (range (Split data LF) disable_body ([], false))) NL.

Definition Disable (g : GoMirror) (w : World) : World * option error :=
  match os.UserHomeDir w with
  | Fail e => (w, Some (Wrapped "failed to get user home directory" e))
  | Ok homeDir =>
      let rc := rcFile homeDir w in
      match os.ReadFile rc w with
      | inl e =>
          if os.IsNotExist e then (w, None)
          else (w, Some (Wrapped ("failed to read " +:+ path_string rc) (OsError e)))
      | inr data =>
          match os.WriteFile rc (disable_content data) w with
          | (w', Some e) =>
              (w', Some (Wrapped ("failed to write " +:+ path_string rc) (OsError e)))
          | (w', None) => (os.Unsetenv "GOPROXY" w', None)
          end
      end
  end.

Definition Status (g : GoMirror) (w : World)
  : World * (bool * string * option error) :=
  let goproxy := os.Getenv "GOPROXY" w in
  if negb (String.eqb goproxy "") then (w, (true, goproxy, None))
  else (w, (false, "default proxy", None)).

(** [GetEnvCommand] *)
Definition GetEnvCommand (g : GoMirror) : string :=
  "export GOPROXY=" +:+ proxyURL g.

End Go.

(** ** pip: the INI-section mutator *)

Module Pip.

Record PipMirror := NewPipMirror { indexURL : string }.

(** [getPipConfigPath]: it creates [~/.config/pip] on the way. *)
Definition getPipConfigPath (w : World) : World * result path :=
  match os.UserHomeDir w with
  | Fail e => (w, Fail (Wrapped "failed to get user home directory" e))
  | Ok homeDir =>
      let configDir := Join_path (Join_path homeDir ".config") "pip" in
      match os.MkdirAll configDir w with
      | (w', Some e) =>
          (w', Fail (Wrapped "failed to create pip config directory" (OsError e)))
      | (w', None) => (w', Ok (Join_path configDir "pip.conf"))
      end
  end.

(** The variables of the loop of [Enable]. *)
Record scan := mkScan {
  newLines : list string;
  hasGlobalSection : bool;
  hasIndexURL : bool;
  inGlobalSection : bool
}.

Definition index_line (p : PipMirror) : string := "index-url = " +:+ indexURL p.

Definition enable_body (p : PipMirror) (st : scan) (line : string) : scan :=
  let trimmed := TrimSpace line in
  if String.eqb trimmed "[global]" then
    mkScan (newLines st ++ [line]) true (hasIndexURL st) true
  else if HasPrefix trimmed "[" && negb (String.eqb trimmed "[global]") then
    if inGlobalSection st && negb (hasIndexURL st) then
      mkScan (newLines st ++ [index_line p] ++ [line])
        (hasGlobalSection st) true false
    else
      mkScan (newLines st ++ [line]) (hasGlobalSection st) (hasIndexURL st) false
  else if inGlobalSection st && HasPrefix trimmed "index-url" then
    mkScan (newLines st ++ [index_line p]) (hasGlobalSection st) true
      (inGlobalSection st)
  else if negb (String.eqb trimmed "") then
    mkScan (newLines st ++ [line]) (hasGlobalSection st) (hasIndexURL st)
      (inGlobalSection st)
  else st.

Definition enable_lines (p : PipMirror) (lines : list string) : list string :=
  let st := range lines (enable_body p) (mkScan [] false false false) in
  if negb (hasGlobalSection st) then
    newLines st ++ ["[global]"] ++ [index_line p]
  else if negb (hasIndexURL st) then newLines st ++ [index_line p]
  else newLines st.

Definition enable_content (p : PipMirror) (existingContent : string) : string :=
  Join (enable_lines p (Split existingContent LF)) NL +:+ NL.

Definition Enable (p : PipMirror) (w : World) : World * option error :=
  match getPipConfigPath w with
  | (w1, Fail e) => (w1, Some e)
  | (w1, Ok pipConfigPath) =>
      let existingContent :=
        match os.ReadFile pipConfigPath w1 with
        | inr data => data
        | inl _ => ""
        end in
      match os.WriteFile pipConfigPath (enable_content p existingContent) w1 with
      | (w2, Some e) =>
          (w2, Some (Wrapped "failed to write pip config" (OsError e)))
      | (w2, None) => (w2, None)
      end
  end.

Definition disable_body (newLines : list string) (line : string) : list string :=
  let trimmed := TrimSpace line in
  if negb (HasPrefix trimmed "index-url") && negb (String.eqb trimmed "")
  then newLines ++ [line] else newLines.

Definition disable_lines (lines : list string) : list string :=
  range lines disable_body [].

Definition Disable (p : PipMirror) (w : World) : World * option error :=
  match getPipConfigPath w with
  | (w1, Fail e) => (w1, Some e)
  | (w1, Ok pipConfigPath) =>
      match os.ReadFile pipConfigPath w1 with
      | inl e =>
          if os.IsNotExist e then (w1, None)
          else (w1, Some (Wrapped "failed to read pip config" (OsError e)))
      | inr data =>
          let newLines := disable_lines (Split data LF) in
          if Nat.ltb 0 (List.length newLines) then
            match os.WriteFile pipConfigPath (Join newLines NL +:+ NL) w1 with
            | (w2, Some e) =>
                (w2, Some (Wrapped "failed to write pip config" (OsError e)))
            | (w2, None) => (w2, None)
            end
          else (fst (os.Remove pipConfigPath w1), None)
      end
  end.

(** The loop of [Status]: it returns at the first [index-url] line that
    has an [=]. *)
Fixpoint status_lines (lines : list string) : bool * string :=
  match lines with
  | [] => (false, "default index")
  | line :: rest =>
      let trimmed := TrimSpace line in
      if HasPrefix trimmed "index-url" then
        match SplitN2 trimmed "="%char with
        | [_; v] => (true, TrimSpace v)
        | _ => status_lines rest
        end
      else status_lines rest
  end.

Definition Status (p : PipMirror) (w : World)
  : World * (bool * string * option error) :=
  match getPipConfigPath w with
  | (w1, Fail e) => (w1, (false, "", Some e))
  | (w1, Ok pipConfigPath) =>
      match os.ReadFile pipConfigPath w1 with
      | inl e =>
          if os.IsNotExist e then (w1, (false, "default index", None))
          else (w1, (false, "", Some (Wrapped "failed to read pip config" (OsError e))))
      | inr data =>
          let '(enabled, description) := status_lines (Split data LF) in
          (w1, (enabled, description, None))
      end
  end.

End Pip.

(** ** cargo: the TOML-subsection mutator *)

Module Cargo.

Record CargoMirror := NewCargoMirror { registryURL : string }.

(** [getCargoConfigPath]: it creates [~/.cargo] on the way. *)
Definition getCargoConfigPath (w : World) : World * result path :=
  match os.UserHomeDir w with
  | Fail e => (w, Fail (Wrapped "failed to get user home directory" e))
  | Ok homeDir =>
      let cargoDir := Join_path homeDir ".cargo" in
      match os.MkdirAll cargoDir w with
      | (w', Some e) =>
          (w', Fail (Wrapped "failed to create cargo directory" (OsError e)))
      | (w', None) => (w', Ok (Join_path cargoDir "config.toml"))
      end
  end.

(** The variables of the loop of [Enable]. *)
Record scan := mkScan {
  newLines : list string;
  hasSourceSection : bool;
  hasCratesIOSection : bool;
  inCratesIOSection : bool
}.

Definition replace_with : string := "replace-with = 'ustc'".

Definition quote : string := String "034"%char EmptyString.

(** [fmt.Sprintf("registry = \"%s\"", c.registryURL)] *)
Definition registry_line (c : CargoMirror) : string :=
  "registry = " +:+ quote +:+ registryURL c +:+ quote.

Definition enable_body (existingContent : string) (st : scan) (line : string)
  : scan :=
  let trimmed := TrimSpace line in
  if String.eqb trimmed "[source.crates-io]" then
    mkScan (newLines st ++ [line]) true true true
  else if HasPrefix trimmed "[source."
          && negb (String.eqb trimmed "[source.crates-io]") then
    mkScan (newLines st ++ [line]) (hasSourceSection st)
      (hasCratesIOSection st) false
  else if HasPrefix trimmed "[" && negb (HasPrefix trimmed "[source.") then
    let newLines' :=
      if inCratesIOSection st && negb (Contains existingContent "replace-with")
      then newLines st ++ [replace_with] else newLines st in
    mkScan (newLines' ++ [line]) (hasSourceSection st)
      (hasCratesIOSection st) false
  else if inCratesIOSection st && HasPrefix trimmed "replace-with" then
    mkScan (newLines st ++ [replace_with]) (hasSourceSection st)
      (hasCratesIOSection st) (inCratesIOSection st)
  else if negb (String.eqb trimmed "")
          || Nat.eqb (List.length (newLines st)) 0 then
    mkScan (newLines st ++ [line]) (hasSourceSection st)
      (hasCratesIOSection st) (inCratesIOSection st)
  else st.

(** The state of the loop after the scan of a whole file. *)
Definition enable_scan (existingContent : string) : scan :=
  range (Split existingContent LF) (enable_body existingContent)
    (mkScan [] false false false).

(** What is appended after the scan. *)
Definition enable_append (c : CargoMirror) (existingContent : string)
    (st : scan) : list string :=
  if negb (hasSourceSection st) || negb (hasCratesIOSection st) then
    let newLines1 :=
      if Nat.ltb 0 (List.length (newLines st))
         && negb (String.eqb (List.last (newLines st) "") "")
      then newLines st ++ [""] else newLines st in
    newLines1 ++ ["[source.crates-io]"] ++ [replace_with] ++ [""]
      ++ ["[source.ustc]"] ++ [registry_line c]
  else if negb (Contains existingContent "[source.ustc]") then
    newLines st ++ [""] ++ ["[source.ustc]"] ++ [registry_line c]
  else newLines st.

Definition enable_lines (c : CargoMirror) (existingContent : string)
  : list string :=
  enable_append c existingContent (enable_scan existingContent).

Definition enable_content (c : CargoMirror) (existingContent : string) : string :=
  Join (enable_lines c existingContent) NL +:+ NL.

Definition Enable (c : CargoMirror) (w : World) : World * option error :=
  match getCargoConfigPath w with
  | (w1, Fail e) => (w1, Some e)
  | (w1, Ok cargoConfigPath) =>
      let existingContent :=
        match os.ReadFile cargoConfigPath w1 with
        | inr data => data
        | inl _ => ""
        end in
      match os.WriteFile cargoConfigPath (enable_content c existingContent) w1 with
      | (w2, Some e) =>
          (w2, Some (Wrapped "failed to write cargo config" (OsError e)))
      | (w2, None) => (w2, None)
      end
  end.

(** The loop of [Disable] over [newLines] and [skipSection]. *)
Definition disable_body (st : list string * bool) (line : string)
  : list string * bool :=
  let '(newLines, skipSection) := st in
  let trimmed := TrimSpace line in
  if String.eqb trimmed "[source.crates-io]" || String.eqb trimmed "[source.ustc]"
  then (newLines, true)
  else
    let skipSection := if HasPrefix trimmed "[" then false else skipSection in
    if negb skipSection && negb (String.eqb trimmed "")
    then (newLines ++ [line], skipSection)
    else (newLines, skipSection).

Definition disable_lines (lines : list string) : list string :=
  fst (range lines disable_body ([], false)).

Definition Disable (c : CargoMirror) (w : World) : World * option error :=
  match getCargoConfigPath w with
  | (w1, Fail e) => (w1, Some e)
  | (w1, Ok cargoConfigPath) =>
      match os.ReadFile cargoConfigPath w1 with
      | inl e =>
          if os.IsNotExist e then (w1, None)
          else (w1, Some (Wrapped "failed to read cargo config" (OsError e)))
      | inr data =>
          let newLines := disable_lines (Split data LF) in
          if Nat.ltb 0 (List.length newLines) then
            match os.WriteFile cargoConfigPath (Join newLines NL +:+ NL) w1 with
            | (w2, Some e) =>
                (w2, Some (Wrapped "failed to write cargo config" (OsError e)))
            | (w2, None) => (w2, None)
            end
          else (fst (os.Remove cargoConfigPath w1), None)
      end
  end.

(** The loop of [Status]: it returns at the first [registry] line that
    has an [=]. *)
Fixpoint status_lines (lines : list string) : bool * string :=
  match lines with
  | [] => (false, "default registry")
  | line :: rest =>
      let trimmed := TrimSpace line in
      if HasPrefix trimmed "registry" then
        match SplitN2 trimmed "="%char with
        | [_; v] => (true, Trim (TrimSpace v) "034"%char)
        | _ => status_lines rest
        end
      else status_lines rest
  end.

Definition status_content (content : string) : bool * string :=
  if Contains content "[source.ustc]" then status_lines (Split content LF)
  else (false, "default registry").

Definition Status (c : CargoMirror) (w : World)
  : World * (bool * string * option error) :=
  match getCargoConfigPath w with
  | (w1, Fail e) => (w1, (false, "", Some e))
  | (w1, Ok cargoConfigPath) =>
      match os.ReadFile cargoConfigPath w1 with
      | inl e =>
          if os.IsNotExist e then (w1, (false, "default registry", None))
          else (w1, (false, "", Some (Wrapped "failed to read cargo config" (OsError e))))
      | inr data =>
          let '(enabled, description) := status_content data in
          (w1, (enabled, description, None))
      end
  end.

End Cargo.

(** ** Docker: the JSON-object mutator *)

(** What [json.Unmarshal] decodes into an [interface{}]. *)
#[warnings="-register-all"]
Inductive jvalue (float64 : Type) : Type :=
| JNull
| JBool (b : bool)
| JNumber (f : float64)
| JString (s : string)
| JArray (l : list (jvalue float64))
| JObject (m : gmap string (jvalue float64)).
Arguments JNull {float64}.
Arguments JBool {float64} b.
Arguments JNumber {float64} f.
Arguments JString {float64} s.
Arguments JArray {float64} l.
Arguments JObject {float64} m.

(** A Go [map[string]interface{}]: [nilmap] is the nil map a declaration
    without [make] leaves, which reads as empty and panics when written. *)
Inductive gomap (float64 : Type) : Type :=
| nilmap
| mkmap (m : gmap string (jvalue float64)).
Arguments nilmap {float64}.
Arguments mkmap {float64} m.

(** Package [encoding/json] is not part of the repository: the mutator is
    verified for every decoder and encoder.  [Unmarshal data] is the map
    [json.Unmarshal(data, &config)] leaves in a fresh [config], none when it
    returns an error ([null] decodes to the nil map without one);
    [MarshalIndent config] is [json.MarshalIndent(config, "", "  ")], which
    does not fail on such maps. *)
Class Json := {
  float64 : Type;
  Unmarshal : string -> option (gomap float64);
  MarshalIndent : gomap float64 -> string
}.

Module Docker.
Section Docker.
Context `{Json}.

Record DockerMirror := NewDockerMirror { registries : list string }.

Definition getDockerConfigPath (w : World) : result path :=
  match os.UserHomeDir w with
  | Fail e => Fail (Wrapped "failed to get user home directory" e)
  | Ok homeDir =>
      if String.eqb (goos w) "linux" then
        match os.Stat ["etc"; "docker"; "daemon.json"] w with
        | None => Ok (Join_path (Join_path homeDir ".docker") "daemon.json")
        | Some _ => Ok (Join_path (Join_path homeDir ".docker") "daemon.json")
        end
      else Ok (Join_path (Join_path homeDir ".docker") "daemon.json")
  end.

Definition isDockerDesktop (w : World) : bool :=
  if String.eqb (goos w) "darwin" then
    match os.Stat ["Applications"; "Docker.app"] w with
    | None => true
    | Some _ => false
    end
  else false.

(** [configPath + ".backup"] *)
Definition backup_path (configPath : path) : path :=
  os.parent configPath ++ [List.last configPath "" +:+ ".backup"].

(** The loop that gives every registry a scheme. *)
Definition format_body (formattedRegistries : list string) (reg : string)
  : list string :=
  if negb (HasPrefix reg "http://") && negb (HasPrefix reg "https://")
  then formattedRegistries ++ ["https://" +:+ reg]
  else formattedRegistries ++ [reg].

Definition formattedRegistries (d : DockerMirror) : list string :=
  range (registries d) format_body [].

Definition mirrors_value (d : DockerMirror) : jvalue float64 :=
  JArray (map JString (formattedRegistries d)).

Definition Enable (d : DockerMirror) (w : World) : World * option error :=
  if isDockerDesktop w then (w, None)
  else
  match getDockerConfigPath w with
  | Fail e => (w, Some e)
  | Ok configPath =>
  let configDir := os.parent configPath in
  match os.MkdirAll configDir w with
  | (w1, Some e) =>
      (w1, Some (Wrapped "failed to create .docker directory" (OsError e)))
  | (w1, None) =>
  let read : World * result (gomap float64) :=
    match os.ReadFile configPath w1 with
    | inl e =>
        if os.IsNotExist e then (w1, Ok (mkmap ∅))
        else (w1, Fail (Wrapped "failed to read daemon.json" (OsError e)))
    | inr data =>
        match Unmarshal data with
        | None =>
            let backupPath := backup_path configPath in
            (fst (os.WriteFile backupPath data w1), Ok (mkmap ∅))
        | Some config => (w1, Ok config)
        end
    end in
  match read with
  | (w2, Fail e) => (w2, Some e)
  | (w2, Ok config) =>
  let set : result (gomap float64) :=
    if Nat.ltb 0 (List.length (registries d)) then
      match config with
      | nilmap => Fail (Panic "assignment to entry in nil map")
      | mkmap m => Ok (mkmap (<["registry-mirrors" := mirrors_value d]> m))
      end
    else Ok config in
  match set with
  | Fail e => (w2, Some e)
  | Ok config =>
  match os.WriteFile configPath (MarshalIndent config) w2 with
  | (w3, Some e) => (w3, Some (Wrapped "failed to write daemon.json" (OsError e)))
  | (w3, None) => (w3, None)
  end end end end end.

(** [delete(config, key)] and [len(config)] *)
Definition map_delete (key : string) (config : gomap float64) : gomap float64 :=
  match config with
  | nilmap => nilmap
  | mkmap m => mkmap (delete key m)
  end.

Definition map_len (config : gomap float64) : nat :=
  match config with
  | nilmap => 0
  | mkmap m => size m
  end.

Definition Disable (d : DockerMirror) (w : World) : World * option error :=
  if isDockerDesktop w then (w, None)
  else
  match getDockerConfigPath w with
  | Fail e => (w, Some e)
  | Ok configPath =>
  match os.ReadFile configPath w with
  | inl e =>
      if os.IsNotExist e then (w, None)
      else (w, Some (Wrapped "failed to read daemon.json" (OsError e)))
  | inr data =>
  match Unmarshal data with
  | None => (w, Some (Wrapped "failed to parse daemon.json" JsonError))
  | Some config =>
  let config := map_delete "registry-mirrors" config in
  if Nat.eqb (map_len config) 0 then
    match os.Remove configPath w with
    | (w1, Some e) =>
        if negb (os.IsNotExist e)
        then (w1, Some (Wrapped "failed to remove daemon.json" (OsError e)))
        else (w1, None)
    | (w1, None) => (w1, None)
    end
  else
    match os.WriteFile configPath (MarshalIndent config) w with
    | (w1, Some e) => (w1, Some (Wrapped "failed to write daemon.json" (OsError e)))
    | (w1, None) => (w1, None)
    end
  end end end.

(** The loop of [Status] over [mirrorStrings]. *)
Definition display_body (mirrorStrings : list string) (m : jvalue float64)
  : list string :=
  match m with
  | JString str =>
      let display := TrimPrefix str "https://" in
      let display := TrimPrefix display "http://" in
      mirrorStrings ++ [display]
  | _ => mirrorStrings
  end.

Definition status_config (config : gomap float64) : bool * string :=
  let mirrors :=
    match config with
    | nilmap => None
    | mkmap m => m !! "registry-mirrors"
    end in
  match mirrors with
  | None => (false, "default registry")
  | Some (JArray mirrorsSlice) =>
      if Nat.eqb (List.length mirrorsSlice) 0 then (false, "default registry")
      else
        let mirrorStrings := fold_left display_body mirrorsSlice [] in
        if Nat.eqb (List.length mirrorStrings) 0 then (false, "default registry")
        else (true, Join mirrorStrings ", ")
  | Some _ => (false, "default registry")
  end.

Definition Status (d : DockerMirror) (w : World)
  : World * (bool * string * option error) :=
  if isDockerDesktop w then (w, (false, "check Docker Desktop settings", None))
  else
  match getDockerConfigPath w with
  | Fail e => (w, (false, "", Some e))
  | Ok configPath =>
  match os.ReadFile configPath w with
  | inl e =>
      if os.IsNotExist e then (w, (false, "default registry", None))
      else (w, (false, "", Some (Wrapped "failed to read daemon.json" (OsError e))))
  | inr data =>
  match Unmarshal data with
  | None => (w, (false, "", Some (Wrapped "failed to parse daemon.json" JsonError)))
  | Some config =>
      let '(enabled, description) := status_config config in
      (w, (enabled, description, None))
  end end end.

End Docker.
End Docker.

(** ** The configuration file (package [config])

    Package [gopkg.in/yaml.v3] is not part of the repository: [Load] and
    [Save] are verified for every decoder and encoder.  [yaml_Unmarshal data]
    is the configuration [yaml.Unmarshal(data, config)] leaves in a zero
    [Config], or the error it returns; [yaml_Marshal c] is [yaml.Marshal(c)]. *)

Module config.

Module MirrorConfig.
Record t := mk {
  NPM : string;
  Pip : string;
  Apt : string;
  Cargo : string;
  Go : string;
  Docker : list string;
  Enabled : bool
}.
End MirrorConfig.

Module ProxyConfig.
Record t := mk {
  SubscriptionURL : string;
  LocalPort : Z;
  Enabled : bool;
  XrayPath : string;
  CurrentNode : string
}.
End ProxyConfig.

Record Config := mkConfig {
  Mirror : MirrorConfig.t;
  Proxy : ProxyConfig.t
}.

Class Yaml := {
  yaml_Unmarshal : string -> result Config;
  yaml_Marshal : Config -> result string
}.

(** [filepath.Join(homeDir, ".crosh", "xray-core")], where [homeDir] is
    empty when [os.UserHomeDir] fails: the error is dropped. *)
Definition xray_path (w : World) : string :=
  match os.UserHomeDir w with
  | Ok homeDir => path_string (homeDir ++ [".crosh"; "xray-core"])
  | Fail _ => ".crosh/xray-core"
  end.

Definition DefaultConfig (w : World) : Config :=
  mkConfig
    (MirrorConfig.mk
       "https://registry.npmmirror.com"
       "https://mirrors.aliyun.com/pypi/simple/"
       "mirrors.aliyun.com"
       "https://mirrors.ustc.edu.cn/crates.io-index"
       "https://goproxy.cn,direct"
       ["docker.1ms.run"; "docker.m.daocloud.io"]
       false)
    (ProxyConfig.mk "" 7676%Z false (xray_path w) "").

(** [GetConfigPath]: it creates [~/.crosh] on the way. *)
Definition GetConfigPath (w : World) : World * result path :=
  match os.UserHomeDir w with
  | Fail e => (w, Fail (Wrapped "failed to get user home directory" e))
  | Ok homeDir =>
      let configDir := Join_path homeDir ".crosh" in
      match os.MkdirAll configDir w with
      | (w', Some e) =>
          (w', Fail (Wrapped "failed to create config directory" (OsError e)))
      | (w', None) => (w', Ok (Join_path configDir "config.yaml"))
      end
  end.

Section Config.
Context `{Yaml}.

Definition Load (w : World) : World * result Config :=
  match GetConfigPath w with
  | (w1, Fail e) => (w1, Fail e)
  | (w1, Ok configPath) =>
      let notExist :=
        match os.Stat configPath w1 with
        | Some e => os.IsNotExist e
        | None => false
        end in
      if notExist then (w1, Ok (DefaultConfig w1))
      else
        match os.ReadFile configPath w1 with
        | inl e => (w1, Fail (Wrapped "failed to read config file" (OsError e)))
        | inr data =>
            match yaml_Unmarshal data with
            | Fail e => (w1, Fail (Wrapped "failed to parse config file" e))
            | Ok config => (w1, Ok config)
            end
        end
  end.

Definition Save (c : Config) (w : World) : World * option error :=
  match GetConfigPath w with
  | (w1, Fail e) => (w1, Some e)
  | (w1, Ok configPath) =>
      match yaml_Marshal c with
      | Fail e => (w1, Some (Wrapped "failed to marshal config" e))
      | Ok data =>
          match os.WriteFile configPath data w1 with
          | (w2, Some e) =>
              (w2, Some (Wrapped "failed to write config file" (OsError e)))
          | (w2, None) => (w2, None)
          end
      end
  end.

End Config.
End config.

(** ** Vocabulary of the properties *)

(** The byte [c] occurs in [s]. *)
Fixpoint has_byte (c : ascii) (s : string) : bool :=
  match s with
  | EmptyString => false
  | String a s' => Ascii.eqb a c || has_byte c s'
  end.

(** A value that fits on one line. *)
Definition one_line (v : string) : Prop := has_byte LF v = false.

(** A byte that is ASCII and not white space. *)
Definition plain (c : ascii) : bool := negb (asciiSpace c) && N.ltb (byte c) 128.

(** A line that is empty once trimmed. *)
Definition is_blank (line : string) : bool := String.eqb (TrimSpace line) "".

(** A line that opens a section. *)
Definition is_header (line : string) : bool := HasPrefix (TrimSpace line) "[".

Module NPMSpec.

Definition is_registry (line : string) : bool :=
  HasPrefix (TrimSpace line) "registry=".

(** A line that is neither blank nor a [registry=] line. *)
Definition foreign (line : string) : bool :=
  negb (is_registry line) && negb (is_blank line).

(** The rewrite of 4.1 in the words of the specification: every
    [registry=] line is replaced, blank lines are dropped, the other lines
    stay as they are and where they are, and the line is added at the end
    when there was none. *)
Definition rewrite_line (u : string) (line : string) : list string :=
  if is_registry line then ["registry=" +:+ u]
  else if is_blank line then [] else [line].

Definition rewrite (u : string) (lines : list string) : list string :=
  flat_map (rewrite_line u) lines
  ++ (if existsb is_registry lines then [] else ["registry=" +:+ u]).

(** What [Status] reports: the value on the first [registry=] line. *)
Definition report (lines : list string) : bool * string :=
  match List.find is_registry lines with
  | Some line => (true, TrimPrefix (TrimSpace line) "registry=")
  | None => (false, "default registry")
  end.

End NPMSpec.

Module PipSpec.

Definition is_global (line : string) : bool :=
  String.eqb (TrimSpace line) "[global]".

Definition is_index (line : string) : bool :=
  HasPrefix (TrimSpace line) "index-url".


End PipSpec.

Module CargoSpec.

Definition is_crates_io (line : string) : bool :=
  String.eqb (TrimSpace line) "[source.crates-io]".

Definition is_source (line : string) : bool :=
  HasPrefix (TrimSpace line) "[source.".

Definition is_replace_with (line : string) : bool :=
  HasPrefix (TrimSpace line) "replace-with".

(** A line whose trimmed form starts with [registry] and has an [=]. *)
Definition is_registry (line : string) : bool :=
  HasPrefix (TrimSpace line) "registry" && has_byte "="%char (TrimSpace line).

(** The value of such a line: what follows the first [=], trimmed, without
    the quotes around it. *)
Definition registry_value (line : string) : string :=
  match cut (TrimSpace line) "="%char with
  | Some (_, v) => Trim (TrimSpace v) "034"%char
  | None => ""
  end.

End CargoSpec.

(** ** Sample worlds and a sample codec, to run the mutators *)

Module Sample.

Definition homeDir : path := ["home"; "u"].

(** A home directory with nothing in it, on Linux. *)
Definition fresh : World :=
  mkWorld "linux" (Some homeDir) ∅ {[ ["home"]; homeDir ]} ∅.

Definition npmrc : path := homeDir ++ [".npmrc"].
Definition bashrc : path := homeDir ++ [".bashrc"].
Definition pip_conf : path := homeDir ++ [".config"; "pip"; "pip.conf"].
Definition cargo_config : path := homeDir ++ [".cargo"; "config.toml"].
Definition daemon_json : path := homeDir ++ [".docker"; "daemon.json"].
Definition daemon_backup : path := homeDir ++ [".docker"; "daemon.json.backup"].

(** The mirrors of [DefaultConfig]. *)
Definition npm := NPM.NewNPMMirror "https://registry.npmmirror.com".
Definition pip := Pip.NewPipMirror "https://mirrors.aliyun.com/pypi/simple/".
Definition cargo := Cargo.NewCargoMirror "https://mirrors.ustc.edu.cn/crates.io-index".
Definition go := Go.NewGoMirror "https://goproxy.cn,direct".
Definition docker := Docker.NewDockerMirror ["docker.1ms.run"; "docker.m.daocloud.io"].

(** A stand-in for [encoding/json] on the few documents the examples
    need: it decodes [{}], [null] and the document [Enable] writes for the
    default mirrors, and rejects every other text. *)
Definition q : string := Cargo.quote.

Definition mirrors_text (l : list string) : string :=
  "{" +:+ NL +:+ "  " +:+ q +:+ "registry-mirrors" +:+ q +:+ ": [" +:+ NL
  +:+ Join (map (fun m => "    " +:+ q +:+ m +:+ q) l) ("," +:+ NL) +:+ NL
  +:+ "  ]" +:+ NL +:+ "}".

Definition strings_of (l : list (jvalue Empty_set)) : list string :=
  flat_map (fun v => match v with JString m => [m] | _ => [] end) l.

Definition default_mirrors : list string :=
  ["https://docker.1ms.run"; "https://docker.m.daocloud.io"].

Definition codec : Json := {|
  float64 := Empty_set;
  Unmarshal data :=
    if String.eqb data "{}" then Some (mkmap ∅)
    else if String.eqb data "null" then Some nilmap
    else if String.eqb data (mirrors_text default_mirrors) then
      Some (mkmap {[ "registry-mirrors" := JArray (map JString default_mirrors) ]})
    else None;
  MarshalIndent config :=
    match config with
    | nilmap => "null"
    | mkmap m =>
        match m !! "registry-mirrors" with
        | Some (JArray l) => mirrors_text (strings_of l)
        | _ => "{}"
        end
    end
|}.

End Sample.

(** ** Further vocabulary: paths, files and states the properties speak of *)

(** The first and the last byte of a string. *)
Definition plain_first (q : string) : bool :=
  match q with String c _ => plain c | EmptyString => false end.

Definition plain_last (q : string) : bool := plain_first (String.rev q).

(** What is read where a mutator falls back on the empty text. *)
Definition content_of (w : World) (p : path) : string :=
  match os.ReadFile p w with
  | inr data => data
  | inl _ => ""
  end.

(** A place where a file is or can be created. *)
Definition writable (w : World) (p : path) : Prop :=
  os.is_dir w p = false /\ os.under_file w p = false
  /\ os.is_dir w (os.parent p) = true.

Definition npmrc_two_registries : string :=
  "registry=https://old" +:+ NL +:+ NL +:+ "color=true" +:+ NL
  +:+ "  registry=https://older" +:+ NL.

Definition pip_init : Pip.scan := Pip.mkScan [] false false false.

(** The state of the loop with no line written yet. *)
Definition pip_flags (st : Pip.scan) : Pip.scan :=
  Pip.mkScan [] (Pip.hasGlobalSection st) (Pip.hasIndexURL st)
    (Pip.inGlobalSection st).

(** The lines written so far in front of a state. *)
Definition pip_after (acc : list string) (st : Pip.scan) : Pip.scan :=
  Pip.mkScan (acc ++ Pip.newLines st) (Pip.hasGlobalSection st)
    (Pip.hasIndexURL st) (Pip.inGlobalSection st).

(** When [[global]] was seen and no [index-url] was written, the scan is
    inside [[global]]. *)
Definition pip_open (st : Pip.scan) : Prop :=
  Pip.hasGlobalSection st = true -> Pip.hasIndexURL st = false ->
  Pip.inGlobalSection st = true.

(** The path of [pip.conf] and of its directory below a home directory. *)
Definition pip_dir (h : path) : path := (h ++ [".config"]) ++ ["pip"].

Definition pip_conf (h : path) : path := pip_dir h ++ ["pip.conf"].

(** The path of [config.toml] and of its directory below a home directory. *)
Definition cargo_dir (h : path) : path := h ++ [".cargo"].

Definition cargo_config (h : path) : path := cargo_dir h ++ ["config.toml"].

(** A config in which a [registry] key of an unrelated section comes first. *)
Definition cargo_config_two_registries : string :=
  "[registries.corp]" +:+ NL
  +:+ "registry = " +:+ Cargo.quote +:+ "https://corp.example/index" +:+ Cargo.quote
  +:+ NL +:+ "[source.ustc]" +:+ NL
  +:+ "registry = " +:+ Cargo.quote +:+ "https://mirrors.ustc.edu.cn/crates.io-index"
  +:+ Cargo.quote +:+ NL.

(** The next run of the program from the same shell: the files an operation
    left, and the environment the shell had before it. *)
Definition next_run (before after : World) : World :=
  mkWorld (goos after) (home after) (env before) (dirs after) (files after).

(** Files on which [Enable] of the cargo mutator is run below. *)
Definition ustc_block : string :=
  "[source.ustc]" +:+ NL +:+ Cargo.registry_line Sample.cargo +:+ NL.

Definition cargo_crates_then_ustc : string :=
  "[source.crates-io]" +:+ NL +:+ ustc_block.

Definition cargo_commented_replace_with : string :=
  "[source.crates-io]" +:+ NL +:+ "# replace-with = 'tuna'" +:+ NL
  +:+ "[build]" +:+ NL +:+ "jobs = 4" +:+ NL.

Definition cargo_crates_only : string := "[source.crates-io]" +:+ NL.

(** The blank line [Enable] puts before the pair: none when nothing was
    written yet or when the last line written is empty. *)
Definition cargo_separator (written : list string) : list string :=
  if Nat.ltb 0 (List.length written) && negb (String.eqb (List.last written "") "")
  then [""] else [].

(** The paths of the Docker mutator below a home directory. *)
Definition docker_dir (h : path) : path := h ++ [".docker"].

Definition daemon_json (h : path) : path := docker_dir h ++ ["daemon.json"].

Definition daemon_backup (h : path) : path :=
  docker_dir h ++ ["daemon.json.backup"].

(** The object [Enable] builds from nothing. *)
Definition fresh_config `{Json} (d : Docker.DockerMirror) : gomap float64 :=
  if Nat.ltb 0 (List.length (Docker.registries d))
  then mkmap {[ "registry-mirrors" := Docker.mirrors_value d ]}
  else mkmap ∅.

(** A [daemon.json] that is not JSON, in an existing [.docker]. *)
Definition corrupt_docker : World :=
  with_file Sample.daemon_json "{registry-mirrors: oops"
    (with_dir (Sample.homeDir ++ [".docker"]) Sample.fresh).

(** A target file that is absent or empty. *)
Definition blank_start (w : World) (f : path) : Prop :=
  files w !! f = None \/ files w !! f = Some "".

(** ** Vocabulary of the further properties *)

(** A world without the file [p]. *)
Definition without_file (p : path) (w : World) : World :=
  mkWorld (goos w) (home w) (env w) (dirs w) (delete p (files w)).

(** What the [Disable] of a line-oriented mutator leaves of a file: the
    lines it kept, each closed by a line feed, or no file when it kept
    none. *)
Definition kept_file (p : path) (kept : list string) (w : World) : World :=
  match kept with
  | [] => without_file p w
  | _ :: _ => with_file p (Join kept NL +:+ NL) w
  end.

(** A value with no white space at its end; a value with none at either
    end. *)
Definition trimmed_end (v : string) : Prop := plain_last v = true.

Definition trimmed_value (v : string) : Prop :=
  plain_first v = true /\ plain_last v = true.

(** The lines the pip [Disable] keeps. *)
Definition pip_foreign (line : string) : bool :=
  negb (PipSpec.is_index line) && negb (is_blank line).

(** A line of pip.conf with a value: it starts with [index-url] and has an
    [=]. *)
Definition pip_is_setting (line : string) : bool :=
  PipSpec.is_index line && has_byte "="%char (TrimSpace line).

Definition pip_setting_value (line : string) : string :=
  match cut (TrimSpace line) "="%char with
  | Some (_, v) => TrimSpace v
  | None => ""
  end.

(** The headers of the two sections the cargo mutator owns. *)
Definition cargo_owned_header (line : string) : bool :=
  String.eqb (TrimSpace line) "[source.crates-io]"
  || String.eqb (TrimSpace line) "[source.ustc]".

(** The lines of a cargo config that are neither blank nor [replace-with]
    lines. *)
Definition cargo_foreign (line : string) : bool :=
  negb (is_blank line) && negb (CargoSpec.is_replace_with line).

(** The lines of an rc file the Go mutator takes for its own. *)
Definition go_sentinel (line : string) : bool :=
  String.eqb (TrimSpace line) "# Added by crosh".

Definition go_export (line : string) : bool := Contains line "export GOPROXY=".

Definition go_foreign (line : string) : bool :=
  negb (go_sentinel line) && negb (go_export line).

(** What Docker [Enable] makes of one registry, and what [Status] shows of
    one mirror. *)
Definition docker_normalize (reg : string) : string :=
  if negb (HasPrefix reg "http://") && negb (HasPrefix reg "https://")
  then "https://" +:+ reg else reg.

Definition docker_display (str : string) : string :=
  TrimPrefix (TrimPrefix str "https://") "http://".

Definition has_scheme (reg : string) : bool :=
  HasPrefix reg "http://" || HasPrefix reg "https://".

(** A header of a cargo config that is not one of the two the mutator
    owns. *)
Definition cargo_other_header (line : string) : bool :=
  is_header line && negb (cargo_owned_header line).

(** What the cargo [Enable] appends besides blank lines and [replace-with]
    lines: both sections when no line is [[source.crates-io]], else the
    [[source.ustc]] section when the text [[source.ustc]] occurs nowhere. *)
Definition cargo_appended (c : Cargo.CargoMirror) (content : string)
  : list string :=
  if existsb CargoSpec.is_crates_io (Split content LF) then
    if Contains content "[source.ustc]" then []
    else ["[source.ustc]"; Cargo.registry_line c]
  else ["[source.crates-io]"; "[source.ustc]"; Cargo.registry_line c].

(** A value with no double quote at either end. *)
Definition quote_first (v : string) : bool :=
  match v with
  | String c _ => Ascii.eqb c "034"
  | EmptyString => false
  end.

Definition unquoted (v : string) : Prop :=
  quote_first v = false /\ quote_first (String.rev v) = false.

(** The object Docker [Enable] writes for the object [m] it read: the
    mirrors are set when the mutator has registries, and the object is
    written back as it is when it has none. *)
Definition docker_enabled `{Json} (d : Docker.DockerMirror)
    (m : gmap string (jvalue float64)) : gmap string (jvalue float64) :=
  if Nat.ltb 0 (List.length (Docker.registries d))
  then <["registry-mirrors" := Docker.mirrors_value d]> m
  else m.

(** A system that is not macOS: [isDockerDesktop] looks no further. *)
Definition not_darwin (w : World) : Prop := String.eqb (goos w) "darwin" = false.

(** macOS with [/Applications/Docker.app]. *)
Definition desktop_installed (w : World) : Prop :=
  goos w = "darwin"
  /\ (os.is_file w ["Applications"; "Docker.app"]
      || os.is_dir w ["Applications"; "Docker.app"]) = true.

(** A stand-in for [encoding/json] on documents with a [debug] key, for
    the examples of the properties of the Docker mutator: it decodes [null],
    the object with [debug] only, and the one with [debug] and the default
    mirrors. *)
Definition debug_text : string :=
  "{" +:+ NL +:+ "  " +:+ Sample.q +:+ "debug" +:+ Sample.q +:+ ": true" +:+ NL
  +:+ "}".

Definition debug_mirrors_text (l : list string) : string :=
  "{" +:+ NL +:+ "  " +:+ Sample.q +:+ "debug" +:+ Sample.q +:+ ": true," +:+ NL
  +:+ "  " +:+ Sample.q +:+ "registry-mirrors" +:+ Sample.q +:+ ": [" +:+ NL
  +:+ Join (map (fun m => "    " +:+ Sample.q +:+ m +:+ Sample.q) l) ("," +:+ NL)
  +:+ NL +:+ "  ]" +:+ NL +:+ "}".

Definition debug_codec : Json := {|
  float64 := Empty_set;
  Unmarshal data :=
    if String.eqb data "null" then Some nilmap
    else if String.eqb data debug_text then
      Some (mkmap {[ "debug" := JBool true ]})
    else if String.eqb data (debug_mirrors_text Sample.default_mirrors) then
      Some (mkmap (<[ "registry-mirrors" :=
                        JArray (map JString Sample.default_mirrors) ]>
                     {[ "debug" := JBool true ]}))
    else None;
  MarshalIndent config :=
    match config with
    | nilmap => "null"
    | mkmap m =>
        match m !! "debug", m !! "registry-mirrors" with
        | Some _, Some (JArray l) => debug_mirrors_text (Sample.strings_of l)
        | Some _, _ => debug_text
        | None, Some (JArray l) => Sample.mirrors_text (Sample.strings_of l)
        | None, _ => "{}"
        end
    end
|}.

(** A home directory with a [daemon.json] that sets [debug] only, one that
    holds [null], and one with [debug] and the default mirrors. *)
Definition docker_home (data : string) : World :=
  with_file Sample.daemon_json data
    (with_dir (Sample.homeDir ++ [".docker"]) Sample.fresh).

(** The paths of package [config] below a home directory. *)
Definition crosh_dir (h : path) : path := h ++ [".crosh"].

Definition config_yaml (h : path) : path := crosh_dir h ++ ["config.yaml"].

(** A stand-in for [gopkg.in/yaml.v3] on two documents, for the examples
    of the properties of package [config]: the configuration of
    [DefaultConfig] in the sample home directory, with the mirrors enabled or
    not. *)
Definition sample_config (enabled : bool) : config.Config :=
  config.mkConfig
    (config.MirrorConfig.mk
       "https://registry.npmmirror.com"
       "https://mirrors.aliyun.com/pypi/simple/"
       "mirrors.aliyun.com"
       "https://mirrors.ustc.edu.cn/crates.io-index"
       "https://goproxy.cn,direct"
       ["docker.1ms.run"; "docker.m.daocloud.io"]
       enabled)
    (config.Proxy (config.DefaultConfig Sample.fresh)).

Definition sample_yaml_text (enabled : bool) : string :=
  "mirror:" +:+ NL +:+ "  enabled: " +:+ (if enabled then "true" else "false")
  +:+ NL.

Definition sample_yaml : config.Yaml := {|
  config.yaml_Unmarshal data :=
    if String.eqb data (sample_yaml_text true) then Ok (sample_config true)
    else if String.eqb data (sample_yaml_text false) then Ok (sample_config false)
    else Fail JsonError;
  config.yaml_Marshal c :=
    Ok (sample_yaml_text (config.MirrorConfig.Enabled (config.Mirror c)))
|}.

(** * Properties *)

(** ** Facts about package [strings] *)

Section StringFacts.

Lemma app_String (a : ascii) (s t : string) :
  String a s +:+ t = String a (s +:+ t).
Proof. reflexivity. Qed.

Lemma app_empty_r (s : string) : s +:+ "" = s.
Proof. induction s as [|a s IH]; [reflexivity|]. rewrite app_String, IH. reflexivity. Qed.

Lemma app_assoc_s (s t u : string) : (s +:+ t) +:+ u = s +:+ (t +:+ u).
Proof.
  induction s as [|a s IH]; [reflexivity|].
  rewrite !app_String, IH. reflexivity.
Qed.

Lemma rev_app_spec (s t : string) : String.rev_app s t = String.rev s +:+ t.
Proof.
  unfold String.rev. revert t.
  induction s as [|a s IH]; intros t; [reflexivity|].
  cbn [String.rev_app]. rewrite (IH (String a "")), IH, app_assoc_s.
  reflexivity.
Qed.

Lemma rev_String (a : ascii) (s : string) :
  String.rev (String a s) = String.rev s +:+ String a "".
Proof. unfold String.rev at 1. cbn [String.rev_app]. apply rev_app_spec. Qed.

Lemma rev_app_distr (s t : string) :
  String.rev (s +:+ t) = String.rev t +:+ String.rev s.
Proof.
  induction s as [|a s IH].
  - rewrite app_empty_r. reflexivity.
  - rewrite app_String, !rev_String, IH, app_assoc_s. reflexivity.
Qed.

Lemma rev_involutive (s : string) : String.rev (String.rev s) = s.
Proof.
  induction s as [|a s IH]; [reflexivity|].
  rewrite rev_String, rev_app_distr, IH. reflexivity.
Qed.

Lemma prefix_app (q r : string) : String.prefix q (q +:+ r) = true.
Proof.
  induction q as [|a q IH]; [destruct r; reflexivity|].
  rewrite app_String. cbn [String.prefix].
  destruct (ascii_dec a a); [exact IH | congruence].
Qed.

(** *** Splitting into lines *)

Lemma Split_nonempty (s : string) (sep : ascii) : Split s sep <> [].
Proof.
  destruct s as [|c s]; cbn [Split]; [discriminate|].
  destruct (Ascii.eqb c sep); [discriminate|].
  destruct (Split s sep); discriminate.
Qed.

Lemma Split_line (a b : string) :
  has_byte LF a = false -> Split (a +:+ String LF b) LF = a :: Split b LF.
Proof.
  induction a as [|c a IH]; intros Hc.
  - reflexivity.
  - cbn [has_byte] in Hc. apply orb_false_iff in Hc as [Hc Ha].
    rewrite app_String. cbn [Split]. rewrite Hc, (IH Ha). reflexivity.
Qed.

Lemma Split_one (a : string) : has_byte LF a = false -> Split a LF = [a].
Proof.
  induction a as [|c a IH]; intros Hc; [reflexivity|].
  cbn [has_byte] in Hc. apply orb_false_iff in Hc as [Hc Ha].
  cbn [Split]. rewrite Hc, (IH Ha). reflexivity.
Qed.

(** *** Trimming white space *)

Lemma plain_not_space (c : ascii) : plain c = true -> asciiSpace c = false.
Proof. unfold plain. intros [H _]%andb_true_iff. now apply negb_true_iff. Qed.

Lemma plain_lt (c : ascii) : plain c = true -> (byte c < 128)%N.
Proof. unfold plain. intros [_ H]%andb_true_iff. now apply N.ltb_lt. Qed.

Lemma space2_plain_l (a b : ascii) : plain a = true -> space2 a b = false.
Proof.
  intros Ha%plain_lt. unfold space2.
  destruct (N.eqb_spec (byte a) 194); [lia | reflexivity].
Qed.

Lemma space2_plain_r (a b : ascii) : plain b = true -> space2 a b = false.
Proof.
  intros Hb%plain_lt. unfold space2.
  destruct (N.eqb_spec (byte b) 133); [lia|].
  destruct (N.eqb_spec (byte b) 160); [lia|].
  apply andb_false_r.
Qed.

Lemma space3_plain_l (a b c : ascii) : plain a = true -> space3 a b c = false.
Proof.
  intros Ha%plain_lt. unfold space3.
  destruct (N.eqb_spec (byte a) 225); [lia|].
  destruct (N.eqb_spec (byte a) 226); [lia|].
  destruct (N.eqb_spec (byte a) 227); [lia|].
  reflexivity.
Qed.

Lemma space3_plain_m (a b c : ascii) : plain b = true -> space3 a b c = false.
Proof.
  intros Hb%plain_lt. unfold space3.
  destruct (N.eqb_spec (byte b) 154); [lia|].
  destruct (N.eqb_spec (byte b) 128); [lia|].
  destruct (N.eqb_spec (byte b) 129); [lia|].
  rewrite !andb_false_r. reflexivity.
Qed.

Lemma space3_plain_r (a b c : ascii) : plain c = true -> space3 a b c = false.
Proof.
  intros Hc%plain_lt. unfold space3.
  destruct (N.eqb_spec (byte c) 128); [lia|].
  destruct (N.eqb_spec (byte c) 168); [lia|].
  destruct (N.eqb_spec (byte c) 169); [lia|].
  destruct (N.eqb_spec (byte c) 175); [lia|].
  destruct (N.eqb_spec (byte c) 159); [lia|].
  destruct (N.leb_spec 128 (byte c)); [lia|].
  rewrite !andb_false_r. reflexivity.
Qed.

(** A string that starts with a plain byte has no white space in front. *)
Lemma TrimLeftSpace_plain (c : ascii) (s : string) :
  plain c = true -> TrimLeftSpace (String c s) = String c s.
Proof.
  intros Hc. unfold TrimLeftSpace. cbn [trimFront].
  rewrite (plain_not_space _ Hc).
  destruct s as [|b s]; [reflexivity|].
  rewrite (space2_plain_l _ b Hc).
  destruct s as [|d s]; [reflexivity|].
  rewrite (space3_plain_l _ b d Hc). reflexivity.
Qed.

Lemma trimFront_rev_plain (c : ascii) (y : string) :
  plain c = true ->
  trimFront space2r space3r (String c y) = String c y.
Proof.
  intros Hc. cbn [trimFront]. rewrite (plain_not_space _ Hc).
  destruct y as [|b y]; [reflexivity|].
  change (space2r c b) with (space2 b c). rewrite (space2_plain_r b c Hc).
  destruct y as [|d y]; [reflexivity|].
  change (space3r c b d) with (space3 d b c).
  rewrite (space3_plain_r d b c Hc). reflexivity.
Qed.

(** One step of [trimFront], by the bytes in front. *)
Lemma trimFront_1 p2 p3 (a : ascii) :
  trimFront p2 p3 (String a "") = if asciiSpace a then "" else String a "".
Proof. reflexivity. Qed.

Lemma trimFront_2 p2 p3 (a b : ascii) :
  trimFront p2 p3 (String a (String b ""))
  = if asciiSpace a then trimFront p2 p3 (String b "")
    else if p2 a b then "" else String a (String b "").
Proof. reflexivity. Qed.

Lemma trimFront_3 p2 p3 (a b d : ascii) (t : string) :
  trimFront p2 p3 (String a (String b (String d t)))
  = if asciiSpace a then trimFront p2 p3 (String b (String d t))
    else if p2 a b then trimFront p2 p3 (String d t)
    else if p3 a b d then trimFront p2 p3 t
    else String a (String b (String d t)).
Proof. reflexivity. Qed.

(** Trimming from the end stops at a plain byte at the latest. *)
Lemma trimFront_rev_app (c : ascii) (y : string) :
  plain c = true ->
  forall (n : nat) (x : string), String.length x <= n ->
  trimFront space2r space3r (x +:+ String c y)
  = trimFront space2r space3r x +:+ String c y.
Proof.
  intros Hc.
  pose proof (trimFront_rev_plain c y Hc) as Hbase.
  induction n as [|n IH]; intros x Hlen.
  - destruct x; [|cbn in Hlen; lia]. exact Hbase.
  - destruct x as [|a [|b [|d x]]]; [exact Hbase|..].
    + change (String a "" +:+ String c y) with (String a (String c y)).
      rewrite trimFront_1.
      destruct y as [|e y].
      * rewrite trimFront_2.
        change (space2r a c) with (space2 c a).
        rewrite (space2_plain_l c a Hc).
        destruct (asciiSpace a); [exact Hbase | reflexivity].
      * rewrite trimFront_3.
        change (space2r a c) with (space2 c a).
        change (space3r a c e) with (space3 e c a).
        rewrite (space2_plain_l c a Hc), (space3_plain_m e c a Hc).
        destruct (asciiSpace a); [exact Hbase | reflexivity].
    + change (String a (String b "") +:+ String c y)
        with (String a (String b (String c y))).
      rewrite trimFront_3, trimFront_2.
      change (space3r a b c) with (space3 c b a).
      rewrite (space3_plain_l c b a Hc).
      destruct (asciiSpace a).
      { apply (IH (String b "")). cbn in *. lia. }
      destruct (space2r a b); [exact Hbase | reflexivity].
    + rewrite !app_String, !trimFront_3.
      cbn [String.length] in Hlen.
      destruct (asciiSpace a).
      { rewrite <- !app_String. apply IH. cbn. lia. }
      destruct (space2r a b).
      { rewrite <- !app_String. apply IH. cbn. lia. }
      destruct (space3r a b d); [apply IH; lia | reflexivity].
Qed.

(** A text between two plain bytes survives [TrimSpace], and only what
    follows it is trimmed. *)
Lemma TrimSpace_keep (q r : string) :
  plain_first q = true -> plain_last q = true ->
  TrimSpace (q +:+ r) = q +:+ TrimRightSpace r.
Proof.
  intros Hf Hl. unfold TrimSpace.
  destruct q as [|c q]; [discriminate|].
  rewrite app_String, (TrimLeftSpace_plain c _ Hf), <- app_String.
  unfold TrimRightSpace. rewrite rev_app_distr.
  unfold plain_last in Hl.
  destruct (String.rev (String c q)) as [|d z] eqn:Er; [discriminate|].
  cbn [plain_first] in Hl.
  rewrite (trimFront_rev_app d z Hl _ _ (le_n _)).
  rewrite rev_app_distr, <- Er, rev_involutive. reflexivity.
Qed.

Lemma TrimSpace_keep_prefix (q r : string) :
  plain_first q = true -> plain_last q = true ->
  HasPrefix (TrimSpace (q +:+ r)) q = true.
Proof.
  intros Hf Hl. rewrite (TrimSpace_keep q r Hf Hl). apply prefix_app.
Qed.

Lemma TrimSpace_empty : TrimSpace "" = "".
Proof. reflexivity. Qed.

End StringFacts.

(** ** Facts about the operating system *)

Section OsFacts.

Lemma WriteFile_ok (w : World) (p : path) (data : string) :
  writable w p ->
  os.WriteFile p data w
  = (mkWorld (goos w) (home w) (env w) (dirs w) (<[p := data]> (files w)), None).
Proof.
  intros (Hd & Hu & Hp). unfold os.WriteFile.
  rewrite Hd, Hu, Hp. destruct (os.is_file w p); reflexivity.
Qed.

Lemma ReadFile_writable (w : World) (p : path) :
  writable w p ->
  os.ReadFile p w = match files w !! p with
                    | Some data => inr data
                    | None => inl ENOENT
                    end.
Proof.
  intros (Hd & Hu & _). unfold os.ReadFile.
  destruct (files w !! p); [reflexivity|]. rewrite Hd, Hu. reflexivity.
Qed.

Lemma content_of_writable (w : World) (p : path) :
  writable w p -> content_of w p = default "" (files w !! p).
Proof.
  intros Hw. unfold content_of. rewrite (ReadFile_writable w p Hw).
  destruct (files w !! p); reflexivity.
Qed.

End OsFacts.

(** ** npm *)

Section NPMFacts.

Import NPMSpec.

Lemma npm_enable_body_step (u : string) (acc : list string) (b : bool)
    (l : string) :
  NPM.enable_body ("registry=" +:+ u) (acc, b) l
  = (acc ++ rewrite_line u l, b || is_registry l).
Proof.
  unfold NPM.enable_body, rewrite_line.
  fold (is_registry l). fold (is_blank l).
  destruct (is_registry l); cbn [negb].
  - rewrite orb_true_r. reflexivity.
  - rewrite orb_false_r. destruct (is_blank l); cbn [negb].
    + rewrite app_nil_r. reflexivity.
    + reflexivity.
Qed.

Lemma npm_enable_range (u : string) (lines acc : list string) (b : bool) :
  range lines (NPM.enable_body ("registry=" +:+ u)) (acc, b)
  = (acc ++ flat_map (rewrite_line u) lines, b || existsb is_registry lines).
Proof.
  revert acc b. unfold range.
  induction lines as [|l lines IH]; intros acc b; cbn [fold_left flat_map existsb].
  - rewrite app_nil_r, orb_false_r. reflexivity.
  - rewrite npm_enable_body_step, IH, <- app_assoc, orb_assoc. reflexivity.
Qed.

(** The loop of [Enable] is the rewrite the specification describes. *)
Lemma npm_enable_lines_rewrite (n : NPM.NPMMirror) (lines : list string) :
  NPM.enable_lines n lines = rewrite (NPM.registryURL n) lines.
Proof.
  unfold NPM.enable_lines, rewrite. rewrite npm_enable_range.
  cbn [app orb]. destruct (existsb is_registry lines); cbn [negb].
  - rewrite app_nil_r. reflexivity.
  - reflexivity.
Qed.

Lemma registry_line_is_registry (u : string) :
  is_registry ("registry=" +:+ u) = true.
Proof. apply (TrimSpace_keep_prefix "registry=" u); reflexivity. Qed.

Lemma is_registry_not_blank (l : string) :
  is_registry l = true -> is_blank l = false.
Proof.
  unfold is_registry, is_blank, HasPrefix.
  destruct (TrimSpace l); [discriminate | reflexivity].
Qed.

Lemma rewrite_no_blank (u : string) (lines : list string) :
  Forall (fun l => is_blank l = false) (rewrite u lines).
Proof.
  pose proof (is_registry_not_blank _ (registry_line_is_registry u)) as Hr.
  unfold rewrite. apply Forall_app. split.
  - induction lines as [|l lines IH]; cbn [flat_map]; [constructor|].
    apply Forall_app. split; [|exact IH].
    unfold rewrite_line. destruct (is_registry l); [repeat constructor; exact Hr|].
    destruct (is_blank l) eqn:Eb; repeat constructor. exact Eb.
  - destruct (existsb is_registry lines); repeat constructor. exact Hr.
Qed.

Lemma rewrite_line_foreign (u l : string) :
  List.filter foreign (rewrite_line u l) = List.filter foreign [l].
Proof.
  pose proof (registry_line_is_registry u) as Hr.
  unfold rewrite_line. cbn [List.filter].
  destruct (is_registry l) eqn:Er; [|destruct (is_blank l) eqn:Eb];
    cbn [List.filter]; unfold foreign; rewrite ?Hr, ?Er, ?Eb; reflexivity.
Qed.

Lemma rewrite_foreign (u : string) (lines : list string) :
  List.filter foreign (rewrite u lines) = List.filter foreign lines.
Proof.
  pose proof (registry_line_is_registry u) as Hr.
  unfold rewrite. rewrite List.filter_app.
  replace (List.filter foreign
             (if existsb is_registry lines then [] else ["registry=" +:+ u]))
    with (@nil string).
  2:{ destruct (existsb is_registry lines); cbn [List.filter]; [reflexivity|].
      unfold foreign. rewrite Hr. reflexivity. }
  rewrite app_nil_r.
  induction lines as [|l lines IH]; [reflexivity|].
  cbn [flat_map]. rewrite List.filter_app, IH, rewrite_line_foreign.
  cbn [List.filter]. destruct (foreign l); reflexivity.
Qed.

Lemma npm_status_report (lines : list string) :
  NPM.status_lines lines = report lines.
Proof.
  unfold report.
  induction lines as [|l lines IH]; [reflexivity|].
  cbn [NPM.status_lines List.find]. fold (is_registry l).
  destruct (is_registry l); [reflexivity | exact IH].
Qed.

End NPMFacts.

Section NPMWorld.

Lemma npm_Enable_run (n : NPM.NPMMirror) (w : World) (h : path) :
  home w = Some h -> writable w (h ++ [".npmrc"]) ->
  NPM.Enable n w
  = (with_file (h ++ [".npmrc"])
       (NPM.enable_content n (default "" (files w !! (h ++ [".npmrc"])))) w,
     None).
Proof.
  intros Hh Hw. unfold NPM.Enable, os.UserHomeDir, Join_path. rewrite Hh.
  fold (content_of w (h ++ [".npmrc"])).
  rewrite (content_of_writable _ _ Hw), (WriteFile_ok _ _ _ Hw). reflexivity.
Qed.

Lemma npm_Status_run (n : NPM.NPMMirror) (w : World) (h : path) :
  home w = Some h -> writable w (h ++ [".npmrc"]) ->
  NPM.Status n w
  = (w, (NPMSpec.report (Split (default "" (files w !! (h ++ [".npmrc"]))) LF),
         None)).
Proof.
  intros Hh Hw. unfold NPM.Status, os.UserHomeDir, Join_path. rewrite Hh.
  rewrite (ReadFile_writable _ _ Hw).
  destruct (files w !! (h ++ [".npmrc"])) as [data|]; cbn [os.IsNotExist default id].
  - rewrite npm_status_report.
    destruct (NPMSpec.report (Split data LF)). reflexivity.
  - reflexivity.
Qed.

End NPMWorld.

(** C7.  For every content of [.npmrc], [Enable] of the npm mutator writes
    the lines of the file rewritten as the specification says (every line
    whose trimmed form starts with [registry=] replaced by [registry=u], all
    of them and not only the first; every blank line dropped; the other lines
    kept in their order; [registry=u] added as the last line when there was no
    such line), and [Status] reports the value that follows [registry=] on the
    first such line only, without changing anything. *)
Theorem npm_enable_replaces_all_status_reads_first
    (n : NPM.NPMMirror) (w : World) (h : path) :
  home w = Some h ->
  writable w (h ++ [".npmrc"]) ->
  let npmrc := h ++ [".npmrc"] in
  let lines := Split (default "" (files w !! npmrc)) LF in
  let out := NPMSpec.rewrite (NPM.registryURL n) lines in
  snd (NPM.Enable n w) = None
  /\ files (fst (NPM.Enable n w)) !! npmrc = Some (Join out NL +:+ NL)
  /\ Forall (fun l => is_blank l = false) out
  /\ List.filter NPMSpec.foreign out = List.filter NPMSpec.foreign lines
  /\ NPM.Status n w
     = (w, match List.find NPMSpec.is_registry lines with
           | Some line => (true, TrimPrefix (TrimSpace line) "registry=", None)
           | None => (false, "default registry", None)
           end).
Proof.
  intros Hh Hw npmrc lines out.
  rewrite (npm_Enable_run n w h Hh Hw), (npm_Status_run n w h Hh Hw).
  cbn [fst snd with_file files].
  split; [reflexivity|]. split.
  { rewrite lookup_insert_eq. unfold NPM.enable_content.
    rewrite npm_enable_lines_rewrite. reflexivity. }
  split; [apply rewrite_no_blank|].
  split; [apply rewrite_foreign|].
  unfold NPMSpec.report. fold npmrc. fold lines.
  destruct (List.find NPMSpec.is_registry lines); reflexivity.
Qed.

Lemma npm_enable_replaces_all_status_reads_first_witness :
  let w := with_file Sample.npmrc npmrc_two_registries Sample.fresh in
  home w = Some Sample.homeDir
  /\ writable w Sample.npmrc
  /\ files (fst (NPM.Enable Sample.npm w)) !! Sample.npmrc
     = Some ("registry=https://registry.npmmirror.com" +:+ NL +:+ "color=true"
             +:+ NL +:+ "registry=https://registry.npmmirror.com" +:+ NL)
  /\ NPM.Status Sample.npm w = (w, (true, "https://old", None)).
Proof.
  intros w.
  assert (Hh : home w = Some Sample.homeDir) by reflexivity.
  assert (Hw : writable w Sample.npmrc) by (repeat split; vm_compute; reflexivity).
  destruct (npm_enable_replaces_all_status_reads_first Sample.npm w
              Sample.homeDir Hh Hw) as (_ & Hfile & _ & _ & Hstatus).
  split; [exact Hh|]. split; [exact Hw|]. split.
  - etransitivity; [exact Hfile|]. vm_compute. reflexivity.
  - etransitivity; [exact Hstatus|]. vm_compute. reflexivity.
Defined.

(** ** pip *)

Section PipFacts.

Import PipSpec.
Variable p : Pip.PipMirror.

Lemma is_header_not_blank (l : string) : is_header l = true -> is_blank l = false.
Proof.
  unfold is_header, is_blank, HasPrefix.
  destruct (TrimSpace l); [discriminate | reflexivity].
Qed.

Lemma is_global_header (l : string) : is_global l = true -> is_header l = true.
Proof.
  unfold is_global, is_header. intros ->%String.eqb_eq. reflexivity.
Qed.

Lemma is_index_not_header (l : string) : is_index l = true -> is_header l = false.
Proof.
  unfold is_index, is_header, HasPrefix.
  destruct (TrimSpace l) as [|c t]; [discriminate|].
  cbn [String.prefix].
  destruct (ascii_dec "i" c) as [<-|]; [reflexivity | discriminate].
Qed.

Lemma is_index_not_global (l : string) : is_index l = true -> is_global l = false.
Proof.
  intros Hi%is_index_not_header.
  destruct (is_global l) eqn:Eg; [|reflexivity].
  apply is_global_header in Eg. congruence.
Qed.

(** The body of the loop only adds lines, and what it adds and how it sets
    the flags does not depend on the lines written before. *)
Lemma pip_body_frame (st : Pip.scan) (l : string) :
  Pip.enable_body p st l
  = pip_after (Pip.newLines st) (Pip.enable_body p (pip_flags st) l).
Proof.
  destruct st as [acc g i n]. unfold Pip.enable_body, pip_after, pip_flags.
  cbn [Pip.newLines Pip.hasGlobalSection Pip.hasIndexURL Pip.inGlobalSection].
  repeat match goal with
         | |- context [if ?c then _ else _] => destruct c
         end;
    cbn [Pip.newLines Pip.hasGlobalSection Pip.hasIndexURL Pip.inGlobalSection
         app];
    rewrite ?app_nil_r; reflexivity.
Qed.


Lemma pip_range_app (l1 l2 : list string) (st : Pip.scan) :
  range (l1 ++ l2) (Pip.enable_body p) st
  = range l2 (Pip.enable_body p) (range l1 (Pip.enable_body p) st).
Proof. apply fold_left_app. Qed.





End PipFacts.

Section PipWorld.

Lemma MkdirAll_files (d : path) (w : World) :
  files (fst (os.MkdirAll d w)) = files w.
Proof.
  unfold os.MkdirAll.
  destruct (os.is_dir w d); [reflexivity|].
  destruct (os.is_file w d || os.under_file w d); reflexivity.
Qed.

Lemma MkdirAll_home (d : path) (w : World) :
  home (fst (os.MkdirAll d w)) = home w.
Proof.
  unfold os.MkdirAll.
  destruct (os.is_dir w d); [reflexivity|].
  destruct (os.is_file w d || os.under_file w d); reflexivity.
Qed.

Lemma getPipConfigPath_run (w : World) (h : path) :
  home w = Some h -> snd (os.MkdirAll (pip_dir h) w) = None ->
  Pip.getPipConfigPath w = (fst (os.MkdirAll (pip_dir h) w), Ok (pip_conf h)).
Proof.
  intros Hh Hm. unfold Pip.getPipConfigPath, os.UserHomeDir, Join_path.
  rewrite Hh. fold (pip_dir h).
  destruct (os.MkdirAll (pip_dir h) w) as [w1 [e|]]; [discriminate|].
  reflexivity.
Qed.

Lemma pip_Enable_run (p : Pip.PipMirror) (w : World) (h : path) :
  home w = Some h -> snd (os.MkdirAll (pip_dir h) w) = None ->
  writable (fst (os.MkdirAll (pip_dir h) w)) (pip_conf h) ->
  Pip.Enable p w
  = (with_file (pip_conf h)
       (Pip.enable_content p (default "" (files w !! pip_conf h)))
       (fst (os.MkdirAll (pip_dir h) w)),
     None).
Proof.
  intros Hh Hm Hw. unfold Pip.Enable.
  rewrite (getPipConfigPath_run w h Hh Hm).
  fold (content_of (fst (os.MkdirAll (pip_dir h) w)) (pip_conf h)).
  rewrite (content_of_writable _ _ Hw), MkdirAll_files, (WriteFile_ok _ _ _ Hw).
  reflexivity.
Qed.

End PipWorld.




(** ** cargo: [Status] *)

Section CargoStatus.

Import CargoSpec.

Lemma cut_none (c : ascii) (s : string) : has_byte c s = false -> cut s c = None.
Proof.
  induction s as [|a s IH]; intros Hs; [reflexivity|].
  cbn [has_byte] in Hs. apply orb_false_iff in Hs as [Ha Hs].
  cbn [cut]. rewrite Ha, (IH Hs). reflexivity.
Qed.

Lemma cut_some (c : ascii) (s : string) :
  has_byte c s = true -> exists a b, cut s c = Some (a, b).
Proof.
  induction s as [|x s IH]; intros Hs; [discriminate|].
  cbn [has_byte] in Hs. cbn [cut].
  destruct (Ascii.eqb x c); [eauto|].
  destruct (IH Hs) as (a & b & ->). eauto.
Qed.

Lemma cargo_status_lines_skip (l : string) (rest : list string) :
  is_registry l = false ->
  Cargo.status_lines (l :: rest) = Cargo.status_lines rest.
Proof.
  unfold is_registry. intros Hl. cbn [Cargo.status_lines].
  destruct (HasPrefix (TrimSpace l) "registry"); [|reflexivity].
  cbn [andb] in Hl. unfold SplitN2. rewrite (cut_none _ _ Hl). reflexivity.
Qed.

Lemma cargo_status_lines_hit (l : string) (rest : list string) :
  is_registry l = true ->
  Cargo.status_lines (l :: rest) = (true, registry_value l).
Proof.
  unfold is_registry, registry_value. intros [Hp Hb]%andb_true_iff.
  cbn [Cargo.status_lines]. rewrite Hp. unfold SplitN2.
  destruct (cut_some _ _ Hb) as (a & b & ->). reflexivity.
Qed.

Lemma cargo_status_lines_none (lines : list string) :
  Forall (fun x => is_registry x = false) lines ->
  Cargo.status_lines lines = (false, "default registry").
Proof.
  induction 1 as [|x lines Hx _ IH]; [reflexivity|].
  rewrite (cargo_status_lines_skip x _ Hx). exact IH.
Qed.

Lemma cargo_status_lines_first (pre : list string) (l : string)
    (post : list string) :
  Forall (fun x => is_registry x = false) pre -> is_registry l = true ->
  Cargo.status_lines (pre ++ l :: post) = (true, registry_value l).
Proof.
  intros Hpre Hl. induction Hpre as [|x pre Hx _ IH].
  - apply cargo_status_lines_hit, Hl.
  - cbn [app]. rewrite (cargo_status_lines_skip x _ Hx). exact IH.
Qed.

Lemma getCargoConfigPath_run (w : World) (h : path) :
  home w = Some h -> snd (os.MkdirAll (cargo_dir h) w) = None ->
  Cargo.getCargoConfigPath w
  = (fst (os.MkdirAll (cargo_dir h) w), Ok (cargo_config h)).
Proof.
  intros Hh Hm. unfold Cargo.getCargoConfigPath, os.UserHomeDir, Join_path.
  rewrite Hh. fold (cargo_dir h).
  destruct (os.MkdirAll (cargo_dir h) w) as [w1 [e|]]; [discriminate|].
  reflexivity.
Qed.

Lemma ReadFile_file (w : World) (f : path) (data : string) :
  files w !! f = Some data -> os.ReadFile f w = inr data.
Proof. intros Hf. unfold os.ReadFile. rewrite Hf. reflexivity. Qed.

End CargoStatus.

(** C10.  Cargo [Status]: whenever the config file contains the text
    [[source.ustc]] anywhere, and [l] is the first line of the whole file
    whose trimmed form starts with [registry] and contains [=], [Status]
    returns true with the value of [l] (what follows the first [=], trimmed
    and without the surrounding quotes); the value can come from a line
    outside the [[source.ustc]] section, such as a [registry] key of an
    earlier unrelated section.  (When the file has no such line at all,
    [Status] reports the default registry.) *)
Theorem cargo_status_reports_first_registry_line :
  (forall (c : Cargo.CargoMirror) (w : World) (h : path) (content : string)
          (pre : list string) (l : string) (post : list string),
     home w = Some h ->
     snd (os.MkdirAll (cargo_dir h) w) = None ->
     files w !! cargo_config h = Some content ->
     Contains content "[source.ustc]" = true ->
     Split content LF = pre ++ l :: post ->
     Forall (fun x => CargoSpec.is_registry x = false) pre ->
     CargoSpec.is_registry l = true ->
     snd (Cargo.Status c w) = (true, CargoSpec.registry_value l, None))
  /\ Cargo.status_content cargo_config_two_registries
     = (true, "https://corp.example/index")
  /\ (forall (content : string),
        Forall (fun x => CargoSpec.is_registry x = false) (Split content LF) ->
        Cargo.status_content content = (false, "default registry")).
Proof.
  split; [|split; [vm_compute; reflexivity|]].
  - intros c w h content pre l post Hh Hm Hf Hc Hs Hpre Hl.
    unfold Cargo.Status. rewrite (getCargoConfigPath_run w h Hh Hm).
    rewrite (ReadFile_file _ _ content); [|rewrite MkdirAll_files; exact Hf].
    unfold Cargo.status_content. rewrite Hc, Hs.
    rewrite (cargo_status_lines_first pre l post Hpre Hl). reflexivity.
  - intros content Hall. unfold Cargo.status_content.
    rewrite (cargo_status_lines_none _ Hall).
    destruct (Contains content "[source.ustc]"); reflexivity.
Qed.

Lemma cargo_status_reports_first_registry_line_witness :
  let w := with_file Sample.cargo_config cargo_config_two_registries
             (with_dir (Sample.homeDir ++ [".cargo"]) Sample.fresh) in
  snd (Cargo.Status Sample.cargo w) = (true, "https://corp.example/index", None).
Proof.
  intros w.
  destruct cargo_status_reports_first_registry_line as [H _].
  etransitivity.
  - apply (H Sample.cargo w Sample.homeDir cargo_config_two_registries
             ["[registries.corp]"]
             ("registry = " +:+ Cargo.quote +:+ "https://corp.example/index"
              +:+ Cargo.quote)
             ["[source.ustc]";
              "registry = " +:+ Cargo.quote
              +:+ "https://mirrors.ustc.edu.cn/crates.io-index" +:+ Cargo.quote;
              ""]).
    + reflexivity.
    + vm_compute. reflexivity.
    + vm_compute. reflexivity.
    + vm_compute. reflexivity.
    + vm_compute. reflexivity.
    + repeat constructor.
    + vm_compute. reflexivity.
  - vm_compute. reflexivity.
Defined.

(** ** Go proxy: [Status] *)

(** C9.  Go-proxy [Status] returns [(true, value, nil)] exactly when the
    environment variable [GOPROXY] is not empty, [value] being the variable,
    and [(false, "default proxy", nil)] otherwise; it changes nothing; its
    result depends on the environment only, never on the rc file; so it can
    disagree with what [Enable] wrote to the rc file last. *)
Theorem go_status_reads_environment_only (g : Go.GoMirror) :
  (forall w,
     Go.Status g w
     = (w, if String.eqb (os.Getenv "GOPROXY" w) ""
           then (false, "default proxy", None)
           else (true, os.Getenv "GOPROXY" w, None)))
  /\ (forall w, (snd (Go.Status g w)).1.1 = true <-> os.Getenv "GOPROXY" w <> "")
  /\ (forall w w', env w = env w' -> snd (Go.Status g w) = snd (Go.Status g w'))
  /\ (forall w rc data,
        snd (Go.Status g (with_file rc data w)) = snd (Go.Status g w))
  /\ (let w := next_run Sample.fresh (fst (Go.Enable Sample.go Sample.fresh)) in
      files w !! Sample.bashrc
      = Some (NL +:+ NL +:+ "# Added by crosh" +:+ NL
              +:+ "export GOPROXY=https://goproxy.cn,direct" +:+ NL)
      /\ snd (Go.Status Sample.go w) = (false, "default proxy", None)).
Proof.
  split; [|split; [|split; [|split]]].
  - intros w. unfold Go.Status.
    destruct (String.eqb (os.Getenv "GOPROXY" w) ""); reflexivity.
  - intros w. unfold Go.Status.
    destruct (String.eqb_spec (os.Getenv "GOPROXY" w) "") as [E|E]; cbn.
    + split; [discriminate | congruence].
    + split; [intros _; exact E | reflexivity].
  - intros w w' E. unfold Go.Status, os.Getenv. rewrite E.
    destruct (String.eqb (default "" (env w' !! "GOPROXY")) ""); reflexivity.
  - intros w rc data. unfold Go.Status, os.Getenv. cbn [with_file env].
    destruct (String.eqb (default "" (env w !! "GOPROXY")) ""); reflexivity.
  - split; vm_compute; reflexivity.
Qed.

Lemma go_status_reads_environment_only_witness :
  snd (Go.Status Sample.go (fst (Go.Enable Sample.go Sample.fresh)))
  = snd (Go.Status Sample.go (fst (os.Setenv "GOPROXY" "https://goproxy.cn,direct" Sample.fresh))).
Proof.
  destruct (go_status_reads_environment_only Sample.go) as (_ & _ & H & _).
  apply H. vm_compute. reflexivity.
Defined.

(** ** [Status] and the file system *)

Section StatusFrame.

Lemma npm_Status_world (n : NPM.NPMMirror) (w : World) :
  fst (NPM.Status n w) = w.
Proof.
  unfold NPM.Status. destruct (os.UserHomeDir w) as [homeDir|e]; [|reflexivity].
  destruct (os.ReadFile (Join_path homeDir ".npmrc") w) as [e|data].
  - destruct (os.IsNotExist e); reflexivity.
  - destruct (NPM.status_lines (Split data LF)). reflexivity.
Qed.

Lemma go_Status_world (g : Go.GoMirror) (w : World) : fst (Go.Status g w) = w.
Proof.
  unfold Go.Status.
  destruct (negb (String.eqb (os.Getenv "GOPROXY" w) "")); reflexivity.
Qed.

Lemma docker_Status_world `{Json} (d : Docker.DockerMirror) (w : World) :
  fst (Docker.Status d w) = w.
Proof.
  unfold Docker.Status. destruct (Docker.isDockerDesktop w); [reflexivity|].
  destruct (Docker.getDockerConfigPath w) as [configPath|e]; [|reflexivity].
  destruct (os.ReadFile configPath w) as [e|data].
  - destruct (os.IsNotExist e); reflexivity.
  - destruct (Unmarshal data) as [config|]; [|reflexivity].
    destruct (Docker.status_config config). reflexivity.
Qed.

(** The two mutators whose path helper calls [os.MkdirAll] leave the
    files alone at least. *)
Lemma pip_Status_files (p : Pip.PipMirror) (w : World) :
  files (fst (Pip.Status p w)) = files w.
Proof.
  unfold Pip.Status, Pip.getPipConfigPath.
  destruct (os.UserHomeDir w) as [homeDir|e]; [|reflexivity].
  pose proof (MkdirAll_files
                (Join_path (Join_path homeDir ".config") "pip") w) as Hm.
  destruct (os.MkdirAll (Join_path (Join_path homeDir ".config") "pip") w)
    as [w1 [e|]]; cbn [fst] in *; [exact Hm|].
  destruct (os.ReadFile _ w1) as [e|data].
  - destruct (os.IsNotExist e); exact Hm.
  - destruct (Pip.status_lines (Split data LF)). exact Hm.
Qed.

Lemma cargo_Status_files (c : Cargo.CargoMirror) (w : World) :
  files (fst (Cargo.Status c w)) = files w.
Proof.
  unfold Cargo.Status, Cargo.getCargoConfigPath.
  destruct (os.UserHomeDir w) as [homeDir|e]; [|reflexivity].
  pose proof (MkdirAll_files (Join_path homeDir ".cargo") w) as Hm.
  destruct (os.MkdirAll (Join_path homeDir ".cargo") w)
    as [w1 [e|]]; cbn [fst] in *; [exact Hm|].
  destruct (os.ReadFile _ w1) as [e|data].
  - destruct (os.IsNotExist e); exact Hm.
  - destruct (Cargo.status_content data). exact Hm.
Qed.

End StatusFrame.

(** C8.  [Status] is meant to leave the file system as it is.  The npm, Go
    and Docker mutators do, in every world; the cargo and the pip mutators
    do not: in a home directory without [.cargo] (without [.config/pip]),
    their [Status] reports "default" and leaves the directory [.cargo] (the
    directories [.config] and [.config/pip]) behind, created by the path
    helper they share with [Enable]. *)
Theorem status_of_cargo_and_pip_creates_directories :
  (os.is_dir Sample.fresh (Sample.homeDir ++ [".cargo"]) = false
   /\ Cargo.Status Sample.cargo Sample.fresh
      = (with_dir (Sample.homeDir ++ [".cargo"]) Sample.fresh,
         (false, "default registry", None))
   /\ os.is_dir (fst (Cargo.Status Sample.cargo Sample.fresh))
        (Sample.homeDir ++ [".cargo"]) = true)
  /\ (os.is_dir Sample.fresh (Sample.homeDir ++ [".config"]) = false
      /\ os.is_dir Sample.fresh (Sample.homeDir ++ [".config"; "pip"]) = false
      /\ snd (Pip.Status Sample.pip Sample.fresh) = (false, "default index", None)
      /\ os.is_dir (fst (Pip.Status Sample.pip Sample.fresh))
           (Sample.homeDir ++ [".config"]) = true
      /\ os.is_dir (fst (Pip.Status Sample.pip Sample.fresh))
           (Sample.homeDir ++ [".config"; "pip"]) = true)
  /\ (forall n w, fst (NPM.Status n w) = w)
  /\ (forall g w, fst (Go.Status g w) = w)
  /\ (forall (J : Json) d w, fst (Docker.Status d w) = w).
Proof.
  split; [|split; [|split; [|split]]].
  - split; [vm_compute; reflexivity|]. split; [|vm_compute; reflexivity].
    vm_compute. reflexivity.
  - repeat split; vm_compute; reflexivity.
  - apply npm_Status_world.
  - apply go_Status_world.
  - intros J d w. apply docker_Status_world.
Qed.

(** ** cargo: [Enable] *)

Section CargoEnable.

Import CargoSpec.

Lemma is_replace_with_not_header (l : string) :
  is_replace_with l = true ->
  is_crates_io l = false /\ is_source l = false /\ is_header l = false.
Proof.
  unfold is_replace_with, is_crates_io, is_source, is_header, HasPrefix.
  destruct (TrimSpace l) as [|c t]; [discriminate|].
  cbn [String.prefix String.eqb].
  destruct (ascii_dec "r" c) as [<-|]; [|discriminate].
  intros _. repeat split; reflexivity.
Qed.

Lemma is_crates_io_source (l : string) :
  is_crates_io l = true -> is_source l = true /\ is_header l = true.
Proof.
  unfold is_crates_io, is_source, is_header. intros ->%String.eqb_eq.
  split; reflexivity.
Qed.

(** The two flags of the scan are one: both say that a line
    [[source.crates-io]] was met. *)
Lemma cargo_scan_flags (content : string) (lines : list string) (st : Cargo.scan) :
  Cargo.hasSourceSection (range lines (Cargo.enable_body content) st)
  = Cargo.hasSourceSection st || existsb is_crates_io lines
  /\ Cargo.hasCratesIOSection (range lines (Cargo.enable_body content) st)
     = Cargo.hasCratesIOSection st || existsb is_crates_io lines.
Proof.
  unfold range. revert st.
  induction lines as [|l lines IH]; intros st; cbn [fold_left existsb].
  - rewrite !orb_false_r. split; reflexivity.
  - destruct (IH (Cargo.enable_body content st l)) as [-> ->].
    unfold Cargo.enable_body. fold (is_crates_io l).
    destruct (is_crates_io l).
    + cbn [Cargo.hasSourceSection Cargo.hasCratesIOSection orb].
      rewrite !orb_true_r. split; reflexivity.
    + cbn [orb].
      repeat match goal with
             | |- context [if ?c then _ else _] => destruct c
             end; split; reflexivity.
Qed.

End CargoEnable.

(** C1.  Running [Enable] twice is meant to leave the file a single
    [Enable] writes.  The cargo mutator does not: from a home directory
    without [.cargo/config.toml], the first [Enable] writes a blank line
    between its two sections, and the second [Enable] reads that file and
    drops the blank line, so the two files differ; only from the second run
    on does the file stay as it is. *)
Theorem cargo_enable_twice_differs_from_once :
  let once := fst (Cargo.Enable Sample.cargo Sample.fresh) in
  let twice := fst (Cargo.Enable Sample.cargo once) in
  let thrice := fst (Cargo.Enable Sample.cargo twice) in
  files once !! Sample.cargo_config
  = Some (NL +:+ "[source.crates-io]" +:+ NL +:+ "replace-with = 'ustc'" +:+ NL
          +:+ NL +:+ ustc_block)
  /\ files twice !! Sample.cargo_config
     = Some (NL +:+ "[source.crates-io]" +:+ NL +:+ "replace-with = 'ustc'" +:+ NL
             +:+ ustc_block)
  /\ files twice !! Sample.cargo_config <> files once !! Sample.cargo_config
  /\ files thrice !! Sample.cargo_config = files twice !! Sample.cargo_config.
Proof.
  intros once twice thrice.
  assert (H1 : files once !! Sample.cargo_config
               = Some (NL +:+ "[source.crates-io]" +:+ NL
                       +:+ "replace-with = 'ustc'" +:+ NL +:+ NL +:+ ustc_block))
    by (vm_compute; reflexivity).
  assert (H2 : files twice !! Sample.cargo_config
               = Some (NL +:+ "[source.crates-io]" +:+ NL
                       +:+ "replace-with = 'ustc'" +:+ NL +:+ ustc_block))
    by (vm_compute; reflexivity).
  split; [exact H1|]. split; [exact H2|]. split.
  - rewrite H1, H2. vm_compute. discriminate.
  - vm_compute. reflexivity.
Qed.

(** C3.  In the scan of cargo [Enable], a [replace-with] line inside the
    tracked section is replaced by [replace-with = 'ustc'], and the line is
    put before a header that is not a [[source.*]] header when the file holds
    the text [replace-with] nowhere.  But it is not put before a
    [[source.*]] header, nor when the text occurs anywhere else in the file (a
    comment is enough): on both files below [Enable] leaves
    [[source.crates-io]] without any [replace-with] line. *)
Theorem cargo_enable_misses_replace_with :
  (Cargo.enable_content Sample.cargo cargo_crates_then_ustc = cargo_crates_then_ustc
   /\ Contains (Cargo.enable_content Sample.cargo cargo_crates_then_ustc)
        "replace-with" = false)
  /\ (Cargo.enable_lines Sample.cargo cargo_commented_replace_with
      = ["[source.crates-io]"; "# replace-with = 'tuna'"; "[build]"; "jobs = 4";
         ""; "[source.ustc]"; Cargo.registry_line Sample.cargo]
      /\ existsb CargoSpec.is_replace_with
           (Cargo.enable_lines Sample.cargo cargo_commented_replace_with) = false)
  /\ (forall content st l,
        Cargo.inCratesIOSection st = true -> CargoSpec.is_replace_with l = true ->
        Cargo.enable_body content st l
        = Cargo.mkScan (Cargo.newLines st ++ [Cargo.replace_with])
            (Cargo.hasSourceSection st) (Cargo.hasCratesIOSection st) true)
  /\ (forall content st h,
        Cargo.inCratesIOSection st = true ->
        is_header h = true -> CargoSpec.is_source h = false ->
        Contains content "replace-with" = false ->
        Cargo.enable_body content st h
        = Cargo.mkScan (Cargo.newLines st ++ [Cargo.replace_with; h])
            (Cargo.hasSourceSection st) (Cargo.hasCratesIOSection st) false)
  /\ (forall content st h,
        CargoSpec.is_source h = true -> CargoSpec.is_crates_io h = false ->
        Cargo.enable_body content st h
        = Cargo.mkScan (Cargo.newLines st ++ [h])
            (Cargo.hasSourceSection st) (Cargo.hasCratesIOSection st) false).
Proof.
  split; [split; vm_compute; reflexivity|].
  split; [split; vm_compute; reflexivity|].
  split; [|split].
  - intros content st l Hin Hl.
    destruct (is_replace_with_not_header l Hl) as (Hc & Hs & Hh).
    unfold Cargo.enable_body.
    fold (CargoSpec.is_crates_io l). fold (CargoSpec.is_source l).
    fold (is_header l). fold (CargoSpec.is_replace_with l).
    rewrite Hc, Hs, Hh, Hin, Hl. reflexivity.
  - intros content st h Hin Hh Hs Hno.
    assert (Hc : CargoSpec.is_crates_io h = false).
    { destruct (CargoSpec.is_crates_io h) eqn:E; [|reflexivity].
      apply is_crates_io_source in E as [E _]. congruence. }
    unfold Cargo.enable_body.
    fold (CargoSpec.is_crates_io h). fold (CargoSpec.is_source h).
    fold (is_header h).
    rewrite Hc, Hs, Hh, Hin, Hno. cbn [negb andb].
    rewrite <- app_assoc. reflexivity.
  - intros content st h Hs Hc. unfold Cargo.enable_body.
    fold (CargoSpec.is_crates_io h). fold (CargoSpec.is_source h).
    rewrite Hc, Hs. reflexivity.
Qed.

(** The gate of the append step of cargo [Enable] is the
    [[source.crates-io]] header alone: both flags of the scan are set there
    and nowhere else.  With no such line the pair and the block are appended
    (after a blank line, unless nothing or an empty line was written last);
    with one, the [[source.ustc]] block is appended when the text
    [[source.ustc]] occurs nowhere in the input, and nothing otherwise. *)
Lemma cargo_enable_append_gate
    (c : Cargo.CargoMirror) (content : string) :
  let lines := Split content LF in
  let written := Cargo.newLines (Cargo.enable_scan content) in
  (existsb CargoSpec.is_crates_io lines = false ->
   Cargo.enable_lines c content
   = written ++ cargo_separator written
     ++ ["[source.crates-io]"; "replace-with = 'ustc'"; "";
         "[source.ustc]"; Cargo.registry_line c])
  /\ (existsb CargoSpec.is_crates_io lines = true ->
      Contains content "[source.ustc]" = false ->
      Cargo.enable_lines c content
      = written ++ [""; "[source.ustc]"; Cargo.registry_line c])
  /\ (existsb CargoSpec.is_crates_io lines = true ->
      Contains content "[source.ustc]" = true ->
      Cargo.enable_lines c content = written).
Proof.
  intros lines written.
  destruct (cargo_scan_flags content lines (Cargo.mkScan [] false false false))
    as [Hs Hc].
  cbn [Cargo.hasSourceSection Cargo.hasCratesIOSection orb] in Hs, Hc.
  change (range lines (Cargo.enable_body content)
            (Cargo.mkScan [] false false false))
    with (Cargo.enable_scan content) in Hs, Hc.
  unfold Cargo.enable_lines, Cargo.enable_append.
  rewrite Hs, Hc. fold written.
  split; [|split].
  - intros ->. cbn [negb orb]. unfold cargo_separator.
    destruct (Nat.ltb 0 (List.length written)
              && negb (String.eqb (List.last written "") ""));
      rewrite <- ?app_assoc; reflexivity.
  - intros -> ->. reflexivity.
  - intros -> ->. reflexivity.
Qed.

(** C4.  After the scan of cargo [Enable], the pair [[source.crates-io]] /
    [replace-with = 'ustc'] is appended when no line of the input is the
    [[source.crates-io]] header, as claimed.  But a config that has the
    header and never had a [replace-with] key does not get the pair, nor the
    key: only the [[source.ustc]] block is appended.  On the config
    [[source.crates-io]] alone [Enable] returns no error and [Status] then
    reports the mirror as enabled, yet the file written holds no
    [replace-with] line at all, so crates-io is not replaced.  The pip
    mutator, in the same position (a [[global]] header and nothing else),
    appends its key at the end of the file. *)
Theorem cargo_enable_appends_no_replace_with_after_bare_header :
  let w := with_file Sample.cargo_config cargo_crates_only
             (with_dir (Sample.homeDir ++ [".cargo"]) Sample.fresh) in
  let registry :=
    "registry = " +:+ String "034"%char "https://mirrors.ustc.edu.cn/crates.io-index"
    +:+ String "034"%char "" in
  (existsb CargoSpec.is_crates_io (Split cargo_crates_only LF) = true
   /\ existsb CargoSpec.is_replace_with (Split cargo_crates_only LF) = false)
  /\ Cargo.enable_lines Sample.cargo cargo_crates_only
     = ["[source.crates-io]"; ""; "[source.ustc]"; registry]
  /\ snd (Cargo.Enable Sample.cargo w) = None
  /\ files (fst (Cargo.Enable Sample.cargo w)) !! Sample.cargo_config
     = Some ("[source.crates-io]" +:+ NL +:+ NL +:+ "[source.ustc]" +:+ NL
             +:+ registry +:+ NL)
  /\ Contains (Cargo.enable_content Sample.cargo cargo_crates_only)
       "replace-with" = false
  /\ snd (Cargo.Status Sample.cargo (fst (Cargo.Enable Sample.cargo w)))
     = (true, "https://mirrors.ustc.edu.cn/crates.io-index", None)
  /\ (forall c content,
        existsb CargoSpec.is_crates_io (Split content LF) = false ->
        Cargo.enable_lines c content
        = Cargo.newLines (Cargo.enable_scan content)
          ++ cargo_separator (Cargo.newLines (Cargo.enable_scan content))
          ++ ["[source.crates-io]"; "replace-with = 'ustc'"; "";
              "[source.ustc]";
              "registry = " +:+ String "034"%char (Cargo.registryURL c)
              +:+ String "034"%char ""])
  /\ Pip.enable_lines Sample.pip ["[global]"]
     = ["[global]"; "index-url = https://mirrors.aliyun.com/pypi/simple/"].
Proof.
  intros w registry.
  split; [split; vm_compute; reflexivity|].
  split; [vm_compute; reflexivity|].
  split; [vm_compute; reflexivity|].
  split; [vm_compute; reflexivity|].
  split; [vm_compute; reflexivity|].
  split; [vm_compute; reflexivity|].
  split; [|vm_compute; reflexivity].
  intros c content Hno.
  destruct (cargo_enable_append_gate c content) as (H & _ & _).
  exact (H Hno).
Qed.

(** ** Docker *)

Section DockerFacts.
Context `{Json}.

Lemma getDockerConfigPath_run (w : World) (h : path) :
  home w = Some h -> Docker.getDockerConfigPath w = Ok (daemon_json h).
Proof.
  intros Hh. unfold Docker.getDockerConfigPath, os.UserHomeDir. rewrite Hh.
  destruct (String.eqb (goos w) "linux"); [|reflexivity].
  destruct (os.Stat ["etc"; "docker"; "daemon.json"] w); reflexivity.
Qed.

Lemma parent_daemon_json (h : path) : os.parent (daemon_json h) = docker_dir h.
Proof. apply removelast_last. Qed.

Lemma backup_path_daemon_json (h : path) :
  Docker.backup_path (daemon_json h) = daemon_backup h.
Proof.
  unfold Docker.backup_path. rewrite parent_daemon_json.
  unfold daemon_json. rewrite last_last. reflexivity.
Qed.

Lemma daemon_backup_ne (h : path) : daemon_backup h <> daemon_json h.
Proof.
  unfold daemon_backup, daemon_json. intros E%app_inv_head. discriminate.
Qed.

Lemma MkdirAll_dir (w : World) (d : path) :
  os.is_dir w d = true -> os.MkdirAll d w = (w, None).
Proof. intros Hd. unfold os.MkdirAll. rewrite Hd. reflexivity. Qed.

Lemma WriteFile_file (w : World) (f : path) (old data : string) :
  files w !! f = Some old ->
  os.WriteFile f data w = (with_file f data w, None).
Proof.
  intros Hf. unfold os.WriteFile, os.is_file. rewrite Hf.
  rewrite bool_decide_true by eauto. reflexivity.
Qed.

(** [Enable] on a file that does not parse. *)
Lemma docker_Enable_corrupt (d : Docker.DockerMirror) (w : World) (h : path)
    (data : string) :
  Docker.isDockerDesktop w = false -> home w = Some h ->
  os.is_dir w (docker_dir h) = true ->
  files w !! daemon_json h = Some data -> Unmarshal data = None ->
  Docker.Enable d w
  = (with_file (daemon_json h) (MarshalIndent (fresh_config d))
       (fst (os.WriteFile (daemon_backup h) data w)), None).
Proof.
  intros Hdd Hh Hdir Hf Hu. unfold Docker.Enable.
  rewrite Hdd, (getDockerConfigPath_run w h Hh), parent_daemon_json.
  rewrite (MkdirAll_dir w _ Hdir), (ReadFile_file w _ data Hf), Hu.
  rewrite backup_path_daemon_json.
  assert (Hf2 : files (fst (os.WriteFile (daemon_backup h) data w))
                !! daemon_json h = Some data).
  { unfold os.WriteFile.
    repeat match goal with
           | |- context [if ?c then _ else _] => destruct c
           end; cbn [fst files]; try exact Hf;
      rewrite lookup_insert_ne by apply daemon_backup_ne; exact Hf. }
  unfold fresh_config.
  destruct (Nat.ltb 0 (List.length (Docker.registries d)));
    rewrite (WriteFile_file _ _ data _ Hf2); rewrite ?insert_empty; reflexivity.
Qed.

Lemma docker_Disable_corrupt (d : Docker.DockerMirror) (w : World) (h : path)
    (data : string) :
  Docker.isDockerDesktop w = false -> home w = Some h ->
  files w !! daemon_json h = Some data -> Unmarshal data = None ->
  Docker.Disable d w = (w, Some (Wrapped "failed to parse daemon.json" JsonError)).
Proof.
  intros Hdd Hh Hf Hu. unfold Docker.Disable.
  rewrite Hdd, (getDockerConfigPath_run w h Hh), (ReadFile_file w _ data Hf), Hu.
  reflexivity.
Qed.

Lemma docker_Status_corrupt (d : Docker.DockerMirror) (w : World) (h : path)
    (data : string) :
  Docker.isDockerDesktop w = false -> home w = Some h ->
  files w !! daemon_json h = Some data -> Unmarshal data = None ->
  Docker.Status d w
  = (w, (false, "", Some (Wrapped "failed to parse daemon.json" JsonError))).
Proof.
  intros Hdd Hh Hf Hu. unfold Docker.Status.
  rewrite Hdd, (getDockerConfigPath_run w h Hh), (ReadFile_file w _ data Hf), Hu.
  reflexivity.
Qed.

End DockerFacts.

(** C5, as the code has it.  Outside Docker Desktop, for every existing
    [daemon.json] whose bytes fail JSON parsing: [Enable] copies the bytes to
    the sibling [daemon.json.backup] (when that file can be written) and goes
    on with an empty object, so that [daemon.json] becomes a fresh JSON
    document holding only the key [registry-mirrors] when a registry is
    configured, and the empty object when none is; [Disable] and [Status] do
    not recover: they return the parse error and leave every file as it
    is. *)
Theorem docker_enable_backs_up_corrupt_file `{Json}
    (d : Docker.DockerMirror) (w : World) (h : path) (data : string) :
  Docker.isDockerDesktop w = false ->
  home w = Some h ->
  os.is_dir w (docker_dir h) = true ->
  files w !! daemon_json h = Some data ->
  Unmarshal data = None ->
  writable w (daemon_backup h) ->
  (snd (Docker.Enable d w) = None
   /\ files (fst (Docker.Enable d w)) !! daemon_backup h = Some data
   /\ files (fst (Docker.Enable d w)) !! daemon_json h
      = Some (MarshalIndent
                (if Nat.ltb 0 (List.length (Docker.registries d))
                 then mkmap {[ "registry-mirrors" := Docker.mirrors_value d ]}
                 else mkmap ∅)))
  /\ Docker.Disable d w
     = (w, Some (Wrapped "failed to parse daemon.json" JsonError))
  /\ Docker.Status d w
     = (w, (false, "", Some (Wrapped "failed to parse daemon.json" JsonError))).
Proof.
  intros Hdd Hh Hdir Hf Hu Hw.
  split; [|split].
  - rewrite (docker_Enable_corrupt d w h data Hdd Hh Hdir Hf Hu).
    rewrite (WriteFile_ok _ _ _ Hw). cbn [fst snd with_file files].
    split; [reflexivity|]. split.
    + rewrite lookup_insert_ne by (intros E; symmetry in E; revert E; apply daemon_backup_ne).
      apply lookup_insert_eq.
    + rewrite lookup_insert_eq. reflexivity.
  - apply (docker_Disable_corrupt d w h data Hdd Hh Hf Hu).
  - apply (docker_Status_corrupt d w h data Hdd Hh Hf Hu).
Qed.

Lemma docker_enable_backs_up_corrupt_file_witness :
  files (fst (@Docker.Enable Sample.codec Sample.docker corrupt_docker))
    !! Sample.daemon_backup = Some "{registry-mirrors: oops"
  /\ files (fst (@Docker.Enable Sample.codec Sample.docker corrupt_docker))
       !! Sample.daemon_json
     = Some (@MarshalIndent Sample.codec
               (mkmap {[ "registry-mirrors" :=
                           JArray [JString "https://docker.1ms.run";
                                   JString "https://docker.m.daocloud.io"] ]})).
Proof.
  destruct (@docker_enable_backs_up_corrupt_file Sample.codec Sample.docker
              corrupt_docker Sample.homeDir "{registry-mirrors: oops")
    as ((_ & Hb & Hf) & _ & _).
  - vm_compute. reflexivity.
  - reflexivity.
  - vm_compute. reflexivity.
  - vm_compute. reflexivity.
  - vm_compute. reflexivity.
  - repeat split; vm_compute; reflexivity.
  - split; [exact Hb | exact Hf].
Defined.

(** C5 as stated fails: on a [daemon.json] that does not parse, [Disable]
    and [Status] return an error, write no backup and recover nothing; and
    when [daemon.json.backup] cannot be written (here it is a directory),
    [Enable] overwrites [daemon.json] all the same and the bytes are lost. *)
Lemma docker_disable_does_not_recover :
  (@Docker.Disable Sample.codec Sample.docker corrupt_docker
   = (corrupt_docker, Some (Wrapped "failed to parse daemon.json" JsonError))
   /\ files corrupt_docker !! Sample.daemon_backup = None)
  /\ @Docker.Status Sample.codec Sample.docker corrupt_docker
     = (corrupt_docker,
        (false, "", Some (Wrapped "failed to parse daemon.json" JsonError)))
  /\ (let w := with_dir Sample.daemon_backup corrupt_docker in
      snd (@Docker.Enable Sample.codec Sample.docker w) = None
      /\ files (fst (@Docker.Enable Sample.codec Sample.docker w))
           !! Sample.daemon_backup = None
      /\ files (fst (@Docker.Enable Sample.codec Sample.docker w))
           !! Sample.daemon_json
         = Some (Sample.mirrors_text Sample.default_mirrors)).
Proof.
  split; [split; vm_compute; reflexivity|].
  split; [vm_compute; reflexivity|].
  repeat split; vm_compute; reflexivity.
Qed.

(** ** [Enable] then [Disable] *)

Section RoundTrip.

Lemma has_byte_app (c : ascii) (a b : string) :
  has_byte c (a +:+ b) = has_byte c a || has_byte c b.
Proof.
  induction a as [|x a IH]; [reflexivity|].
  rewrite app_String. cbn [has_byte]. rewrite IH, orb_assoc. reflexivity.
Qed.

(** Lines that were joined and closed by a line feed split into
    themselves and a last empty piece. *)
Lemma Split_Join (ls : list string) :
  Forall (fun l => has_byte LF l = false) ls -> ls <> [] ->
  Split (Join ls NL +:+ NL) LF = ls ++ [""].
Proof.
  intros Hall Hne. induction Hall as [|a ls Ha Hls IH]; [congruence|].
  destruct ls as [|b ls].
  - cbn [Join String.concat app]. apply (Split_line a "" Ha).
  - unfold Join in *.
    change (String.concat NL (a :: b :: ls))
      with (a +:+ NL +:+ String.concat NL (b :: ls)).
    rewrite !app_assoc_s.
    change (NL +:+ String.concat NL (b :: ls) +:+ NL)
      with (String LF (String.concat NL (b :: ls) +:+ NL)).
    rewrite (Split_line a _ Ha). cbn [app]. f_equal.
    apply IH. discriminate.
Qed.

Lemma content_of_blank (w : World) (f : path) :
  blank_start w f -> content_of w f = "".
Proof.
  unfold content_of, os.ReadFile. intros [-> | ->]; [|reflexivity].
  destruct (os.is_dir w f); [reflexivity|].
  destruct (os.under_file w f); reflexivity.
Qed.

Lemma ReadFile_absent (w : World) (f : path) :
  files w !! f = None -> exists e, os.ReadFile f w = inl e.
Proof.
  intros Hf. unfold os.ReadFile. rewrite Hf.
  destruct (os.is_dir w f); [eauto|]. destruct (os.under_file w f); eauto.
Qed.

(** A write succeeds, or fails on a path that names no file and changes
    nothing. *)
Lemma WriteFile_cases (w : World) (f : path) (data : string) :
  os.WriteFile f data w = (with_file f data w, None)
  \/ (exists e, os.WriteFile f data w = (w, Some e)) /\ files w !! f = None.
Proof.
  unfold os.WriteFile, os.is_file.
  destruct (files w !! f) as [old|] eqn:Hf.
  - left. rewrite bool_decide_true by eauto. reflexivity.
  - rewrite bool_decide_false by (intros [? ?]; discriminate).
    destruct (os.is_dir w f); [right; eauto|].
    destruct (os.under_file w f); [right; eauto|].
    destruct (os.is_dir w (os.parent f)); [left; reflexivity | right; eauto].
Qed.

Lemma Remove_written (w : World) (f : path) (data : string) :
  files (fst (os.Remove f (with_file f data w))) !! f = None.
Proof.
  unfold os.Remove, os.is_file. cbn [with_file files].
  rewrite bool_decide_true by (rewrite lookup_insert_eq; eauto).
  cbn [fst files]. apply lookup_delete_eq.
Qed.

(** *** npm *)

Lemma npm_enable_content_empty (n : NPM.NPMMirror) :
  NPM.enable_content n "" = ("registry=" +:+ NPM.registryURL n) +:+ NL.
Proof. reflexivity. Qed.

Lemma npm_disable_lines_enabled (n : NPM.NPMMirror) :
  one_line (NPM.registryURL n) ->
  NPM.disable_lines (Split (NPM.enable_content n "") LF) = [].
Proof.
  intros Hv. rewrite npm_enable_content_empty. unfold NL.
  rewrite (Split_line ("registry=" +:+ NPM.registryURL n) "").
  2:{ rewrite has_byte_app, Hv. reflexivity. }
  unfold NPM.disable_lines, range. cbn [fold_left Split].
  unfold NPM.disable_body at 2.
  pose proof (registry_line_is_registry (NPM.registryURL n)) as Hr.
  unfold NPMSpec.is_registry in Hr. rewrite Hr. reflexivity.
Qed.

Lemma npm_round_trip (n : NPM.NPMMirror) (w : World) (h : path) :
  home w = Some h -> one_line (NPM.registryURL n) ->
  blank_start w (h ++ [".npmrc"]) ->
  files (fst (NPM.Disable n (fst (NPM.Enable n w)))) !! (h ++ [".npmrc"]) = None.
Proof.
  intros Hh Hv Hb.
  unfold NPM.Enable, os.UserHomeDir, Join_path. rewrite Hh.
  fold (content_of w (h ++ [".npmrc"])). rewrite (content_of_blank _ _ Hb).
  destruct (WriteFile_cases w (h ++ [".npmrc"]) (NPM.enable_content n ""))
    as [-> | [[e ->] Hnone]]; cbn [fst].
  - unfold NPM.Disable, os.UserHomeDir, Join_path.
    cbn [with_file home]. rewrite Hh.
    rewrite (ReadFile_file _ _ (NPM.enable_content n ""))
      by apply lookup_insert_eq.
    rewrite (npm_disable_lines_enabled n Hv). cbn [List.length Nat.ltb Nat.leb].
    apply Remove_written.
  - unfold NPM.Disable, os.UserHomeDir, Join_path. rewrite Hh.
    destruct (ReadFile_absent _ _ Hnone) as [e' ->].
    destruct (os.IsNotExist e'); exact Hnone.
Qed.

(** *** cargo *)

Lemma cargo_enable_content_empty (c : Cargo.CargoMirror) :
  Cargo.enable_content c ""
  = Join [""; "[source.crates-io]"; Cargo.replace_with; ""; "[source.ustc]";
          Cargo.registry_line c] NL +:+ NL.
Proof. reflexivity. Qed.

Lemma registry_line_trimmed (c : Cargo.CargoMirror) :
  exists t, TrimSpace (Cargo.registry_line c) = String "r" t.
Proof.
  unfold Cargo.registry_line.
  change ("registry = " +:+ Cargo.quote +:+ Cargo.registryURL c +:+ Cargo.quote)
    with (("registry = " +:+ Cargo.quote)
          +:+ (Cargo.registryURL c +:+ Cargo.quote)).
  rewrite TrimSpace_keep by reflexivity.
  eexists. reflexivity.
Qed.

Lemma cargo_disable_lines_enabled (c : Cargo.CargoMirror) :
  one_line (Cargo.registryURL c) ->
  Cargo.disable_lines (Split (Cargo.enable_content c "") LF) = [].
Proof.
  intros Hv. rewrite cargo_enable_content_empty, Split_Join; [| |discriminate].
  2:{ repeat constructor. unfold Cargo.registry_line.
      rewrite !has_byte_app, Hv. reflexivity. }
  unfold Cargo.disable_lines.
  change ([""; "[source.crates-io]"; Cargo.replace_with; ""; "[source.ustc]";
           Cargo.registry_line c] ++ [""])
    with ([""; "[source.crates-io]"; Cargo.replace_with; ""; "[source.ustc]"]
          ++ [Cargo.registry_line c; ""]).
  unfold range. rewrite fold_left_app.
  change (fold_left Cargo.disable_body
            [""; "[source.crates-io]"; Cargo.replace_with; ""; "[source.ustc]"]
            ([], false))
    with (@nil string, true).
  cbn [fold_left].
  assert (E : Cargo.disable_body ([], true) (Cargo.registry_line c) = ([], true)).
  { unfold Cargo.disable_body.
    destruct (registry_line_trimmed c) as [t ->]. reflexivity. }
  rewrite E. reflexivity.
Qed.

Lemma in_tail_ancestors (d : path) : d <> [] -> In d (tail (os.ancestors d ++ [d])).
Proof.
  intros Hd. unfold os.ancestors.
  destruct d as [|x d]; [congruence|].
  cbn [List.length seq map tail app]. apply in_or_app. right. left. reflexivity.
Qed.

Lemma MkdirAll_ok_is_dir (d : path) (w : World) :
  snd (os.MkdirAll d w) = None -> os.is_dir (fst (os.MkdirAll d w)) d = true.
Proof.
  unfold os.MkdirAll. destruct (os.is_dir w d) eqn:Hd; [intros _; exact Hd|].
  destruct (os.is_file w d || os.under_file w d); [discriminate|]. intros _.
  cbn [fst]. unfold os.is_dir in *.
  destruct d as [|x d]; [reflexivity|]. cbn [dirs].
  apply bool_decide_eq_true. apply elem_of_union. right.
  apply elem_of_list_to_set, list_elem_of_In, in_tail_ancestors. discriminate.
Qed.

Lemma cargo_Disable_absent (c : Cargo.CargoMirror) (w : World) (h : path) :
  home w = Some h -> os.is_dir w (cargo_dir h) = true ->
  files w !! cargo_config h = None ->
  files (fst (Cargo.Disable c w)) !! cargo_config h = None.
Proof.
  intros Hh Hd Hf. unfold Cargo.Disable.
  rewrite (getCargoConfigPath_run w h Hh);
    rewrite (MkdirAll_dir w _ Hd); [|reflexivity]. cbn [fst].
  destruct (ReadFile_absent _ _ Hf) as [e ->].
  destruct (os.IsNotExist e); exact Hf.
Qed.

Lemma cargo_round_trip (c : Cargo.CargoMirror) (w : World) (h : path) :
  home w = Some h -> snd (os.MkdirAll (cargo_dir h) w) = None ->
  one_line (Cargo.registryURL c) ->
  blank_start w (cargo_config h) ->
  files (fst (Cargo.Disable c (fst (Cargo.Enable c w)))) !! cargo_config h = None.
Proof.
  intros Hh Hm Hv Hb.
  pose proof (MkdirAll_ok_is_dir _ _ Hm) as Hd.
  unfold Cargo.Enable. rewrite (getCargoConfigPath_run w h Hh Hm).
  set (w1 := fst (os.MkdirAll (cargo_dir h) w)) in *.
  assert (Hh1 : home w1 = Some h) by (subst w1; rewrite MkdirAll_home; exact Hh).
  assert (Hb1 : blank_start w1 (cargo_config h)).
  { unfold blank_start. subst w1. rewrite MkdirAll_files. exact Hb. }
  fold (content_of w1 (cargo_config h)). rewrite (content_of_blank _ _ Hb1).
  destruct (WriteFile_cases w1 (cargo_config h) (Cargo.enable_content c ""))
    as [-> | [[e ->] Hnone]]; cbn [fst].
  - unfold Cargo.Disable.
    rewrite (getCargoConfigPath_run _ h);
      rewrite ?(MkdirAll_dir (with_file _ _ w1) _ Hd);
      try reflexivity; try exact Hh1.
    cbn [fst].
    rewrite (ReadFile_file _ _ (Cargo.enable_content c ""))
      by apply lookup_insert_eq.
    rewrite (cargo_disable_lines_enabled c Hv). cbn [List.length Nat.ltb Nat.leb].
    apply Remove_written.
  - apply (cargo_Disable_absent c w1 h Hh1 Hd Hnone).
Qed.

End RoundTrip.

Section DockerRoundTrip.
Context `{Json}.

Lemma WriteFile_home (f : path) (data : string) (w : World) :
  home (fst (os.WriteFile f data w)) = home w.
Proof.
  unfold os.WriteFile.
  repeat match goal with
         | |- context [if ?c then _ else _] => destruct c
         end; reflexivity.
Qed.

Lemma fresh_config_insert (d : Docker.DockerMirror) :
  (if Nat.ltb 0 (List.length (Docker.registries d))
   then match mkmap (float64 := float64) ∅ with
        | nilmap => Fail (Panic "assignment to entry in nil map")
        | mkmap m =>
            Ok (mkmap (<["registry-mirrors" := Docker.mirrors_value d]> m))
        end
   else Ok (mkmap ∅))
  = Ok (fresh_config d).
Proof.
  unfold fresh_config.
  destruct (Nat.ltb 0 (List.length (Docker.registries d))); [|reflexivity].
  rewrite insert_empty. reflexivity.
Qed.

Lemma fresh_config_deleted (d : Docker.DockerMirror) :
  Docker.map_len (Docker.map_delete "registry-mirrors" (fresh_config d)) = 0.
Proof.
  unfold fresh_config.
  destruct (Nat.ltb 0 (List.length (Docker.registries d)));
    cbn [Docker.map_delete Docker.map_len].
  - rewrite delete_singleton_eq. apply map_size_empty.
  - rewrite delete_empty. apply map_size_empty.
Qed.

(** [Disable] where there is no [daemon.json]. *)
Lemma docker_Disable_absent (d : Docker.DockerMirror) (w : World) (h : path) :
  home w = Some h -> files w !! daemon_json h = None ->
  files (fst (Docker.Disable d w)) !! daemon_json h = None.
Proof.
  intros Hh Hf. unfold Docker.Disable.
  destruct (Docker.isDockerDesktop w); [exact Hf|].
  rewrite (getDockerConfigPath_run w h Hh).
  destruct (ReadFile_absent _ _ Hf) as [e ->].
  destruct (os.IsNotExist e); exact Hf.
Qed.

(** [Disable] on the document [Enable] writes from nothing. *)
Lemma docker_Disable_fresh (d : Docker.DockerMirror) (w : World) (h : path) :
  Docker.isDockerDesktop
    (with_file (daemon_json h) (MarshalIndent (fresh_config d)) w) = false ->
  home w = Some h ->
  Unmarshal (MarshalIndent (fresh_config d)) = Some (fresh_config d) ->
  files (fst (Docker.Disable d
                (with_file (daemon_json h)
                   (MarshalIndent (fresh_config d)) w)))
    !! daemon_json h = None.
Proof.
  intros Hdd Hh Hu. unfold Docker.Disable. rewrite Hdd.
  rewrite (getDockerConfigPath_run _ h) by exact Hh.
  rewrite (ReadFile_file _ _ (MarshalIndent (fresh_config d)))
    by apply lookup_insert_eq.
  rewrite Hu, fresh_config_deleted. cbn [Nat.eqb].
  pose proof (Remove_written w (daemon_json h) (MarshalIndent (fresh_config d)))
    as Hr.
  destruct (os.Remove _ _) as [w' [e|]]; cbn [fst] in *.
  - destruct (negb (os.IsNotExist e)); exact Hr.
  - exact Hr.
Qed.

Lemma docker_round_trip (d : Docker.DockerMirror) (w : World) (h : path) :
  Docker.isDockerDesktop w = false ->
  Docker.isDockerDesktop (fst (Docker.Enable d w)) = false ->
  home w = Some h ->
  snd (os.MkdirAll (docker_dir h) w) = None ->
  Unmarshal (MarshalIndent (fresh_config d)) = Some (fresh_config d) ->
  Unmarshal "" = None ->
  blank_start w (daemon_json h) ->
  files (fst (Docker.Disable d (fst (Docker.Enable d w)))) !! daemon_json h = None.
Proof.
  intros Hdd Hdd' Hh Hm Hu He Hb. revert Hdd'.
  unfold Docker.Enable. rewrite Hdd, (getDockerConfigPath_run w h Hh).
  rewrite parent_daemon_json.
  destruct (os.MkdirAll (docker_dir h) w) as [w1 [e|]] eqn:Em; [discriminate|].
  assert (Hh1 : home w1 = Some h).
  { rewrite <- Hh, <- (MkdirAll_home (docker_dir h) w), Em. reflexivity. }
  assert (Hf1 : files w1 = files w).
  { rewrite <- (MkdirAll_files (docker_dir h) w), Em. reflexivity. }
  destruct Hb as [Hb|Hb]; rewrite <- Hf1 in Hb.
  - destruct (ReadFile_absent _ _ Hb) as [e ->].
    destruct (os.IsNotExist e).
    + rewrite fresh_config_insert.
      destruct (WriteFile_cases w1 (daemon_json h) (MarshalIndent (fresh_config d)))
        as [-> | [[e' ->] _]]; cbn [fst]; intros Hdd'.
      * apply (docker_Disable_fresh d w1 h Hdd' Hh1 Hu).
      * apply (docker_Disable_absent d w1 h Hh1 Hb).
    + cbn [fst]. intros _. apply (docker_Disable_absent d w1 h Hh1 Hb).
  - rewrite (ReadFile_file _ _ "" Hb), He, backup_path_daemon_json.
    rewrite fresh_config_insert.
    set (w2 := fst (os.WriteFile (daemon_backup h) "" w1)).
    assert (Hh2 : home w2 = Some h).
    { subst w2. rewrite WriteFile_home. exact Hh1. }
    assert (Hf2 : files w2 !! daemon_json h = Some "").
    { subst w2. unfold os.WriteFile.
      repeat match goal with
             | |- context [if ?c then _ else _] => destruct c
             end; cbn [fst files]; try exact Hb;
        rewrite lookup_insert_ne by apply daemon_backup_ne; exact Hb. }
    rewrite (WriteFile_file w2 _ "" _ Hf2). cbn [fst]. intros Hdd'.
    apply (docker_Disable_fresh d w2 h Hdd' Hh2 Hu).
Qed.

End DockerRoundTrip.

(** C2, as the code has it.  For the npm, the cargo and the Docker mutator
    and every value that holds no line feed, when the target file starts
    absent or empty, [Enable] followed by [Disable] leaves the target file
    absent: an absent file is absent again, and an empty file is deleted, not
    restored.  (For cargo and Docker the directory of the file can be
    created; for Docker, Docker Desktop is not detected, and the JSON decoder
    reads back the document [Enable] wrote and rejects the empty text.) *)
Theorem enable_then_disable_leaves_no_file :
  (forall (n : NPM.NPMMirror) (w : World) (h : path),
     home w = Some h -> one_line (NPM.registryURL n) ->
     blank_start w (h ++ [".npmrc"]) ->
     files (fst (NPM.Disable n (fst (NPM.Enable n w)))) !! (h ++ [".npmrc"]) = None)
  /\ (forall (c : Cargo.CargoMirror) (w : World) (h : path),
        home w = Some h -> snd (os.MkdirAll (cargo_dir h) w) = None ->
        one_line (Cargo.registryURL c) ->
        blank_start w (cargo_config h) ->
        files (fst (Cargo.Disable c (fst (Cargo.Enable c w)))) !! cargo_config h
        = None)
  /\ (forall (J : Json) (d : Docker.DockerMirror) (w : World) (h : path),
        Docker.isDockerDesktop w = false ->
        Docker.isDockerDesktop (fst (Docker.Enable d w)) = false ->
        home w = Some h ->
        snd (os.MkdirAll (docker_dir h) w) = None ->
        Unmarshal (MarshalIndent (fresh_config d)) = Some (fresh_config d) ->
        Unmarshal "" = None ->
        blank_start w (daemon_json h) ->
        files (fst (Docker.Disable d (fst (Docker.Enable d w)))) !! daemon_json h
        = None).
Proof.
  split; [|split].
  - apply npm_round_trip.
  - apply cargo_round_trip.
  - intros J. apply docker_round_trip.
Qed.

Lemma enable_then_disable_leaves_no_file_witness :
  files (fst (NPM.Disable Sample.npm (fst (NPM.Enable Sample.npm Sample.fresh))))
    !! Sample.npmrc = None
  /\ files (fst (Cargo.Disable Sample.cargo
                   (fst (Cargo.Enable Sample.cargo
                           (with_file Sample.cargo_config ""
                              (with_dir (Sample.homeDir ++ [".cargo"])
                                 Sample.fresh))))))
       !! Sample.cargo_config = None
  /\ files (fst (@Docker.Disable Sample.codec Sample.docker
                   (fst (@Docker.Enable Sample.codec Sample.docker Sample.fresh))))
       !! Sample.daemon_json = None.
Proof.
  destruct enable_then_disable_leaves_no_file as (Hn & Hc & Hd).
  split; [|split].
  - apply (Hn Sample.npm Sample.fresh Sample.homeDir).
    + reflexivity.
    + vm_compute. reflexivity.
    + left. vm_compute. reflexivity.
  - apply (Hc Sample.cargo _ Sample.homeDir).
    + reflexivity.
    + vm_compute. reflexivity.
    + vm_compute. reflexivity.
    + right. vm_compute. reflexivity.
  - apply (Hd Sample.codec Sample.docker Sample.fresh Sample.homeDir).
    + vm_compute. reflexivity.
    + vm_compute. reflexivity.
    + reflexivity.
    + vm_compute. reflexivity.
    + vm_compute. reflexivity.
    + vm_compute. reflexivity.
    + left. vm_compute. reflexivity.
Defined.

(** C2 as stated fails.  From an absent file, [Enable] then [Disable] of
    the pip mutator leaves a [pip.conf] that holds [[global]], and of the Go
    mutator an rc file that holds two line feeds; from an empty [.npmrc] the
    npm mutator leaves no file instead of the empty one; and with a value of
    two lines the npm mutator leaves the second line behind. *)
Lemma enable_then_disable_does_not_restore :
  files Sample.fresh !! Sample.pip_conf = None
  /\ files (fst (Pip.Disable Sample.pip (fst (Pip.Enable Sample.pip Sample.fresh))))
       !! Sample.pip_conf = Some ("[global]" +:+ NL)
  /\ files Sample.fresh !! Sample.bashrc = None
  /\ files (fst (Go.Disable Sample.go (fst (Go.Enable Sample.go Sample.fresh))))
       !! Sample.bashrc = Some (NL +:+ NL)
  /\ (let w := with_file Sample.npmrc "" Sample.fresh in
      files (fst (NPM.Disable Sample.npm (fst (NPM.Enable Sample.npm w))))
        !! Sample.npmrc = None
      /\ files w !! Sample.npmrc = Some "")
  /\ (let n := NPM.NewNPMMirror ("https://a" +:+ NL +:+ "b") in
      files (fst (NPM.Disable n (fst (NPM.Enable n Sample.fresh))))
        !! Sample.npmrc = Some ("b" +:+ NL)).
Proof.
  repeat split; vm_compute; reflexivity.
Qed.


(** ** [Enable] twice: the mutators that are idempotent

    What the cargo mutator misses (C1) holds for its siblings: for a value
    of one line, a second [Enable] of the npm, the pip and the Go mutator
    rewrites the file the first one wrote into itself. *)

Section Idempotence.

Lemma Split_one_line (s : string) :
  Forall (fun l => has_byte LF l = false) (Split s LF).
Proof.
  induction s as [|c s IH]; cbn [Split]; [repeat constructor|].
  destruct (Ascii.eqb c LF) eqn:Ec; [constructor; [reflexivity | exact IH]|].
  destruct (Split s LF) as [|l ls].
  - constructor; [|constructor]. cbn [has_byte]. rewrite Ec. reflexivity.
  - inversion IH as [|? ? Hl Hls]; subst.
    constructor; [|exact Hls]. cbn [has_byte]. rewrite Ec. exact Hl.
Qed.

Lemma flat_map_fixed {A : Type} (f : A -> list A) (ls : list A) :
  Forall (fun l => f l = [l]) ls -> flat_map f ls = ls.
Proof.
  induction 1 as [|l ls Hl _ IH]; [reflexivity|].
  cbn [flat_map]. rewrite Hl, IH. reflexivity.
Qed.

(** *** npm *)

Lemma rewrite_line_fixed (u : string) (lines : list string) :
  Forall (fun l => NPMSpec.rewrite_line u l = [l]) (NPMSpec.rewrite u lines).
Proof.
  pose proof (registry_line_is_registry u) as Hr.
  assert (Hreg : NPMSpec.rewrite_line u ("registry=" +:+ u) = ["registry=" +:+ u]).
  { unfold NPMSpec.rewrite_line. rewrite Hr. reflexivity. }
  unfold NPMSpec.rewrite. apply Forall_app. split.
  - induction lines as [|l lines IH]; cbn [flat_map]; [constructor|].
    apply Forall_app. split; [|exact IH].
    unfold NPMSpec.rewrite_line at 2.
    destruct (NPMSpec.is_registry l) eqn:Er; [repeat constructor; exact Hreg|].
    destruct (is_blank l) eqn:Eb; repeat constructor.
    unfold NPMSpec.rewrite_line. rewrite Er, Eb. reflexivity.
  - destruct (existsb NPMSpec.is_registry lines); repeat constructor. exact Hreg.
Qed.

Lemma rewrite_has_registry (u : string) (lines : list string) :
  existsb NPMSpec.is_registry (NPMSpec.rewrite u lines) = true.
Proof.
  pose proof (registry_line_is_registry u) as Hr.
  unfold NPMSpec.rewrite. rewrite existsb_app.
  destruct (existsb NPMSpec.is_registry lines) eqn:Ex.
  - rewrite orb_false_r.
    induction lines as [|l lines IH]; [discriminate|].
    cbn [existsb flat_map] in *. rewrite existsb_app.
    unfold NPMSpec.rewrite_line at 1.
    destruct (NPMSpec.is_registry l).
    + cbn [existsb]. rewrite Hr. reflexivity.
    + cbn [orb] in Ex. rewrite (IH Ex). apply orb_true_r.
  - cbn [existsb]. rewrite Hr. apply orb_true_r.
Qed.

Lemma rewrite_one_line (u : string) (lines : list string) :
  one_line u -> Forall (fun l => has_byte LF l = false) lines ->
  Forall (fun l => has_byte LF l = false) (NPMSpec.rewrite u lines).
Proof.
  intros Hu Hall.
  assert (Hreg : has_byte LF ("registry=" +:+ u) = false).
  { rewrite has_byte_app, Hu. reflexivity. }
  unfold NPMSpec.rewrite. apply Forall_app. split.
  - induction Hall as [|l lines Hl _ IH]; cbn [flat_map]; [constructor|].
    apply Forall_app. split; [|exact IH].
    unfold NPMSpec.rewrite_line. destruct (NPMSpec.is_registry l).
    + repeat constructor. exact Hreg.
    + destruct (is_blank l); repeat constructor. exact Hl.
  - destruct (existsb NPMSpec.is_registry lines); repeat constructor. exact Hreg.
Qed.

(** A second [Enable] of the npm mutator writes what the first one wrote. *)
Lemma npm_enable_idempotent (n : NPM.NPMMirror) (content : string) :
  one_line (NPM.registryURL n) ->
  NPM.enable_content n (NPM.enable_content n content) = NPM.enable_content n content.
Proof.
  intros Hu. unfold NPM.enable_content. rewrite !npm_enable_lines_rewrite.
  set (out := NPMSpec.rewrite (NPM.registryURL n) (Split content LF)).
  pose proof (rewrite_has_registry (NPM.registryURL n) (Split content LF)) as Hex.
  fold out in Hex.
  rewrite Split_Join.
  - f_equal. f_equal. unfold NPMSpec.rewrite at 1.
    rewrite flat_map_app, existsb_app, Hex. cbn [orb flat_map].
    rewrite (flat_map_fixed _ out) by apply rewrite_line_fixed.
    change (NPMSpec.rewrite_line (NPM.registryURL n) "") with (@nil string).
    rewrite !app_nil_r. reflexivity.
  - apply rewrite_one_line; [exact Hu | apply Split_one_line].
  - intros E. rewrite E in Hex. discriminate.
Qed.

(** *** pip *)

Lemma index_line_is_index (p : Pip.PipMirror) :
  PipSpec.is_index (Pip.index_line p) = true.
Proof.
  unfold Pip.index_line.
  change ("index-url = " +:+ Pip.indexURL p)
    with ("index-url" +:+ (" = " +:+ Pip.indexURL p)).
  apply TrimSpace_keep_prefix; reflexivity.
Qed.

(** The body of the loop, by what the line is. *)
Lemma pip_body_eq (p : Pip.PipMirror) (st : Pip.scan) (l : string) :
  Pip.enable_body p st l
  = if PipSpec.is_global l then
      Pip.mkScan (Pip.newLines st ++ [l]) true (Pip.hasIndexURL st) true
    else if is_header l then
      if Pip.inGlobalSection st && negb (Pip.hasIndexURL st) then
        Pip.mkScan (Pip.newLines st ++ [Pip.index_line p] ++ [l])
          (Pip.hasGlobalSection st) true false
      else
        Pip.mkScan (Pip.newLines st ++ [l]) (Pip.hasGlobalSection st)
          (Pip.hasIndexURL st) false
    else if Pip.inGlobalSection st && PipSpec.is_index l then
      Pip.mkScan (Pip.newLines st ++ [Pip.index_line p]) (Pip.hasGlobalSection st)
        true (Pip.inGlobalSection st)
    else if negb (is_blank l) then
      Pip.mkScan (Pip.newLines st ++ [l]) (Pip.hasGlobalSection st)
        (Pip.hasIndexURL st) (Pip.inGlobalSection st)
    else st.
Proof.
  unfold Pip.enable_body. fold (PipSpec.is_global l). fold (is_header l).
  fold (PipSpec.is_index l). fold (is_blank l).
  destruct (PipSpec.is_global l); [reflexivity|].
  rewrite andb_true_r. reflexivity.
Qed.

(** Scanning the lines a step wrote, from the state before the step, leads
    to the state after the step. *)
Lemma pip_step_rescan (p : Pip.PipMirror) (st : Pip.scan) (l : string) :
  range (Pip.newLines (Pip.enable_body p (pip_flags st) l)) (Pip.enable_body p) st
  = Pip.enable_body p st l.
Proof.
  pose proof (index_line_is_index p) as Hi.
  pose proof (is_index_not_global _ Hi) as Hig.
  pose proof (is_index_not_header _ Hi) as Hih.
  destruct st as [acc g i n]. unfold pip_flags, range.
  cbn [Pip.newLines Pip.hasGlobalSection Pip.hasIndexURL Pip.inGlobalSection].
  rewrite (pip_body_eq p (Pip.mkScan [] g i n) l).
  rewrite (pip_body_eq p (Pip.mkScan acc g i n) l).
  cbn [Pip.newLines Pip.hasGlobalSection Pip.hasIndexURL Pip.inGlobalSection].
  destruct (PipSpec.is_global l) eqn:Eg.
  { cbn [Pip.newLines app fold_left]. rewrite pip_body_eq, Eg. reflexivity. }
  destruct (is_header l) eqn:Eh.
  { destruct (n && negb i) eqn:Eni.
    - apply andb_true_iff in Eni as [-> Hni]. apply negb_true_iff in Hni as ->.
      cbn [Pip.newLines app fold_left]. rewrite !pip_body_eq, Hig, Hih, Hi, Eg, Eh.
      cbn [Pip.newLines Pip.hasGlobalSection Pip.hasIndexURL Pip.inGlobalSection
           andb negb].
      rewrite <- app_assoc. reflexivity.
    - cbn [Pip.newLines app fold_left]. rewrite pip_body_eq, Eg, Eh.
      cbn [Pip.newLines Pip.hasGlobalSection Pip.hasIndexURL Pip.inGlobalSection].
      rewrite Eni. reflexivity. }
  destruct (n && PipSpec.is_index l) eqn:Eni.
  { apply andb_true_iff in Eni as [-> Hl].
    cbn [Pip.newLines app fold_left]. rewrite pip_body_eq, Hig, Hih, Hi.
    reflexivity. }
  destruct (is_blank l) eqn:Eb; cbn [negb Pip.newLines app fold_left].
  - reflexivity.
  - rewrite pip_body_eq, Eg, Eh.
    cbn [Pip.newLines Pip.hasGlobalSection Pip.hasIndexURL Pip.inGlobalSection].
    rewrite Eni, Eb. reflexivity.
Qed.

Lemma pip_body_lines (p : Pip.PipMirror) (st : Pip.scan) (l : string) :
  Pip.newLines (Pip.enable_body p st l)
  = Pip.newLines st ++ Pip.newLines (Pip.enable_body p (pip_flags st) l).
Proof. rewrite (pip_body_frame p st l). reflexivity. Qed.

(** Scanning the lines a scan wrote leads to the state the scan ended in. *)
Lemma pip_rescan (p : Pip.PipMirror) (lines : list string) (st : Pip.scan) :
  range (Pip.newLines st) (Pip.enable_body p) pip_init = st ->
  range (Pip.newLines (range lines (Pip.enable_body p) st)) (Pip.enable_body p)
    pip_init
  = range lines (Pip.enable_body p) st.
Proof.
  revert st. induction lines as [|l lines IH]; intros st Hst; [exact Hst|].
  unfold range at 2 3. cbn [fold_left].
  change (fold_left (Pip.enable_body p) lines (Pip.enable_body p st l))
    with (range lines (Pip.enable_body p) (Pip.enable_body p st l)).
  apply IH. rewrite pip_body_lines, pip_range_app, Hst. apply pip_step_rescan.
Qed.

Lemma pip_range_open (p : Pip.PipMirror) (lines : list string) (st : Pip.scan) :
  pip_open st -> pip_open (range lines (Pip.enable_body p) st).
Proof.
  unfold range. revert st.
  induction lines as [|l lines IH]; intros st Hst; [exact Hst|].
  cbn [fold_left]. apply IH. rewrite pip_body_eq. unfold pip_open in *.
  destruct st as [acc g i n].
  cbn [Pip.newLines Pip.hasGlobalSection Pip.hasIndexURL Pip.inGlobalSection] in *.
  destruct (PipSpec.is_global l); [reflexivity|].
  destruct (is_header l).
  { destruct n, i, g; cbn; intros; try discriminate; try reflexivity.
    apply Hst; reflexivity. }
  destruct (n && PipSpec.is_index l); [cbn; intros; discriminate|].
  destruct (negb (is_blank l)); exact Hst.
Qed.

Lemma pip_range_one_line (p : Pip.PipMirror) (lines : list string) (st : Pip.scan) :
  one_line (Pip.indexURL p) ->
  Forall (fun l => has_byte LF l = false) lines ->
  Forall (fun l => has_byte LF l = false) (Pip.newLines st) ->
  Forall (fun l => has_byte LF l = false)
    (Pip.newLines (range lines (Pip.enable_body p) st)).
Proof.
  intros Hu Hall. unfold range. revert st.
  assert (Hidx : has_byte LF (Pip.index_line p) = false).
  { unfold Pip.index_line. rewrite has_byte_app, Hu. reflexivity. }
  induction Hall as [|l lines Hl _ IH]; intros st Hst; [exact Hst|].
  cbn [fold_left]. apply IH. rewrite pip_body_eq.
  repeat match goal with
         | |- context [if ?c then _ else _] => destruct c
         end; cbn [Pip.newLines]; try exact Hst;
    repeat (apply Forall_app; split); try exact Hst; repeat constructor;
      assumption.
Qed.

Lemma pip_blank_last (p : Pip.PipMirror) (st : Pip.scan) :
  Pip.enable_body p st "" = st.
Proof. rewrite pip_body_eq. rewrite andb_false_r. reflexivity. Qed.

(** A second [Enable] of the pip mutator writes what the first one wrote. *)
Lemma pip_enable_idempotent (p : Pip.PipMirror) (content : string) :
  one_line (Pip.indexURL p) ->
  Pip.enable_content p (Pip.enable_content p content) = Pip.enable_content p content.
Proof.
  intros Hu.
  pose proof (index_line_is_index p) as Hi.
  pose proof (is_index_not_global _ Hi) as Hig.
  pose proof (is_index_not_header _ Hi) as Hih.
  assert (Hidx : has_byte LF (Pip.index_line p) = false).
  { unfold Pip.index_line. rewrite has_byte_app, Hu. reflexivity. }
  unfold Pip.enable_content.
  set (st := range (Split content LF) (Pip.enable_body p) pip_init).
  assert (Hre : range (Pip.newLines st) (Pip.enable_body p) pip_init = st)
    by (apply pip_rescan; reflexivity).
  assert (Hop : pip_open st).
  { apply pip_range_open. intros Hg. discriminate. }
  assert (Hol : Forall (fun l => has_byte LF l = false) (Pip.newLines st)).
  { apply pip_range_one_line; [exact Hu | apply Split_one_line | constructor]. }
  assert (Hout : Pip.enable_lines p (Split content LF)
                 = if negb (Pip.hasGlobalSection st)
                   then Pip.newLines st ++ ["[global]"] ++ [Pip.index_line p]
                   else if negb (Pip.hasIndexURL st)
                        then Pip.newLines st ++ [Pip.index_line p]
                        else Pip.newLines st) by reflexivity.
  set (out := Pip.enable_lines p (Split content LF)) in *.
  assert (Hne : out <> []).
  { rewrite Hout. destruct st as [acc [|] [|] n]; cbn.
    - intros E. rewrite E in Hre. cbn in Hre. discriminate.
    - intros E. destruct acc; discriminate.
    - intros E. destruct acc; discriminate.
    - intros E. destruct acc; discriminate. }
  assert (Hone : Forall (fun l => has_byte LF l = false) out).
  { rewrite Hout.
    destruct (negb (Pip.hasGlobalSection st)); [|destruct (negb (Pip.hasIndexURL st))];
      repeat (apply Forall_app; split); try exact Hol; repeat constructor;
        exact Hidx. }
  rewrite (Split_Join out Hone Hne).
  f_equal. f_equal.
  assert (H2 : Pip.newLines (range out (Pip.enable_body p) pip_init) = out
               /\ Pip.hasGlobalSection (range out (Pip.enable_body p) pip_init) = true
               /\ Pip.hasIndexURL (range out (Pip.enable_body p) pip_init) = true).
  { rewrite Hout. clear Hout Hne Hone. destruct st as [acc g i n].
    cbn [Pip.newLines Pip.hasGlobalSection Pip.hasIndexURL Pip.inGlobalSection]
      in *.
    destruct g; cbn [negb].
    - destruct i; cbn [negb].
      + rewrite Hre. repeat split.
      + assert (Hn : n = true) by (apply Hop; reflexivity). subst n.
        rewrite pip_range_app, Hre. unfold range. cbn [fold_left].
        rewrite pip_body_eq, Hig, Hih, Hi. repeat split.
    - rewrite pip_range_app, Hre. unfold range. cbn [fold_left app].
      rewrite !pip_body_eq, Hig, Hih.
      change (PipSpec.is_global "[global]") with true. cbn iota.
      cbn [Pip.newLines Pip.hasGlobalSection Pip.hasIndexURL Pip.inGlobalSection].
      rewrite Hi. cbn [andb].
      rewrite <- !app_assoc. repeat split. }
  destruct H2 as (Hl2 & Hg2 & Hi2).
  unfold Pip.enable_lines at 1. fold pip_init.
  rewrite pip_range_app.
  change (range [""] (Pip.enable_body p) (range out (Pip.enable_body p) pip_init))
    with (Pip.enable_body p (range out (Pip.enable_body p) pip_init) "").
  rewrite pip_blank_last, Hg2, Hi2. exact Hl2.
Qed.

(** *** Go proxy *)

Lemma prefix_app_LF (k a b : string) :
  has_byte LF k = false ->
  String.prefix k (a +:+ String LF b) = String.prefix k a.
Proof.
  revert a. induction k as [|c k IH]; intros a Hk.
  - destruct a; reflexivity.
  - cbn [has_byte] in Hk. apply orb_false_iff in Hk as [Hc Hk].
    destruct a as [|d a].
    + change ("" +:+ String LF b) with (String LF b). cbn [String.prefix].
      destruct (ascii_dec c LF) as [->|]; [|reflexivity].
      rewrite Ascii.eqb_refl in Hc. discriminate.
    + rewrite app_String. cbn [String.prefix].
      destruct (ascii_dec c d); [apply IH; exact Hk | reflexivity].
Qed.

Lemma prefix_empty (k : string) : k <> "" -> String.prefix k "" = false.
Proof. destruct k; [congruence | reflexivity]. Qed.

Lemma Contains_eq (s k : string) :
  Contains s k
  = String.prefix k s
    || match s with EmptyString => false | String _ s' => Contains s' k end.
Proof. destruct s; reflexivity. Qed.

(** A text of one line occurs in a text when it occurs before or after a
    given line feed. *)
Lemma Contains_app_LF (k a b : string) :
  has_byte LF k = false -> k <> "" ->
  Contains (a +:+ String LF b) k = Contains a k || Contains b k.
Proof.
  intros Hk Hne. induction a as [|d a IH].
  - change ("" +:+ String LF b) with (String LF b).
    pose proof (prefix_empty k Hne) as Hp.
    pose proof (prefix_app_LF k "" b Hk) as Hq.
    change ("" +:+ String LF b) with (String LF b) in Hq.
    rewrite (Contains_eq (String LF b)), (Contains_eq "").
    rewrite Hq, Hp. reflexivity.
  - rewrite app_String, (Contains_eq (String d _)), (Contains_eq (String d a)).
    rewrite <- app_String, (prefix_app_LF k (String d a) b Hk), IH, orb_assoc.
    reflexivity.
Qed.

Lemma Contains_prefix (s k : string) :
  String.prefix k s = true -> Contains s k = true.
Proof. intros Hp. rewrite Contains_eq, Hp. reflexivity. Qed.

Lemma Join_cons2 (a b : string) (ls : list string) :
  Join (a :: b :: ls) NL = a +:+ String LF (Join (b :: ls) NL).
Proof. reflexivity. Qed.

Lemma Join_String (c : ascii) (l : string) (ls : list string) :
  Join (String c l :: ls) NL = String c (Join (l :: ls) NL).
Proof. destruct ls; reflexivity. Qed.

(** Joining the lines of a text gives the text back. *)
Lemma Join_Split (s : string) : Join (Split s LF) NL = s.
Proof.
  induction s as [|c s IH]; [reflexivity|]. cbn [Split].
  destruct (Ascii.eqb c LF) eqn:Ec.
  - apply Ascii.eqb_eq in Ec as ->.
    pose proof (Split_nonempty s LF) as Hne.
    destruct (Split s LF) as [|l ls]; [congruence|].
    rewrite Join_cons2, IH. reflexivity.
  - pose proof (Split_nonempty s LF) as Hne.
    destruct (Split s LF) as [|l ls]; [congruence|].
    rewrite Join_String, IH. reflexivity.
Qed.

Lemma Split_Join_lines (ls : list string) :
  Forall (fun l => has_byte LF l = false) ls -> ls <> [] ->
  Split (Join ls NL) LF = ls.
Proof.
  intros Hall Hne. induction Hall as [|a ls Ha Hls IH]; [congruence|].
  destruct ls as [|b ls].
  - apply (Split_one a Ha).
  - rewrite Join_cons2, (Split_line a _ Ha). f_equal. apply IH. discriminate.
Qed.

Lemma Split_app_LF (a b : string) :
  Split (a +:+ String LF b) LF = Split a LF ++ Split b LF.
Proof.
  induction a as [|c a IH]; [reflexivity|].
  rewrite app_String. cbn [Split]. rewrite IH.
  destruct (Ascii.eqb c LF); [reflexivity|].
  pose proof (Split_nonempty a LF) as Hne.
  destruct (Split a LF) as [|l ls]; [congruence | reflexivity].
Qed.

Lemma Contains_Join (k : string) (ls : list string) :
  has_byte LF k = false -> k <> "" -> ls <> [] ->
  Contains (Join ls NL) k = existsb (fun l => Contains l k) ls.
Proof.
  intros Hk Hne Hls. induction ls as [|a ls IH]; [congruence|].
  destruct ls as [|b ls].
  - cbn [existsb]. rewrite orb_false_r. reflexivity.
  - rewrite Join_cons2, (Contains_app_LF k a _ Hk Hne), IH by discriminate.
    reflexivity.
Qed.

(** A text of one line occurs in a text exactly when it occurs in one of
    its lines. *)
Lemma Contains_lines (k s : string) :
  has_byte LF k = false -> k <> "" ->
  Contains s k = existsb (fun l => Contains l k) (Split s LF).
Proof.
  intros Hk Hne. rewrite <- (Join_Split s) at 1.
  apply Contains_Join; [exact Hk | exact Hne | apply Split_nonempty].
Qed.

Lemma go_replace_map (e : string) (lines acc : list string) :
  range lines (Go.replace_body e) acc
  = acc ++ map (fun l => if Contains l "export GOPROXY=" then e else l) lines.
Proof.
  unfold range. revert acc.
  induction lines as [|l lines IH]; intros acc; cbn [fold_left map].
  - rewrite app_nil_r. reflexivity.
  - rewrite IH. unfold Go.replace_body.
    destruct (Contains l "export GOPROXY="); rewrite <- app_assoc; reflexivity.
Qed.

Lemma map_fixed {A : Type} (f : A -> A) (ls : list A) :
  Forall (fun l => f l = l) ls -> map f ls = ls.
Proof.
  induction 1 as [|l ls Hl _ IH]; [reflexivity|].
  cbn [map]. rewrite Hl, IH. reflexivity.
Qed.

Lemma Forall_map_all {A : Type} (P : A -> Prop) (f : A -> A) (ls : list A) :
  (forall l, P (f l)) -> Forall P (map f ls).
Proof. intros HP. induction ls; cbn [map]; constructor; auto. Qed.

Lemma Forall_map_keeps {A : Type} (P : A -> Prop) (f : A -> A) (ls : list A) :
  (forall l, P l -> P (f l)) -> Forall P ls -> Forall P (map f ls).
Proof. intros HP. induction 1; cbn [map]; constructor; auto. Qed.

Lemma existsb_false_Forall {A : Type} (P : A -> bool) (ls : list A) :
  existsb P ls = false -> Forall (fun l => P l = false) ls.
Proof.
  induction ls as [|l ls IH]; [constructor|].
  cbn [existsb]. intros [Hl Hls]%orb_false_iff. constructor; auto.
Qed.

(** A second [Enable] of the Go mutator writes what the first one wrote. *)
Lemma go_enable_idempotent (g : Go.GoMirror) (content : string) :
  one_line (Go.proxyURL g) ->
  Go.enable_content g (Go.enable_content g content) = Go.enable_content g content.
Proof.
  intros Hu.
  set (k := "export GOPROXY=").
  set (e := k +:+ Go.proxyURL g).
  set (f := fun l : string => if Contains l k then e else l).
  assert (Hk : has_byte LF k = false) by reflexivity.
  assert (Hkne : k <> "") by discriminate.
  assert (He : Contains e k = true) by (apply Contains_prefix, prefix_app).
  assert (Hel : has_byte LF e = false).
  { unfold e. rewrite has_byte_app, Hu. reflexivity. }
  assert (Hfix : forall out,
             Contains out k = true ->
             Forall (fun l => f l = l) (Split out LF) ->
             Go.enable_content g out = out).
  { intros out Hc Hall. unfold Go.enable_content. fold k. rewrite Hc.
    fold e. rewrite go_replace_map. cbn [app]. fold k. fold f.
    rewrite (map_fixed f _ Hall). apply Join_Split. }
  apply Hfix.
  - unfold Go.enable_content. fold k. fold e.
    destruct (Contains content k) eqn:Ec.
    + rewrite go_replace_map. cbn [app]. fold k. fold f.
      rewrite Contains_Join; [|exact Hk|exact Hkne|].
      2:{ pose proof (Split_nonempty content LF).
          destruct (Split content LF); [congruence | discriminate]. }
      rewrite (Contains_lines k content Hk Hkne) in Ec.
      revert Ec. generalize (Split content LF). intros ls.
      induction ls as [|l ls IH]; [discriminate|].
      cbn [existsb map]. unfold f at 1.
      destruct (Contains l k) eqn:El; [rewrite He; reflexivity|].
      rewrite El. cbn [orb]. exact IH.
    + set (c' := if negb (HasSuffix content NL) then content +:+ NL else content).
      change (NL +:+ "# Added by crosh" +:+ NL +:+ e +:+ NL)
        with (String LF ("# Added by crosh" +:+ String LF (e +:+ String LF ""))).
      rewrite (Contains_app_LF k c' _ Hk Hkne).
      rewrite (Contains_app_LF k "# Added by crosh" _ Hk Hkne).
      rewrite (Contains_app_LF k e "" Hk Hkne), He.
      rewrite !orb_true_r. reflexivity.
  - unfold Go.enable_content. fold k. fold e.
    destruct (Contains content k) eqn:Ec.
    + rewrite go_replace_map. cbn [app]. fold k. fold f.
      rewrite Split_Join_lines.
      * apply Forall_map_all. intros l.
        unfold f. destruct (Contains l k) eqn:El; [rewrite He | rewrite El];
          reflexivity.
      * apply Forall_map_keeps; [|apply (Split_one_line content)].
        intros l Hl. unfold f. destruct (Contains l k); assumption.
      * pose proof (Split_nonempty content LF).
        destruct (Split content LF); [congruence | discriminate].
    + set (c' := if negb (HasSuffix content NL) then content +:+ NL else content).
      assert (Hc' : Contains c' k = false).
      { unfold c'. destruct (negb (HasSuffix content NL)); [|exact Ec].
        change NL with (String LF "").
        rewrite (Contains_app_LF k content "" Hk Hkne), Ec. reflexivity. }
      change (NL +:+ "# Added by crosh" +:+ NL +:+ e +:+ NL)
        with (String LF ("# Added by crosh" +:+ String LF (e +:+ String LF ""))).
      rewrite Split_app_LF, (Split_line "# Added by crosh") by reflexivity.
      rewrite (Split_line e "" Hel).
      apply Forall_app. split.
      * rewrite (Contains_lines k c' Hk Hkne) in Hc'.
        apply existsb_false_Forall in Hc'.
        eapply List.Forall_impl; [|exact Hc']. intros l Hl. cbn beta in *.
        unfold f. rewrite Hl. reflexivity.
      * constructor; [reflexivity|].
        constructor; [unfold f; rewrite He; reflexivity|].
        constructor; [reflexivity | constructor].
Qed.

End Idempotence.


(** * Further properties of the mutators *)

(** ** Files and worlds *)

Section WorldFacts.

Lemma ancestors_ne (p q : path) : In q (os.ancestors p) -> q <> p.
Proof.
  unfold os.ancestors. intros Hin E. apply in_map_iff in Hin as (n & Hn & Hs).
  apply in_seq in Hs. subst q.
  apply (f_equal (@List.length string)) in E.
  rewrite length_take in E. lia.
Qed.

Lemma existsb_ext_in {A : Type} (f g : A -> bool) (l : list A) :
  (forall x, In x l -> f x = g x) -> existsb f l = existsb g l.
Proof.
  induction l as [|x l IH]; intros H; [reflexivity|].
  cbn [existsb]. rewrite (H x (or_introl eq_refl)), IH; [reflexivity|].
  intros y Hy. apply H. right. exact Hy.
Qed.

(** Whether [p] lies below a file does not depend on the file [p] itself. *)
Lemma under_file_at (w w' : World) (p : path) :
  (forall q, q <> p -> files w' !! q = files w !! q) ->
  os.under_file w' p = os.under_file w p.
Proof.
  intros H. unfold os.under_file. apply existsb_ext_in. intros q Hq.
  unfold os.is_file. rewrite (H q (ancestors_ne p q Hq)). reflexivity.
Qed.

Lemma writable_with_file (w : World) (p : path) (data : string) :
  writable w p -> writable (with_file p data w) p.
Proof.
  intros (Hd & Hu & Hp). repeat split; [exact Hd| |exact Hp].
  rewrite <- Hu. apply under_file_at. intros q Hq. cbn [with_file files].
  apply lookup_insert_ne. congruence.
Qed.

Lemma writable_without_file (w : World) (p : path) :
  writable w p -> writable (without_file p w) p.
Proof.
  intros (Hd & Hu & Hp). repeat split; [exact Hd| |exact Hp].
  rewrite <- Hu. apply under_file_at. intros q Hq. cbn [without_file files].
  apply lookup_delete_ne. congruence.
Qed.

Lemma writable_kept_file (w : World) (p : path) (kept : list string) :
  writable w p -> writable (kept_file p kept w) p.
Proof.
  destruct kept; [apply writable_without_file | apply writable_with_file].
Qed.

Lemma Remove_file (w : World) (p : path) (data : string) :
  files w !! p = Some data -> os.Remove p w = (without_file p w, None).
Proof.
  intros Hf. unfold os.Remove, os.is_file. rewrite Hf.
  rewrite bool_decide_true by eauto. reflexivity.
Qed.

Lemma with_file_twice (p : path) (a b : string) (w : World) :
  with_file p a (with_file p b w) = with_file p a w.
Proof.
  unfold with_file. cbn [goos home env dirs files].
  rewrite insert_insert_eq. reflexivity.
Qed.

Lemma kept_file_lookup (p : path) (kept : list string) (w : World) :
  files (kept_file p kept w) !! p
  = match kept with
    | [] => None
    | _ :: _ => Some (Join kept NL +:+ NL)
    end.
Proof.
  destruct kept; cbn [kept_file without_file with_file files].
  - apply lookup_delete_eq.
  - apply lookup_insert_eq.
Qed.

(** Writing the file or removing it, after a line-oriented [Disable]. *)
Lemma write_kept (w : World) (p : path) (data ctx : string) (kept : list string) :
  files w !! p = Some data ->
  (if Nat.ltb 0 (List.length kept) then
     match os.WriteFile p (Join kept NL +:+ NL) w with
     | (w', Some e) => (w', Some (Wrapped ctx (OsError e)))
     | (w', None) => (w', None)
     end
   else (fst (os.Remove p w), None))
  = (kept_file p kept w, None).
Proof.
  intros Hf. destruct kept as [|l kept]; cbn [List.length Nat.ltb Nat.leb kept_file].
  - rewrite (Remove_file w p data Hf). reflexivity.
  - rewrite (WriteFile_file w p data _ Hf). reflexivity.
Qed.

End WorldFacts.

(** ** npm: [Disable], and how the operations compose *)

Section NPMFurther.

Lemma npm_disable_lines_filter (lines : list string) :
  NPM.disable_lines lines = List.filter NPMSpec.foreign lines.
Proof.
  unfold NPM.disable_lines, range.
  enough (H : forall acc, fold_left NPM.disable_body lines acc
                          = acc ++ List.filter NPMSpec.foreign lines)
    by apply (H []).
  induction lines as [|l lines IH]; intros acc; cbn [fold_left List.filter].
  - rewrite app_nil_r. reflexivity.
  - rewrite IH. unfold NPM.disable_body, NPMSpec.foreign at 2.
    fold (NPMSpec.is_registry l). fold (is_blank l).
    destruct (negb (NPMSpec.is_registry l) && negb (is_blank l));
      [rewrite <- app_assoc|]; reflexivity.
Qed.

Lemma npm_Disable_run (n : NPM.NPMMirror) (w : World) (h : path) (data : string) :
  home w = Some h -> files w !! (h ++ [".npmrc"]) = Some data ->
  NPM.Disable n w
  = (kept_file (h ++ [".npmrc"]) (List.filter NPMSpec.foreign (Split data LF)) w,
     None).
Proof.
  intros Hh Hf. unfold NPM.Disable, os.UserHomeDir, Join_path. rewrite Hh.
  rewrite (ReadFile_file _ _ data Hf), npm_disable_lines_filter.
  apply (write_kept w _ data _ _ Hf).
Qed.

Lemma npm_Disable_absent (n : NPM.NPMMirror) (w : World) (h : path) :
  home w = Some h -> writable w (h ++ [".npmrc"]) ->
  files w !! (h ++ [".npmrc"]) = None ->
  NPM.Disable n w = (w, None).
Proof.
  intros Hh Hw Hf. unfold NPM.Disable, os.UserHomeDir, Join_path. rewrite Hh.
  rewrite (ReadFile_writable _ _ Hw), Hf. reflexivity.
Qed.

Lemma filter_foreign_blank_end (lines : list string) :
  List.filter NPMSpec.foreign (lines ++ [""]) = List.filter NPMSpec.foreign lines.
Proof. rewrite List.filter_app. cbn. apply app_nil_r. Qed.

Lemma npm_enabled_lines (n : NPM.NPMMirror) (content : string) :
  one_line (NPM.registryURL n) ->
  Split (NPM.enable_content n content) LF
  = NPMSpec.rewrite (NPM.registryURL n) (Split content LF) ++ [""].
Proof.
  intros Hu. unfold NPM.enable_content. rewrite npm_enable_lines_rewrite.
  apply Split_Join.
  - apply rewrite_one_line; [exact Hu | apply Split_one_line].
  - intros E.
    pose proof (rewrite_has_registry (NPM.registryURL n) (Split content LF)) as Hex.
    rewrite E in Hex. discriminate.
Qed.

End NPMFurther.

(** X1.  [Disable] of the npm mutator on an existing [.npmrc] keeps exactly
    the lines that are neither blank nor [registry=] lines, in their order,
    each closed by a line feed, and removes the file when it keeps none; it
    returns no error. *)
Theorem npm_disable_keeps_foreign_lines
    (n : NPM.NPMMirror) (w : World) (h : path) (data : string) :
  home w = Some h ->
  files w !! (h ++ [".npmrc"]) = Some data ->
  let kept := List.filter NPMSpec.foreign (Split data LF) in
  snd (NPM.Disable n w) = None
  /\ files (fst (NPM.Disable n w)) !! (h ++ [".npmrc"])
     = match kept with
       | [] => None
       | _ :: _ => Some (Join kept NL +:+ NL)
       end
  /\ (forall q, q <> h ++ [".npmrc"] ->
        files (fst (NPM.Disable n w)) !! q = files w !! q)
  /\ dirs (fst (NPM.Disable n w)) = dirs w.
Proof.
  intros Hh Hf kept. rewrite (npm_Disable_run n w h data Hh Hf). fold kept.
  cbn [fst snd]. split; [reflexivity|]. split; [apply kept_file_lookup|].
  split.
  - intros q Hq. destruct kept; cbn [kept_file without_file with_file files].
    + apply lookup_delete_ne. congruence.
    + apply lookup_insert_ne. congruence.
  - destruct kept; reflexivity.
Qed.

Lemma npm_disable_keeps_foreign_lines_witness :
  let w := with_file Sample.npmrc npmrc_two_registries Sample.fresh in
  files (fst (NPM.Disable Sample.npm w)) !! Sample.npmrc
  = Some ("color=true" +:+ NL)
  /\ files (fst (NPM.Disable Sample.npm
                   (with_file Sample.npmrc ("registry=x" +:+ NL) Sample.fresh)))
       !! Sample.npmrc = None.
Proof.
  intros w. split.
  - destruct (npm_disable_keeps_foreign_lines Sample.npm w Sample.homeDir
                npmrc_two_registries eq_refl) as (_ & H & _).
    + vm_compute. reflexivity.
    + etransitivity; [exact H|]. vm_compute. reflexivity.
  - destruct (npm_disable_keeps_foreign_lines Sample.npm
                (with_file Sample.npmrc ("registry=x" +:+ NL) Sample.fresh)
                Sample.homeDir ("registry=x" +:+ NL) eq_refl) as (_ & H & _).
    + vm_compute. reflexivity.
    + etransitivity; [exact H|]. vm_compute. reflexivity.
Defined.

(** X2.  For a value of one line, [Enable] followed by [Disable] of the npm
    mutator leaves the [.npmrc] that [Disable] alone leaves: what [Enable]
    adds is what [Disable] removes, whatever the file held. *)
Theorem npm_enable_then_disable_is_disable
    (n : NPM.NPMMirror) (w : World) (h : path) :
  home w = Some h ->
  writable w (h ++ [".npmrc"]) ->
  one_line (NPM.registryURL n) ->
  files (fst (NPM.Disable n (fst (NPM.Enable n w)))) !! (h ++ [".npmrc"])
  = files (fst (NPM.Disable n w)) !! (h ++ [".npmrc"]).
Proof.
  intros Hh Hw Hu. rewrite (npm_Enable_run n w h Hh Hw). cbn [fst].
  rewrite (npm_Disable_run n _ h (NPM.enable_content n
                                    (default "" (files w !! (h ++ [".npmrc"])))))
    by (try exact Hh; apply lookup_insert_eq).
  cbn [fst]. rewrite kept_file_lookup, (npm_enabled_lines n _ Hu).
  rewrite filter_foreign_blank_end, rewrite_foreign.
  destruct (files w !! (h ++ [".npmrc"])) as [data|] eqn:Hf; cbn [default].
  - rewrite (npm_Disable_run n w h data Hh Hf). cbn [fst].
    rewrite kept_file_lookup. reflexivity.
  - rewrite (npm_Disable_absent n w h Hh Hw Hf). cbn [fst]. rewrite Hf. reflexivity.
Qed.

Lemma npm_enable_then_disable_is_disable_witness :
  let w := with_file Sample.npmrc npmrc_two_registries Sample.fresh in
  files (fst (NPM.Disable Sample.npm (fst (NPM.Enable Sample.npm w))))
    !! Sample.npmrc
  = files (fst (NPM.Disable Sample.npm w)) !! Sample.npmrc.
Proof.
  intros w.
  apply (npm_enable_then_disable_is_disable Sample.npm w Sample.homeDir).
  - reflexivity.
  - repeat split; vm_compute; reflexivity.
  - vm_compute. reflexivity.
Defined.

Section NPMStatus.

Lemma drop_app (q r : string) : drop (String.length q) (q +:+ r) = r.
Proof. induction q as [|a q IH]; [destruct r; reflexivity|]. exact IH. Qed.

Lemma TrimPrefix_app (q r : string) : TrimPrefix (q +:+ r) q = r.
Proof. unfold TrimPrefix, HasPrefix. rewrite prefix_app. apply drop_app. Qed.

(** A text that ends in a plain byte has no white space at its end. *)
Lemma TrimRightSpace_plain_last (v : string) :
  plain_last v = true -> TrimRightSpace v = v.
Proof.
  unfold plain_last, TrimRightSpace. intros Hl.
  destruct (String.rev v) as [|d z] eqn:Er; [discriminate|].
  cbn [plain_first] in Hl. rewrite (trimFront_rev_plain d z Hl), <- Er.
  apply rev_involutive.
Qed.

Lemma find_first {A : Type} (P : A -> bool) (x : A) (ls rest : list A) :
  Forall (fun l => P l = true -> l = x) ls -> existsb P ls = true ->
  List.find P (ls ++ rest) = Some x.
Proof.
  induction 1 as [|l ls Hl _ IH]; [discriminate|].
  cbn [existsb app List.find]. destruct (P l) eqn:El.
  - intros _. rewrite (Hl eq_refl). reflexivity.
  - cbn [orb]. exact IH.
Qed.

Lemma find_none {A : Type} (P : A -> bool) (ls : list A) :
  Forall (fun l => P l = false) ls -> List.find P ls = None.
Proof.
  induction 1 as [|l ls Hl _ IH]; [reflexivity|].
  cbn [List.find]. rewrite Hl. exact IH.
Qed.

Lemma rewrite_registry_lines (u : string) (lines : list string) :
  Forall (fun l => NPMSpec.is_registry l = true -> l = "registry=" +:+ u)
    (NPMSpec.rewrite u lines).
Proof.
  unfold NPMSpec.rewrite. apply Forall_app. split.
  - induction lines as [|l lines IH]; cbn [flat_map]; [constructor|].
    apply Forall_app. split; [|exact IH].
    unfold NPMSpec.rewrite_line. destruct (NPMSpec.is_registry l) eqn:Er.
    + repeat constructor.
    + destruct (is_blank l); repeat constructor. congruence.
  - destruct (existsb NPMSpec.is_registry lines); repeat constructor.
Qed.

Lemma npm_report_enabled (n : NPM.NPMMirror) (content : string) :
  one_line (NPM.registryURL n) ->
  NPMSpec.report (Split (NPM.enable_content n content) LF)
  = (true, TrimRightSpace (NPM.registryURL n)).
Proof.
  intros Hu. rewrite (npm_enabled_lines n content Hu). unfold NPMSpec.report.
  rewrite (find_first _ ("registry=" +:+ NPM.registryURL n)).
  - rewrite (TrimSpace_keep "registry=") by reflexivity.
    rewrite TrimPrefix_app. reflexivity.
  - apply rewrite_registry_lines.
  - apply rewrite_has_registry.
Qed.

Lemma filter_foreign_no_registry (lines : list string) :
  Forall (fun l => NPMSpec.is_registry l = false)
    (List.filter NPMSpec.foreign lines ++ [""]).
Proof.
  apply Forall_app. split; [|repeat constructor].
  induction lines as [|l lines IH]; cbn [List.filter]; [constructor|].
  destruct (NPMSpec.foreign l) eqn:Ef; [|exact IH].
  constructor; [|exact IH].
  unfold NPMSpec.foreign in Ef. apply andb_true_iff in Ef as [Ef _].
  apply negb_true_iff in Ef. exact Ef.
Qed.

Lemma filter_one_line (P : string -> bool) (s : string) :
  Forall (fun l => has_byte LF l = false) (List.filter P (Split s LF)).
Proof.
  pose proof (Split_one_line s) as H.
  induction H as [|l ls Hl _ IH]; cbn [List.filter]; [constructor|].
  destruct (P l); [constructor; assumption | exact IH].
Qed.

End NPMStatus.

(** X3.  After [Enable] of the npm mutator with a value of one line,
    [Status] reports the mirror as enabled, whatever the file held before:
    every [registry=] line was replaced, so the first one carries the value.
    The value is reported without the white space at its end, and as it is
    when it ends with an ASCII character that is not white space. *)
Theorem npm_status_after_enable
    (n : NPM.NPMMirror) (w : World) (h : path) :
  home w = Some h ->
  writable w (h ++ [".npmrc"]) ->
  one_line (NPM.registryURL n) ->
  snd (NPM.Status n (fst (NPM.Enable n w)))
  = (true, TrimRightSpace (NPM.registryURL n), None)
  /\ (trimmed_end (NPM.registryURL n) ->
      snd (NPM.Status n (fst (NPM.Enable n w))) = (true, NPM.registryURL n, None)).
Proof.
  intros Hh Hw Hu.
  assert (H1 : snd (NPM.Status n (fst (NPM.Enable n w)))
               = (true, TrimRightSpace (NPM.registryURL n), None)).
  { rewrite (npm_Enable_run n w h Hh Hw). cbn [fst].
    rewrite (npm_Status_run n _ h) by
      (try exact Hh; apply writable_with_file; exact Hw).
    cbn [snd with_file files]. rewrite lookup_insert_eq. cbn [default from_option id].
    rewrite (npm_report_enabled n _ Hu). reflexivity. }
  split; [exact H1|]. intros Ht. rewrite H1.
  rewrite (TrimRightSpace_plain_last _ Ht). reflexivity.
Qed.

Lemma npm_status_after_enable_witness :
  let w := with_file Sample.npmrc npmrc_two_registries Sample.fresh in
  snd (NPM.Status Sample.npm (fst (NPM.Enable Sample.npm w)))
  = (true, "https://registry.npmmirror.com", None).
Proof.
  intros w.
  destruct (npm_status_after_enable Sample.npm w Sample.homeDir) as [_ H].
  - reflexivity.
  - repeat split; vm_compute; reflexivity.
  - vm_compute. reflexivity.
  - apply H. vm_compute. reflexivity.
Defined.

(** X4.  After [Disable] of the npm mutator, [Status] reports the default
    registry, whatever the file held and whether or not there was one: no
    [registry=] line is left. *)
Theorem npm_status_after_disable
    (n : NPM.NPMMirror) (w : World) (h : path) :
  home w = Some h ->
  writable w (h ++ [".npmrc"]) ->
  snd (NPM.Disable n w) = None
  /\ snd (NPM.Status n (fst (NPM.Disable n w))) = (false, "default registry", None).
Proof.
  intros Hh Hw.
  destruct (files w !! (h ++ [".npmrc"])) as [data|] eqn:Hf.
  - rewrite (npm_Disable_run n w h data Hh Hf). cbn [fst snd].
    split; [reflexivity|].
    rewrite (npm_Status_run n _ h) by
      (try apply writable_kept_file; try exact Hw; destruct (List.filter _ _);
       exact Hh).
    cbn [snd]. rewrite kept_file_lookup.
    destruct (List.filter NPMSpec.foreign (Split data LF)) as [|l kept] eqn:Ek;
      cbn [default from_option id]; [reflexivity|].
    rewrite Split_Join.
    + unfold NPMSpec.report. rewrite find_none; [reflexivity|].
      rewrite <- Ek. apply filter_foreign_no_registry.
    + rewrite <- Ek. apply filter_one_line.
    + discriminate.
  - rewrite (npm_Disable_absent n w h Hh Hw Hf). cbn [fst snd].
    split; [reflexivity|].
    rewrite (npm_Status_run n w h Hh Hw), Hf. reflexivity.
Qed.

Lemma npm_status_after_disable_witness :
  let w := with_file Sample.npmrc npmrc_two_registries Sample.fresh in
  snd (NPM.Status Sample.npm (fst (NPM.Disable Sample.npm w)))
  = (false, "default registry", None).
Proof.
  intros w.
  destruct (npm_status_after_disable Sample.npm w Sample.homeDir) as [_ H].
  - reflexivity.
  - repeat split; vm_compute; reflexivity.
  - exact H.
Defined.

(** X5.  For a value of one line, a second [Enable] of the npm mutator
    changes nothing: it returns what the first one returned and leaves the
    world the first one left, whatever [.npmrc] held. *)
Theorem npm_enable_twice_is_once
    (n : NPM.NPMMirror) (w : World) (h : path) :
  home w = Some h ->
  writable w (h ++ [".npmrc"]) ->
  one_line (NPM.registryURL n) ->
  NPM.Enable n (fst (NPM.Enable n w)) = NPM.Enable n w.
Proof.
  intros Hh Hw Hu. rewrite (npm_Enable_run n w h Hh Hw). cbn [fst].
  rewrite (npm_Enable_run n _ h) by
    (try exact Hh; apply writable_with_file; exact Hw).
  replace (files (with_file (h ++ [".npmrc"])
                    (NPM.enable_content n (default "" (files w !! (h ++ [".npmrc"]))))
                    w) !! (h ++ [".npmrc"]))
    with (Some (NPM.enable_content n (default "" (files w !! (h ++ [".npmrc"])))))
    by (symmetry; apply lookup_insert_eq).
  cbn [default from_option id].
  rewrite (npm_enable_idempotent n _ Hu), with_file_twice. reflexivity.
Qed.

Lemma npm_enable_twice_is_once_witness :
  let w := with_file Sample.npmrc npmrc_two_registries Sample.fresh in
  NPM.Enable Sample.npm (fst (NPM.Enable Sample.npm w)) = NPM.Enable Sample.npm w.
Proof.
  intros w. apply (npm_enable_twice_is_once Sample.npm w Sample.homeDir).
  - reflexivity.
  - repeat split; vm_compute; reflexivity.
  - vm_compute. reflexivity.
Defined.

(** ** Go proxy: [Enable], [Disable] and the environment *)

Section GoFurther.

Lemma go_disable_body_step (acc : list string) (b : bool) (l : string) :
  fst (Go.disable_body (acc, b) l) = acc ++ List.filter go_foreign [l].
Proof.
  unfold Go.disable_body. cbn [List.filter]. unfold go_foreign.
  fold (go_sentinel l). fold (go_export l).
  destruct (go_sentinel l); cbn [negb andb fst]; [symmetry; apply app_nil_r|].
  destruct (go_export l); cbn [negb andb fst].
  - destruct b; cbn [andb fst]; symmetry; apply app_nil_r.
  - rewrite andb_false_r. reflexivity.
Qed.

Lemma go_disable_range (lines acc : list string) (b : bool) :
  fst (range lines Go.disable_body (acc, b)) = acc ++ List.filter go_foreign lines.
Proof.
  unfold range. revert acc b.
  induction lines as [|l lines IH]; intros acc b; cbn [fold_left].
  - cbn [fst List.filter]. rewrite app_nil_r. reflexivity.
  - pose proof (go_disable_body_step acc b l) as Hs.
    destruct (Go.disable_body (acc, b) l) as [acc' b']. cbn [fst] in Hs.
    rewrite IH, Hs, <- app_assoc. f_equal.
    cbn [List.filter]. destruct (go_foreign l); reflexivity.
Qed.

Lemma go_disable_content_filter (data : string) :
  Go.disable_content data = Join (List.filter go_foreign (Split data LF)) NL.
Proof. unfold Go.disable_content. rewrite go_disable_range. reflexivity. Qed.

Lemma go_Enable_run (g : Go.GoMirror) (w : World) (h : path) :
  home w = Some h -> writable w (Go.rcFile h w) ->
  Go.Enable g w
  = (fst (os.Setenv "GOPROXY" (Go.proxyURL g)
            (with_file (Go.rcFile h w)
               (Go.enable_content g (default "" (files w !! Go.rcFile h w))) w)),
     None).
Proof.
  intros Hh Hw. unfold Go.Enable, os.UserHomeDir. rewrite Hh.
  fold (content_of w (Go.rcFile h w)).
  rewrite (content_of_writable _ _ Hw), (WriteFile_ok _ _ _ Hw). reflexivity.
Qed.

Lemma any_byte_is_nul (v : string) : os.any_byte os.is_nul v = has_byte "000" v.
Proof. induction v as [|a v IH]; [reflexivity|]. cbn. rewrite IH. reflexivity. Qed.

(** [os.Setenv] of [GOPROXY]: refused for a value with a NUL byte, except
    on Plan 9. *)
Lemma Setenv_GOPROXY (v : string) (w : World) :
  os.Setenv "GOPROXY" v w
  = if negb (String.eqb (goos w) "plan9") && has_byte "000" v
    then (w, Some EINVAL)
    else (mkWorld (goos w) (home w) (<["GOPROXY" := v]> (env w)) (dirs w)
            (files w), None).
Proof. unfold os.Setenv. rewrite any_byte_is_nul. reflexivity. Qed.

Lemma Setenv_frame (key v : string) (w : World) :
  goos (fst (os.Setenv key v w)) = goos w
  /\ home (fst (os.Setenv key v w)) = home w
  /\ dirs (fst (os.Setenv key v w)) = dirs w
  /\ files (fst (os.Setenv key v w)) = files w
  /\ (forall k, k <> key -> env (fst (os.Setenv key v w)) !! k = env w !! k).
Proof.
  unfold os.Setenv. destruct (_ || _); cbn [fst goos home dirs files env];
    repeat split; try reflexivity.
  intros k Hk. apply lookup_insert_ne. congruence.
Qed.

Lemma go_Disable_run (g : Go.GoMirror) (w : World) (h : path) (data : string) :
  home w = Some h -> files w !! Go.rcFile h w = Some data ->
  Go.Disable g w
  = (os.Unsetenv "GOPROXY"
       (with_file (Go.rcFile h w)
          (Join (List.filter go_foreign (Split data LF)) NL) w),
     None).
Proof.
  intros Hh Hf. unfold Go.Disable, os.UserHomeDir. rewrite Hh.
  rewrite (ReadFile_file _ _ data Hf), go_disable_content_filter.
  rewrite (WriteFile_file _ _ data _ Hf). reflexivity.
Qed.

Lemma go_rcFile_env (h : path) (w w' : World) :
  env w' !! "SHELL" = env w !! "SHELL" -> Go.rcFile h w' = Go.rcFile h w.
Proof. intros E. unfold Go.rcFile, os.Getenv. rewrite E. reflexivity. Qed.

End GoFurther.

(** X6.  [Disable] of the Go mutator on an existing rc file keeps exactly
    the lines that are neither the marker line [# Added by crosh] nor hold
    the text [export GOPROXY=], in their order, joined by line feeds: every
    export line goes, whether the marker stands before it or not.  It also
    clears the variable, so that [Status] reports the default proxy. *)
Theorem go_disable_removes_every_export_line
    (g : Go.GoMirror) (w : World) (h : path) (data : string) :
  home w = Some h ->
  files w !! Go.rcFile h w = Some data ->
  snd (Go.Disable g w) = None
  /\ files (fst (Go.Disable g w)) !! Go.rcFile h w
     = Some (Join (List.filter go_foreign (Split data LF)) NL)
  /\ env (fst (Go.Disable g w)) !! "GOPROXY" = None
  /\ snd (Go.Status g (fst (Go.Disable g w))) = (false, "default proxy", None).
Proof.
  intros Hh Hf. rewrite (go_Disable_run g w h data Hh Hf). cbn [fst snd].
  split; [reflexivity|]. split; [apply lookup_insert_eq|].
  assert (He : env (os.Unsetenv "GOPROXY"
                      (with_file (Go.rcFile h w)
                         (Join (List.filter go_foreign (Split data LF)) NL) w))
               !! "GOPROXY" = None) by apply lookup_delete_eq.
  split; [exact He|]. unfold Go.Status, os.Getenv. rewrite He. reflexivity.
Qed.

(** An rc file with an export line of the user's own and one of the
    mutator's. *)
Lemma go_disable_removes_every_export_line_witness :
  let w := with_file Sample.bashrc
             ("alias ll=ls" +:+ NL +:+ "export GOPROXY=https://my.proxy" +:+ NL
              +:+ "# Added by crosh" +:+ NL
              +:+ "export GOPROXY=https://goproxy.cn,direct" +:+ NL)
             (fst (os.Setenv "GOPROXY" "https://goproxy.cn,direct" Sample.fresh)) in
  files (fst (Go.Disable Sample.go w)) !! Sample.bashrc
  = Some ("alias ll=ls" +:+ NL)
  /\ snd (Go.Status Sample.go (fst (Go.Disable Sample.go w)))
     = (false, "default proxy", None).
Proof.
  intros w.
  destruct (go_disable_removes_every_export_line Sample.go w Sample.homeDir
              ("alias ll=ls" +:+ NL +:+ "export GOPROXY=https://my.proxy" +:+ NL
               +:+ "# Added by crosh" +:+ NL
               +:+ "export GOPROXY=https://goproxy.cn,direct" +:+ NL))
    as (_ & Hf & _ & Hs).
  - reflexivity.
  - vm_compute. reflexivity.
  - split; [|exact Hs]. etransitivity; [|exact Hf]. vm_compute. reflexivity.
Defined.

(** X7.  When the rc file does not exist, [Disable] of the Go mutator
    returns no error and does nothing at all: it returns before it clears
    the variable, so a [GOPROXY] of the session stays set and [Status] goes
    on reporting it. *)
Theorem go_disable_without_rc_file_keeps_variable
    (g : Go.GoMirror) (w : World) (h : path) :
  home w = Some h ->
  writable w (Go.rcFile h w) ->
  files w !! Go.rcFile h w = None ->
  Go.Disable g w = (w, None)
  /\ snd (Go.Status g (fst (Go.Disable g w))) = snd (Go.Status g w).
Proof.
  intros Hh Hw Hf.
  assert (H : Go.Disable g w = (w, None)).
  { unfold Go.Disable, os.UserHomeDir. rewrite Hh.
    rewrite (ReadFile_writable _ _ Hw), Hf. reflexivity. }
  rewrite H. split; reflexivity.
Qed.

Lemma go_disable_without_rc_file_keeps_variable_witness :
  let w := fst (os.Setenv "GOPROXY" "https://goproxy.cn,direct" Sample.fresh) in
  snd (Go.Status Sample.go (fst (Go.Disable Sample.go w)))
  = (true, "https://goproxy.cn,direct", None).
Proof.
  intros w.
  destruct (go_disable_without_rc_file_keeps_variable Sample.go w Sample.homeDir)
    as [_ H].
  - reflexivity.
  - repeat split; vm_compute; reflexivity.
  - vm_compute. reflexivity.
  - etransitivity; [exact H|]. vm_compute. reflexivity.
Defined.

(** X8.  When the rc file can be written, [Enable] of the Go mutator
    returns no error and writes the rc file of the shell.  For a value
    without a NUL byte it sets [GOPROXY] to its value, so that [Status]
    reports that value - unless the value is empty, which [Status] takes for
    no proxy.  For a value with a NUL byte [os.Setenv] fails (except on
    Plan 9) and [Enable] drops the error: it still returns no error, the
    environment stays as it was, and [Status] reports what it reported
    before. *)
Theorem go_status_after_enable
    (g : Go.GoMirror) (w : World) (h : path) :
  home w = Some h ->
  writable w (Go.rcFile h w) ->
  snd (Go.Enable g w) = None
  /\ files (fst (Go.Enable g w)) !! Go.rcFile h w
     = Some (Go.enable_content g (default "" (files w !! Go.rcFile h w)))
  /\ (has_byte "000" (Go.proxyURL g) = false ->
      env (fst (Go.Enable g w)) !! "GOPROXY" = Some (Go.proxyURL g)
      /\ snd (Go.Status g (fst (Go.Enable g w)))
         = if String.eqb (Go.proxyURL g) ""
           then (false, "default proxy", None)
           else (true, Go.proxyURL g, None))
  /\ (has_byte "000" (Go.proxyURL g) = true -> goos w <> "plan9" ->
      env (fst (Go.Enable g w)) = env w
      /\ snd (Go.Status g (fst (Go.Enable g w))) = snd (Go.Status g w)).
Proof.
  intros Hh Hw. rewrite (go_Enable_run g w h Hh Hw). cbn [fst snd].
  split; [reflexivity|]. split.
  { destruct (Setenv_frame "GOPROXY" (Go.proxyURL g)
                (with_file (Go.rcFile h w)
                   (Go.enable_content g (default "" (files w !! Go.rcFile h w)))
                   w)) as (_ & _ & _ & -> & _).
    apply lookup_insert_eq. }
  rewrite Setenv_GOPROXY. cbn [with_file goos home env dirs files]. split.
  - intros ->. rewrite andb_false_r. cbn [fst env].
    assert (He : <["GOPROXY" := Go.proxyURL g]> (env w) !! "GOPROXY"
                 = Some (Go.proxyURL g)) by apply lookup_insert_eq.
    split; [exact He|]. unfold Go.Status, os.Getenv. cbn [env]. rewrite He.
    cbn [default from_option id].
    destruct (String.eqb (Go.proxyURL g) ""); reflexivity.
  - intros -> Hg. apply String.eqb_neq in Hg. rewrite Hg. cbn [negb andb fst env].
    split; [reflexivity|].
    unfold Go.Status, os.Getenv. cbn [with_file env].
    destruct (negb (String.eqb (default "" (env w !! "GOPROXY")) ""));
      reflexivity.
Qed.

Lemma go_status_after_enable_witness :
  snd (Go.Status Sample.go (fst (Go.Enable Sample.go Sample.fresh)))
  = (true, "https://goproxy.cn,direct", None)
  /\ snd (Go.Status (Go.NewGoMirror (String "000" "direct"))
            (fst (Go.Enable (Go.NewGoMirror (String "000" "direct")) Sample.fresh)))
     = (false, "default proxy", None).
Proof.
  split.
  - destruct (go_status_after_enable Sample.go Sample.fresh Sample.homeDir)
      as (_ & _ & H & _).
    + reflexivity.
    + repeat split; vm_compute; reflexivity.
    + apply H. vm_compute. reflexivity.
  - destruct (go_status_after_enable (Go.NewGoMirror (String "000" "direct"))
                Sample.fresh Sample.homeDir) as (_ & _ & _ & H).
    + reflexivity.
    + repeat split; vm_compute; reflexivity.
    + destruct H as [_ H]; [reflexivity | discriminate|].
      etransitivity; [exact H|]. vm_compute. reflexivity.
Defined.

(** X9.  For a value of one line, a second [Enable] of the Go mutator
    changes nothing: it returns what the first one returned and leaves the
    world the first one left, whatever the rc file held. *)
Theorem go_enable_twice_is_once
    (g : Go.GoMirror) (w : World) (h : path) :
  home w = Some h ->
  writable w (Go.rcFile h w) ->
  one_line (Go.proxyURL g) ->
  Go.Enable g (fst (Go.Enable g w)) = Go.Enable g w.
Proof.
  intros Hh Hw Hu. rewrite (go_Enable_run g w h Hh Hw). cbn [fst].
  set (rc := Go.rcFile h w) in *.
  set (c := Go.enable_content g (default "" (files w !! rc))).
  set (w1 := fst (os.Setenv "GOPROXY" (Go.proxyURL g) (with_file rc c w))).
  destruct (Setenv_frame "GOPROXY" (Go.proxyURL g) (with_file rc c w))
    as (Hg1 & Hh1 & Hd1 & Hf1 & He1).
  fold w1 in Hg1, Hh1, Hd1, Hf1, He1.
  assert (Hrc : Go.rcFile h w1 = rc).
  { apply go_rcFile_env. apply He1. discriminate. }
  assert (Hw1 : writable w1 rc).
  { destruct (writable_with_file w rc c Hw) as (Ha & Hb & Hc).
    unfold writable, os.is_dir, os.under_file, os.is_file in *.
    rewrite Hd1, Hf1. repeat split; assumption. }
  rewrite (go_Enable_run g w1 h); [|rewrite Hh1; exact Hh|rewrite Hrc; exact Hw1].
  rewrite Hrc, Hf1.
  replace (files (with_file rc c w) !! rc) with (Some c)
    by (symmetry; apply lookup_insert_eq).
  cbn [default from_option id]. unfold c at 1.
  rewrite (go_enable_idempotent g _ Hu). fold c.
  unfold w1. clear w1 Hg1 Hh1 Hd1 Hf1 He1 Hrc Hw1.
  rewrite (Setenv_GOPROXY _ (with_file rc c w)). cbn [with_file goos].
  destruct (negb (String.eqb (goos w) "plan9") && has_byte "000" (Go.proxyURL g))
    eqn:E; cbn [fst]; rewrite Setenv_GOPROXY; unfold with_file;
    cbn [goos home env dirs files]; rewrite E; cbn [fst];
    rewrite !insert_insert_eq; reflexivity.
Qed.

Lemma go_enable_twice_is_once_witness :
  let w := with_file Sample.bashrc
             ("alias ll=ls" +:+ NL +:+ "export GOPROXY=https://my.proxy" +:+ NL)
             Sample.fresh in
  Go.Enable Sample.go (fst (Go.Enable Sample.go w)) = Go.Enable Sample.go w.
Proof.
  intros w. apply (go_enable_twice_is_once Sample.go w Sample.homeDir).
  - reflexivity.
  - repeat split; vm_compute; reflexivity.
  - vm_compute. reflexivity.
Defined.

(** ** pip: [Disable], [Status], and how the operations compose *)

Section PipFurther.

Lemma TrimRightSpace_keep (q r : string) :
  plain_last q = true -> TrimRightSpace (q +:+ r) = q +:+ TrimRightSpace r.
Proof.
  unfold plain_last, TrimRightSpace. intros Hl. rewrite rev_app_distr.
  destruct (String.rev q) as [|d z] eqn:Er; [discriminate|].
  cbn [plain_first] in Hl.
  rewrite (trimFront_rev_app d z Hl _ _ (le_n _)).
  rewrite rev_app_distr, <- Er, rev_involutive. reflexivity.
Qed.

Lemma plain_last_app (a u : string) :
  plain_last u = true -> plain_last (a +:+ u) = true.
Proof.
  unfold plain_last. rewrite rev_app_distr.
  destruct (String.rev u) as [|d z]; [discriminate|]. intros H. exact H.
Qed.

(** A value without white space around it is what [TrimSpace] makes of it,
    also after a blank. *)
Lemma TrimSpace_trimmed_value (u : string) :
  trimmed_value u -> TrimSpace u = u /\ TrimSpace (" " +:+ u) = u.
Proof.
  intros [Hf Hl].
  assert (H : TrimSpace u = u).
  { unfold TrimSpace. destruct u as [|c u]; [discriminate|].
    rewrite (TrimLeftSpace_plain c u Hf). apply TrimRightSpace_plain_last, Hl. }
  split; [exact H|]. exact H.
Qed.

Lemma is_dir_dirs (w w' : World) (d : path) :
  dirs w' = dirs w -> os.is_dir w' d = os.is_dir w d.
Proof. intros E. unfold os.is_dir. rewrite E. reflexivity. Qed.

Lemma getPipConfigPath_dir (w : World) (h : path) :
  home w = Some h -> os.is_dir w (pip_dir h) = true ->
  Pip.getPipConfigPath w = (w, Ok (pip_conf h)).
Proof.
  intros Hh Hd. rewrite (getPipConfigPath_run w h Hh);
    rewrite (MkdirAll_dir w _ Hd); reflexivity.
Qed.

Lemma pip_disable_lines_filter (lines : list string) :
  Pip.disable_lines lines = List.filter pip_foreign lines.
Proof.
  unfold Pip.disable_lines, range.
  enough (H : forall acc, fold_left Pip.disable_body lines acc
                          = acc ++ List.filter pip_foreign lines)
    by apply (H []).
  induction lines as [|l lines IH]; intros acc; cbn [fold_left List.filter].
  - rewrite app_nil_r. reflexivity.
  - rewrite IH. unfold Pip.disable_body, pip_foreign at 2.
    fold (PipSpec.is_index l). fold (is_blank l).
    destruct (negb (PipSpec.is_index l) && negb (is_blank l));
      [rewrite <- app_assoc|]; reflexivity.
Qed.

(** [Status] of the pip mutator reads the first line that starts with
    [index-url] and has an [=]. *)
Lemma pip_status_lines_find (lines : list string) :
  Pip.status_lines lines
  = match List.find pip_is_setting lines with
    | Some l => (true, pip_setting_value l)
    | None => (false, "default index")
    end.
Proof.
  induction lines as [|l lines IH]; [reflexivity|].
  cbn [Pip.status_lines List.find]. unfold pip_is_setting at 1, pip_setting_value.
  fold (PipSpec.is_index l). destruct (PipSpec.is_index l); cbn [andb]; [|exact IH].
  unfold SplitN2. destruct (has_byte "=" (TrimSpace l)) eqn:Eb.
  - destruct (cut_some _ _ Eb) as (a & b & ->). reflexivity.
  - rewrite (cut_none _ _ Eb). exact IH.
Qed.

Lemma pip_Disable_run (p : Pip.PipMirror) (w : World) (h : path) (data : string) :
  home w = Some h -> os.is_dir w (pip_dir h) = true ->
  files w !! pip_conf h = Some data ->
  Pip.Disable p w
  = (kept_file (pip_conf h) (List.filter pip_foreign (Split data LF)) w, None).
Proof.
  intros Hh Hd Hf. unfold Pip.Disable. rewrite (getPipConfigPath_dir w h Hh Hd).
  rewrite (ReadFile_file _ _ data Hf), pip_disable_lines_filter.
  apply (write_kept w _ data _ _ Hf).
Qed.

Lemma pip_Disable_absent (p : Pip.PipMirror) (w : World) (h : path) :
  home w = Some h -> os.is_dir w (pip_dir h) = true ->
  writable w (pip_conf h) -> files w !! pip_conf h = None ->
  Pip.Disable p w = (w, None).
Proof.
  intros Hh Hd Hw Hf. unfold Pip.Disable. rewrite (getPipConfigPath_dir w h Hh Hd).
  rewrite (ReadFile_writable _ _ Hw), Hf. reflexivity.
Qed.

Lemma pip_Status_run (p : Pip.PipMirror) (w : World) (h : path) :
  home w = Some h -> os.is_dir w (pip_dir h) = true ->
  writable w (pip_conf h) ->
  Pip.Status p w
  = (w, match List.find pip_is_setting
                (Split (default "" (files w !! pip_conf h)) LF) with
        | Some l => (true, pip_setting_value l, None)
        | None => (false, "default index", None)
        end).
Proof.
  intros Hh Hd Hw. unfold Pip.Status. rewrite (getPipConfigPath_dir w h Hh Hd).
  rewrite (ReadFile_writable _ _ Hw).
  destruct (files w !! pip_conf h) as [data|];
    cbn [os.IsNotExist default from_option id].
  - rewrite pip_status_lines_find.
    destruct (List.find pip_is_setting (Split data LF)); reflexivity.
  - reflexivity.
Qed.

Lemma pip_Enable_dir (p : Pip.PipMirror) (w : World) (h : path) :
  home w = Some h -> os.is_dir w (pip_dir h) = true ->
  writable w (pip_conf h) ->
  Pip.Enable p w
  = (with_file (pip_conf h)
       (Pip.enable_content p (default "" (files w !! pip_conf h))) w, None).
Proof.
  intros Hh Hd Hw.
  assert (Hm : os.MkdirAll (pip_dir h) w = (w, None)) by apply (MkdirAll_dir w _ Hd).
  rewrite (pip_Enable_run p w h Hh); rewrite Hm; try reflexivity. exact Hw.
Qed.

End PipFurther.

Section PipScan.

Variable p : Pip.PipMirror.

Lemma pip_ops_after_mkdir (w : World) (h : path) :
  home w = Some h -> snd (os.MkdirAll (pip_dir h) w) = None ->
  let w1 := fst (os.MkdirAll (pip_dir h) w) in
  home w1 = Some h /\ os.is_dir w1 (pip_dir h) = true
  /\ files w1 = files w
  /\ Pip.Enable p w = Pip.Enable p w1
  /\ Pip.Disable p w = Pip.Disable p w1
  /\ Pip.Status p w = Pip.Status p w1.
Proof.
  intros Hh Hm w1.
  assert (Hh1 : home w1 = Some h) by (unfold w1; rewrite MkdirAll_home; exact Hh).
  assert (Hd1 : os.is_dir w1 (pip_dir h) = true) by apply (MkdirAll_ok_is_dir _ _ Hm).
  split; [exact Hh1|]. split; [exact Hd1|]. split; [apply MkdirAll_files|].
  unfold Pip.Enable, Pip.Disable, Pip.Status.
  rewrite (getPipConfigPath_run w h Hh Hm), (getPipConfigPath_dir w1 h Hh1 Hd1).
  repeat split.
Qed.

(** What the scan writes besides [index-url] lines is what it read besides
    [index-url] lines and blank lines. *)
Lemma pip_scan_foreign (lines : list string) (st : Pip.scan) :
  List.filter pip_foreign (Pip.newLines (range lines (Pip.enable_body p) st))
  = List.filter pip_foreign (Pip.newLines st) ++ List.filter pip_foreign lines.
Proof.
  pose proof (index_line_is_index p) as Hi.
  assert (Hf : pip_foreign (Pip.index_line p) = false).
  { unfold pip_foreign. rewrite Hi. reflexivity. }
  unfold range. revert st.
  induction lines as [|l lines IH]; intros st; cbn [fold_left].
  - cbn [List.filter]. rewrite app_nil_r. reflexivity.
  - rewrite IH, pip_body_eq. cbn [List.filter].
    assert (Hg : PipSpec.is_global l = true -> pip_foreign l = true).
    { intros Hg. unfold pip_foreign.
      rewrite (is_header_not_blank l (is_global_header l Hg)).
      destruct (PipSpec.is_index l) eqn:E; [|reflexivity].
      apply is_index_not_global in E. congruence. }
    assert (Hh : is_header l = true -> pip_foreign l = true).
    { intros Hh. unfold pip_foreign. rewrite (is_header_not_blank l Hh).
      destruct (PipSpec.is_index l) eqn:E; [|reflexivity].
      apply is_index_not_header in E. congruence. }
    destruct (PipSpec.is_global l) eqn:Eg.
    { cbn [Pip.newLines]. rewrite List.filter_app, (Hg eq_refl), <- app_assoc.
      cbn [List.filter]. rewrite (Hg eq_refl). reflexivity. }
    destruct (is_header l) eqn:Eh.
    { rewrite (Hh eq_refl).
      destruct (Pip.inGlobalSection st && negb (Pip.hasIndexURL st));
        cbn [Pip.newLines]; rewrite !List.filter_app, <- ?app_assoc;
        cbn [List.filter]; rewrite ?Hf, (Hh eq_refl); reflexivity. }
    destruct (Pip.inGlobalSection st && PipSpec.is_index l) eqn:Ei.
    { apply andb_true_iff in Ei as [_ Ei]. cbn [Pip.newLines].
      rewrite List.filter_app. cbn [List.filter]. rewrite Hf, app_nil_r.
      unfold pip_foreign. rewrite Ei. reflexivity. }
    destruct (is_blank l) eqn:Eb; cbn [negb Pip.newLines].
    + unfold pip_foreign. rewrite Eb, andb_false_r. reflexivity.
    + rewrite List.filter_app, <- app_assoc. cbn [List.filter].
      destruct (pip_foreign l); reflexivity.
Qed.

Lemma pip_scan_has_global (lines : list string) (st : Pip.scan) :
  Pip.hasGlobalSection (range lines (Pip.enable_body p) st)
  = Pip.hasGlobalSection st || existsb PipSpec.is_global lines.
Proof.
  unfold range. revert st.
  induction lines as [|l lines IH]; intros st; cbn [fold_left existsb].
  - rewrite orb_false_r. reflexivity.
  - rewrite IH, pip_body_eq.
    destruct (PipSpec.is_global l); cbn [Pip.hasGlobalSection orb].
    + rewrite orb_true_r. reflexivity.
    + repeat match goal with
             | |- context [if ?c then _ else _] => destruct c
             end; reflexivity.
Qed.

(** When an [index-url] line was written, it is among the lines written. *)
Lemma pip_scan_written (lines : list string) (st : Pip.scan) :
  (Pip.hasIndexURL st = true ->
   existsb PipSpec.is_index (Pip.newLines st) = true) ->
  Pip.hasIndexURL (range lines (Pip.enable_body p) st) = true ->
  existsb PipSpec.is_index (Pip.newLines (range lines (Pip.enable_body p) st))
  = true.
Proof.
  pose proof (index_line_is_index p) as Hi.
  unfold range. revert st.
  induction lines as [|l lines IH]; intros st Hst; cbn [fold_left]; [exact Hst|].
  apply IH. rewrite pip_body_eq.
  repeat match goal with
         | |- context [if ?c then _ else _] => destruct c
         end;
    cbn [Pip.newLines Pip.hasIndexURL]; rewrite ?existsb_app; cbn [existsb];
    rewrite ?Hi, ?orb_true_r; try reflexivity;
    intros H; rewrite (Hst H); reflexivity.
Qed.

(** From a file without [index-url] lines, the only such lines written are
    the line of the mirror. *)
Lemma pip_scan_only_mirror (lines : list string) (st : Pip.scan) :
  Forall (fun l => PipSpec.is_index l = false) lines ->
  Forall (fun l => PipSpec.is_index l = true -> l = Pip.index_line p)
    (Pip.newLines st) ->
  Forall (fun l => PipSpec.is_index l = true -> l = Pip.index_line p)
    (Pip.newLines (range lines (Pip.enable_body p) st)).
Proof.
  intros Hall. unfold range. revert st.
  induction Hall as [|l lines Hl _ IH]; intros st Hst; cbn [fold_left];
    [exact Hst|].
  apply IH. rewrite pip_body_eq.
  repeat match goal with
         | |- context [if ?c then _ else _] => destruct c
         end;
    cbn [Pip.newLines]; try exact Hst;
    repeat (apply Forall_app; split); try exact Hst;
    repeat constructor; intros; congruence.
Qed.

End PipScan.

(** A pip.conf whose first [index-url] is in a section that is not
    [[global]]. *)
Lemma pip_is_setting_index_line (p : Pip.PipMirror) :
  trimmed_value (Pip.indexURL p) ->
  pip_is_setting (Pip.index_line p) = true
  /\ pip_setting_value (Pip.index_line p) = Pip.indexURL p.
Proof.
  intros Ht. destruct (TrimSpace_trimmed_value _ Ht) as [_ H2].
  destruct Ht as [Hf Hl].
  assert (E : TrimSpace (Pip.index_line p) = "index-url = " +:+ Pip.indexURL p).
  { unfold Pip.index_line.
    change ("index-url = " +:+ Pip.indexURL p)
      with ("index-url =" +:+ (" " +:+ Pip.indexURL p)).
    rewrite TrimSpace_keep by reflexivity.
    rewrite TrimRightSpace_plain_last; [reflexivity|].
    apply plain_last_app. exact Hl. }
  unfold pip_is_setting, pip_setting_value.
  rewrite (index_line_is_index p), E. split; [reflexivity|]. exact H2.
Qed.

(** X10.  [Disable] of the pip mutator on an existing [pip.conf] keeps
    exactly the lines that are neither blank nor start with [index-url], in
    their order, each closed by a line feed, and removes the file when it
    keeps none: an [index-url] line goes in whatever section it stands, and
    a [[global]] header stays. *)
Theorem pip_disable_keeps_other_lines
    (p : Pip.PipMirror) (w : World) (h : path) (data : string) :
  home w = Some h ->
  snd (os.MkdirAll (pip_dir h) w) = None ->
  files w !! pip_conf h = Some data ->
  let kept := List.filter pip_foreign (Split data LF) in
  snd (Pip.Disable p w) = None
  /\ files (fst (Pip.Disable p w)) !! pip_conf h
     = match kept with
       | [] => None
       | _ :: _ => Some (Join kept NL +:+ NL)
       end.
Proof.
  intros Hh Hm Hf kept.
  destruct (pip_ops_after_mkdir p w h Hh Hm) as (Hh1 & Hd1 & Hf1 & _ & -> & _).
  rewrite (pip_Disable_run p _ h data Hh1 Hd1) by (rewrite Hf1; exact Hf).
  cbn [fst snd]. split; [reflexivity | apply kept_file_lookup].
Qed.

Lemma pip_disable_keeps_other_lines_witness :
  let w := with_file Sample.pip_conf
             ("[global]" +:+ NL +:+ "index-url = https://a" +:+ NL
              +:+ "timeout = 5" +:+ NL +:+ NL +:+ "[install]" +:+ NL
              +:+ "index-url = https://b" +:+ NL)
             (with_dir (Sample.homeDir ++ [".config"; "pip"])
                (with_dir (Sample.homeDir ++ [".config"]) Sample.fresh)) in
  files (fst (Pip.Disable Sample.pip w)) !! Sample.pip_conf
  = Some ("[global]" +:+ NL +:+ "timeout = 5" +:+ NL +:+ "[install]" +:+ NL).
Proof.
  intros w.
  destruct (pip_disable_keeps_other_lines Sample.pip w Sample.homeDir
              ("[global]" +:+ NL +:+ "index-url = https://a" +:+ NL
               +:+ "timeout = 5" +:+ NL +:+ NL +:+ "[install]" +:+ NL
               +:+ "index-url = https://b" +:+ NL)) as [_ H].
  - reflexivity.
  - vm_compute. reflexivity.
  - vm_compute. reflexivity.
  - etransitivity; [exact H|]. vm_compute. reflexivity.
Defined.

(** X11.  [Status] of the pip mutator reports the first line of the whole
    file that starts with [index-url] and has an [=], with what follows the
    first [=], trimmed - in whatever section the line stands - and the
    default index when there is no such line or no file. *)
Theorem pip_status_reads_first_index_url
    (p : Pip.PipMirror) (w : World) (h : path) :
  home w = Some h ->
  snd (os.MkdirAll (pip_dir h) w) = None ->
  writable (fst (os.MkdirAll (pip_dir h) w)) (pip_conf h) ->
  snd (Pip.Status p w)
  = match List.find pip_is_setting
            (Split (default "" (files w !! pip_conf h)) LF) with
    | Some l => (true, pip_setting_value l, None)
    | None => (false, "default index", None)
    end.
Proof.
  intros Hh Hm Hw.
  destruct (pip_ops_after_mkdir p w h Hh Hm) as (Hh1 & Hd1 & Hf1 & _ & _ & ->).
  rewrite (pip_Status_run p _ h Hh1 Hd1 Hw), Hf1. reflexivity.
Qed.

Lemma pip_status_reads_first_index_url_witness :
  let w := with_file Sample.pip_conf
             ("[install]" +:+ NL +:+ "index-url" +:+ NL
              +:+ "index-url = https://b " +:+ NL +:+ "[global]" +:+ NL
              +:+ "index-url = https://a" +:+ NL)
             (with_dir (Sample.homeDir ++ [".config"; "pip"])
                (with_dir (Sample.homeDir ++ [".config"]) Sample.fresh)) in
  snd (Pip.Status Sample.pip w) = (true, "https://b", None).
Proof.
  intros w. etransitivity.
  - apply (pip_status_reads_first_index_url Sample.pip w Sample.homeDir).
    + reflexivity.
    + vm_compute. reflexivity.
    + repeat split; vm_compute; reflexivity.
  - vm_compute. reflexivity.
Defined.

(** X12.  After [Disable] of the pip mutator, [Status] reports the default
    index, whatever the file held and whether or not there was one. *)
Theorem pip_status_after_disable
    (p : Pip.PipMirror) (w : World) (h : path) :
  home w = Some h ->
  snd (os.MkdirAll (pip_dir h) w) = None ->
  writable (fst (os.MkdirAll (pip_dir h) w)) (pip_conf h) ->
  snd (Pip.Disable p w) = None
  /\ snd (Pip.Status p (fst (Pip.Disable p w))) = (false, "default index", None).
Proof.
  intros Hh Hm Hw.
  destruct (pip_ops_after_mkdir p w h Hh Hm) as (Hh1 & Hd1 & Hf1 & _ & -> & _).
  set (w1 := fst (os.MkdirAll (pip_dir h) w)) in *.
  destruct (files w1 !! pip_conf h) as [data|] eqn:Hf.
  - rewrite (pip_Disable_run p w1 h data Hh1 Hd1 Hf). cbn [fst snd].
    split; [reflexivity|].
    rewrite (pip_Status_run p _ h).
    + cbn [snd]. rewrite kept_file_lookup.
      destruct (List.filter pip_foreign (Split data LF)) as [|l kept] eqn:Ek;
        cbn [default from_option id]; [reflexivity|].
      rewrite Split_Join.
      * rewrite find_none; [reflexivity|]. rewrite <- Ek.
        apply Forall_app. split; [|repeat constructor].
        clear. induction (Split data LF) as [|x xs IH]; cbn [List.filter];
          [constructor|].
        destruct (pip_foreign x) eqn:Ex; [|exact IH]. constructor; [|exact IH].
        unfold pip_foreign in Ex. apply andb_true_iff in Ex as [Ex _].
        apply negb_true_iff in Ex. unfold pip_is_setting. rewrite Ex. reflexivity.
      * rewrite <- Ek. apply filter_one_line.
      * discriminate.
    + destruct (List.filter pip_foreign (Split data LF)); exact Hh1.
    + rewrite <- Hd1. apply is_dir_dirs.
      destruct (List.filter pip_foreign (Split data LF)); reflexivity.
    + apply writable_kept_file. exact Hw.
  - rewrite (pip_Disable_absent p w1 h Hh1 Hd1 Hw Hf). cbn [fst snd].
    split; [reflexivity|].
    rewrite (pip_Status_run p w1 h Hh1 Hd1 Hw), Hf. reflexivity.
Qed.

Lemma pip_status_after_disable_witness :
  let w := fst (Pip.Enable Sample.pip Sample.fresh) in
  snd (Pip.Status Sample.pip (fst (Pip.Disable Sample.pip w)))
  = (false, "default index", None).
Proof.
  intros w.
  destruct (pip_status_after_disable Sample.pip w Sample.homeDir) as [_ H].
  - reflexivity.
  - vm_compute. reflexivity.
  - repeat split; vm_compute; reflexivity.
  - exact H.
Defined.

(** X13.  After [Enable] of the pip mutator with a value of one line that
    begins and ends with an ASCII character that is not white space, on a
    file that had no [index-url] line (or on no file), [Status] reports the
    mirror as enabled with that value. *)
Theorem pip_status_after_enable
    (p : Pip.PipMirror) (w : World) (h : path) :
  home w = Some h ->
  snd (os.MkdirAll (pip_dir h) w) = None ->
  writable (fst (os.MkdirAll (pip_dir h) w)) (pip_conf h) ->
  one_line (Pip.indexURL p) ->
  trimmed_value (Pip.indexURL p) ->
  Forall (fun l => PipSpec.is_index l = false)
    (Split (default "" (files w !! pip_conf h)) LF) ->
  snd (Pip.Status p (fst (Pip.Enable p w))) = (true, Pip.indexURL p, None).
Proof.
  intros Hh Hm Hw Hu Ht Hno.
  destruct (pip_is_setting_index_line p Ht) as [Hset Hval].
  pose proof (index_line_is_index p) as Hi.
  destruct (pip_ops_after_mkdir p w h Hh Hm) as (Hh1 & Hd1 & Hf1 & _ & _ & _).
  rewrite (pip_Enable_run p w h Hh Hm Hw). cbn [fst].
  set (w1 := fst (os.MkdirAll (pip_dir h) w)) in *.
  set (lines := Split (default "" (files w !! pip_conf h)) LF) in *.
  rewrite (pip_Status_run p (with_file (pip_conf h) _ w1) h Hh1 Hd1
             (writable_with_file _ _ _ Hw)).
  cbn [snd].
  replace (files (with_file (pip_conf h)
                    (Pip.enable_content p (default "" (files w !! pip_conf h))) w1)
           !! pip_conf h)
    with (Some (Pip.enable_content p (default "" (files w !! pip_conf h))))
    by (symmetry; apply lookup_insert_eq).
  cbn [default from_option id].
  set (st := range lines (Pip.enable_body p) pip_init).
  assert (Hol : Forall (fun l => has_byte LF l = false) (Pip.newLines st)).
  { apply pip_range_one_line; [exact Hu | apply Split_one_line | constructor]. }
  assert (Hidx : has_byte LF (Pip.index_line p) = false).
  { unfold Pip.index_line. rewrite has_byte_app, Hu. reflexivity. }
  assert (Hout : Pip.enable_lines p lines
                 = if negb (Pip.hasGlobalSection st)
                   then Pip.newLines st ++ ["[global]"] ++ [Pip.index_line p]
                   else if negb (Pip.hasIndexURL st)
                        then Pip.newLines st ++ [Pip.index_line p]
                        else Pip.newLines st) by reflexivity.
  assert (Honly : Forall (fun l => PipSpec.is_index l = true -> l = Pip.index_line p)
                    (Pip.enable_lines p lines)).
  { pose proof (pip_scan_only_mirror p lines pip_init Hno (List.Forall_nil _)) as H.
    fold st in H. rewrite Hout.
    destruct (negb (Pip.hasGlobalSection st)); [|destruct (negb (Pip.hasIndexURL st))];
      repeat (apply Forall_app; split); try exact H; repeat constructor;
        intros; try reflexivity; discriminate. }
  assert (Hex : existsb PipSpec.is_index (Pip.enable_lines p lines) = true).
  { rewrite Hout.
    destruct (Pip.hasGlobalSection st); cbn [negb].
    - destruct (Pip.hasIndexURL st) eqn:Eh; cbn [negb].
      + apply (pip_scan_written p lines pip_init); [discriminate | exact Eh].
      + apply List.existsb_exists. exists (Pip.index_line p).
        split; [|exact Hi]. apply in_or_app. right. left. reflexivity.
    - apply List.existsb_exists. exists (Pip.index_line p).
      split; [|exact Hi]. apply in_or_app. right. right. left. reflexivity. }
  unfold Pip.enable_content. fold lines. rewrite Split_Join.
  - rewrite (find_first pip_is_setting (Pip.index_line p)).
    + rewrite Hval. reflexivity.
    + eapply List.Forall_impl; [|exact Honly]. intros l Hl Hs. apply Hl.
      unfold pip_is_setting in Hs. apply andb_true_iff in Hs as [Hs _]. exact Hs.
    + clear -Hex Honly Hset. induction Honly as [|l ls Hl _ IH]; [discriminate|].
      cbn [existsb] in *. destruct (PipSpec.is_index l) eqn:El.
      * rewrite (Hl eq_refl), Hset. reflexivity.
      * cbn [orb] in Hex. rewrite (IH Hex). apply orb_true_r.
  - rewrite Hout.
    destruct (negb (Pip.hasGlobalSection st)); [|destruct (negb (Pip.hasIndexURL st))];
      repeat (apply Forall_app; split); try exact Hol; repeat constructor;
        exact Hidx.
  - intros E. rewrite E in Hex. discriminate.
Qed.

Lemma pip_status_after_enable_witness :
  let w := with_file Sample.pip_conf
             ("[global]" +:+ NL +:+ "timeout = 5" +:+ NL +:+ "[install]" +:+ NL)
             (with_dir (Sample.homeDir ++ [".config"; "pip"])
                (with_dir (Sample.homeDir ++ [".config"]) Sample.fresh)) in
  snd (Pip.Status Sample.pip (fst (Pip.Enable Sample.pip w)))
  = (true, "https://mirrors.aliyun.com/pypi/simple/", None).
Proof.
  intros w. apply (pip_status_after_enable Sample.pip w Sample.homeDir).
  - reflexivity.
  - vm_compute. reflexivity.
  - repeat split; vm_compute; reflexivity.
  - vm_compute. reflexivity.
  - split; vm_compute; reflexivity.
  - repeat constructor.
Defined.

(** X14.  For a value of one line, a second [Enable] of the pip mutator
    changes nothing: it returns what the first one returned and leaves the
    world the first one left, whatever [pip.conf] held. *)
Theorem pip_enable_twice_is_once
    (p : Pip.PipMirror) (w : World) (h : path) :
  home w = Some h ->
  snd (os.MkdirAll (pip_dir h) w) = None ->
  writable (fst (os.MkdirAll (pip_dir h) w)) (pip_conf h) ->
  one_line (Pip.indexURL p) ->
  Pip.Enable p (fst (Pip.Enable p w)) = Pip.Enable p w.
Proof.
  intros Hh Hm Hw Hu.
  destruct (pip_ops_after_mkdir p w h Hh Hm) as (Hh1 & Hd1 & Hf1 & _ & _ & _).
  rewrite (pip_Enable_run p w h Hh Hm Hw). cbn [fst].
  set (w1 := fst (os.MkdirAll (pip_dir h) w)) in *.
  set (c := Pip.enable_content p (default "" (files w !! pip_conf h))).
  rewrite (pip_Enable_dir p (with_file (pip_conf h) c w1) h Hh1);
    [|exact Hd1 | apply writable_with_file; exact Hw].
  replace (files (with_file (pip_conf h) c w1) !! pip_conf h) with (Some c)
    by (symmetry; apply lookup_insert_eq).
  cbn [default from_option id]. unfold c at 1.
  rewrite (pip_enable_idempotent p _ Hu). fold c.
  rewrite with_file_twice. reflexivity.
Qed.

Lemma pip_enable_twice_is_once_witness :
  let w := with_file Sample.pip_conf
             ("[install]" +:+ NL +:+ "index-url = https://b" +:+ NL
              +:+ "[global]" +:+ NL +:+ "[other]" +:+ NL)
             (with_dir (Sample.homeDir ++ [".config"; "pip"])
                (with_dir (Sample.homeDir ++ [".config"]) Sample.fresh)) in
  Pip.Enable Sample.pip (fst (Pip.Enable Sample.pip w)) = Pip.Enable Sample.pip w.
Proof.
  intros w. apply (pip_enable_twice_is_once Sample.pip w Sample.homeDir).
  - reflexivity.
  - vm_compute. reflexivity.
  - repeat split; vm_compute; reflexivity.
  - vm_compute. reflexivity.
Defined.

(** X15.  [Enable] of the pip mutator keeps every line that is neither
    blank nor starts with [index-url], in its place among the others, and
    adds no such line but a [[global]] header when the file had none. *)
Theorem pip_enable_keeps_other_lines (p : Pip.PipMirror) (lines : list string) :
  List.filter pip_foreign (Pip.enable_lines p lines)
  = List.filter pip_foreign lines
    ++ (if existsb PipSpec.is_global lines then [] else ["[global]"]).
Proof.
  pose proof (index_line_is_index p) as Hi.
  assert (Hf : pip_foreign (Pip.index_line p) = false).
  { unfold pip_foreign. rewrite Hi. reflexivity. }
  unfold Pip.enable_lines.
  pose proof (pip_scan_foreign p lines (Pip.mkScan [] false false false)) as Hs.
  pose proof (pip_scan_has_global p lines (Pip.mkScan [] false false false)) as Hg.
  cbn [Pip.newLines Pip.hasGlobalSection List.filter app orb] in Hs, Hg.
  rewrite Hg.
  destruct (existsb PipSpec.is_global lines); cbn [negb].
  - destruct (negb _); rewrite ?List.filter_app, Hs; cbn [List.filter];
      rewrite ?Hf, ?app_nil_r; reflexivity.
  - rewrite !List.filter_app, Hs. cbn [List.filter]. rewrite Hf. reflexivity.
Qed.

(** ** cargo: what [Disable] drops, what [Enable] keeps, and [Status] after them *)

Section CargoFurther.

Import CargoSpec.

Lemma getCargoConfigPath_dir (w : World) (h : path) :
  home w = Some h -> os.is_dir w (cargo_dir h) = true ->
  Cargo.getCargoConfigPath w = (w, Ok (cargo_config h)).
Proof.
  intros Hh Hd. rewrite (getCargoConfigPath_run w h Hh);
    rewrite (MkdirAll_dir w _ Hd); reflexivity.
Qed.

Lemma cargo_ops_after_mkdir (c : Cargo.CargoMirror) (w : World) (h : path) :
  home w = Some h -> snd (os.MkdirAll (cargo_dir h) w) = None ->
  let w1 := fst (os.MkdirAll (cargo_dir h) w) in
  home w1 = Some h /\ os.is_dir w1 (cargo_dir h) = true
  /\ files w1 = files w
  /\ Cargo.Enable c w = Cargo.Enable c w1
  /\ Cargo.Disable c w = Cargo.Disable c w1
  /\ Cargo.Status c w = Cargo.Status c w1.
Proof.
  intros Hh Hm w1.
  assert (Hh1 : home w1 = Some h) by (unfold w1; rewrite MkdirAll_home; exact Hh).
  assert (Hd1 : os.is_dir w1 (cargo_dir h) = true) by apply (MkdirAll_ok_is_dir _ _ Hm).
  split; [exact Hh1|]. split; [exact Hd1|]. split; [apply MkdirAll_files|].
  unfold Cargo.Enable, Cargo.Disable, Cargo.Status.
  rewrite (getCargoConfigPath_run w h Hh Hm), (getCargoConfigPath_dir w1 h Hh1 Hd1).
  repeat split.
Qed.

Lemma cargo_Enable_dir (c : Cargo.CargoMirror) (w : World) (h : path) :
  home w = Some h -> os.is_dir w (cargo_dir h) = true ->
  writable w (cargo_config h) ->
  Cargo.Enable c w
  = (with_file (cargo_config h)
       (Cargo.enable_content c (default "" (files w !! cargo_config h))) w, None).
Proof.
  intros Hh Hd Hw. unfold Cargo.Enable. rewrite (getCargoConfigPath_dir w h Hh Hd).
  fold (content_of w (cargo_config h)).
  rewrite (content_of_writable _ _ Hw), (WriteFile_ok _ _ _ Hw).
  reflexivity.
Qed.

Lemma cargo_Disable_run (c : Cargo.CargoMirror) (w : World) (h : path)
    (data : string) :
  home w = Some h -> os.is_dir w (cargo_dir h) = true ->
  files w !! cargo_config h = Some data ->
  Cargo.Disable c w
  = (kept_file (cargo_config h) (Cargo.disable_lines (Split data LF)) w, None).
Proof.
  intros Hh Hd Hf. unfold Cargo.Disable. rewrite (getCargoConfigPath_dir w h Hh Hd).
  rewrite (ReadFile_file _ _ data Hf).
  apply (write_kept w _ data _ _ Hf).
Qed.

Lemma cargo_Disable_none (c : Cargo.CargoMirror) (w : World) (h : path) :
  home w = Some h -> os.is_dir w (cargo_dir h) = true ->
  writable w (cargo_config h) -> files w !! cargo_config h = None ->
  Cargo.Disable c w = (w, None).
Proof.
  intros Hh Hd Hw Hf. unfold Cargo.Disable. rewrite (getCargoConfigPath_dir w h Hh Hd).
  rewrite (ReadFile_writable _ _ Hw), Hf. reflexivity.
Qed.

Lemma cargo_Status_run (c : Cargo.CargoMirror) (w : World) (h : path) :
  home w = Some h -> os.is_dir w (cargo_dir h) = true ->
  writable w (cargo_config h) ->
  Cargo.Status c w
  = (w, match files w !! cargo_config h with
        | Some data =>
            (fst (Cargo.status_content data), snd (Cargo.status_content data), None)
        | None => (false, "default registry", None)
        end).
Proof.
  intros Hh Hd Hw. unfold Cargo.Status. rewrite (getCargoConfigPath_dir w h Hh Hd).
  rewrite (ReadFile_writable _ _ Hw).
  destruct (files w !! cargo_config h) as [data|]; cbn [os.IsNotExist].
  - destruct (Cargo.status_content data); reflexivity.
  - reflexivity.
Qed.

(** *** The loop of [Disable] *)

Lemma cargo_disable_body_eq (acc : list string) (skip : bool) (l : string) :
  Cargo.disable_body (acc, skip) l
  = if cargo_owned_header l then (acc, true)
    else if negb (if is_header l then false else skip) && negb (is_blank l)
         then (acc ++ [l], if is_header l then false else skip)
         else (acc, if is_header l then false else skip).
Proof. reflexivity. Qed.

Lemma cargo_disable_fold (lines : list string) :
  forall (acc : list string) (skip : bool),
  exists kept,
    fst (fold_left Cargo.disable_body lines (acc, skip)) = acc ++ kept
    /\ Forall (fun l => In l lines /\ cargo_owned_header l = false
                        /\ is_blank l = false) kept
    /\ List.filter is_header kept = List.filter cargo_other_header lines
    /\ (skip = false -> Forall (fun l => cargo_owned_header l = false) lines ->
        kept = List.filter (fun l => negb (is_blank l)) lines).
Proof.
  induction lines as [|l lines IH]; intros acc skip; cbn [fold_left].
  - exists []. rewrite app_nil_r. repeat split; try constructor; reflexivity.
  - rewrite cargo_disable_body_eq. cbn [List.filter]. unfold cargo_other_header at 1.
    assert (Hin : forall kept,
               Forall (fun x => In x lines /\ cargo_owned_header x = false
                                /\ is_blank x = false) kept ->
               Forall (fun x => In x (l :: lines) /\ cargo_owned_header x = false
                                /\ is_blank x = false) kept).
    { intros kept. apply List.Forall_impl. intros x (Hx & Ho & Hb).
      repeat split; [right; exact Hx | exact Ho | exact Hb]. }
    destruct (cargo_owned_header l) eqn:Eo.
    + destruct (IH acc true) as (kept & E & Hk & Hh & _).
      exists kept. split; [exact E|]. split; [apply Hin, Hk|].
      rewrite andb_false_r. split; [exact Hh|].
      intros _ Hall. inversion Hall as [|? ? Hl _]; subst. congruence.
    + cbn [negb]. rewrite andb_true_r.
      destruct (is_header l) eqn:Eh.
      * rewrite (is_header_not_blank l Eh). cbn [negb andb].
        destruct (IH (acc ++ [l]) false) as (kept & E & Hk & Hh & Hn).
        exists (l :: kept). rewrite E, <- app_assoc. split; [reflexivity|].
        split.
        { constructor; [|apply Hin, Hk].
          repeat split; [left; reflexivity | exact Eo |
                         apply (is_header_not_blank l Eh)]. }
        split.
        { cbn [List.filter]. rewrite Eh, Hh. reflexivity. }
        intros _ Hall. inversion Hall as [|? ? _ Hrest]; subst.
        rewrite (Hn eq_refl Hrest). reflexivity.
      * destruct skip; cbn [negb andb].
        { destruct (IH acc true) as (kept & E & Hk & Hh & _).
          exists kept. split; [exact E|]. split; [apply Hin, Hk|].
          split; [exact Hh|]. discriminate. }
        destruct (is_blank l) eqn:Eb; cbn [negb].
        { destruct (IH acc false) as (kept & E & Hk & Hh & Hn).
          exists kept. split; [exact E|]. split; [apply Hin, Hk|].
          split; [exact Hh|].
          intros _ Hall. inversion Hall as [|? ? _ Hrest]; subst.
          apply (Hn eq_refl Hrest). }
        destruct (IH (acc ++ [l]) false) as (kept & E & Hk & Hh & Hn).
        exists (l :: kept). rewrite E, <- app_assoc. split; [reflexivity|].
        split.
        { constructor; [|apply Hin, Hk].
          repeat split; [left; reflexivity | exact Eo | exact Eb]. }
        split.
        { cbn [List.filter]. rewrite Eh. exact Hh. }
        intros _ Hall. inversion Hall as [|? ? _ Hrest]; subst.
        rewrite (Hn eq_refl Hrest). reflexivity.
Qed.

Lemma cargo_disable_keeps_lines (lines : list string) :
  Forall (fun l => In l lines /\ cargo_owned_header l = false
                   /\ is_blank l = false) (Cargo.disable_lines lines)
  /\ List.filter is_header (Cargo.disable_lines lines)
     = List.filter cargo_other_header lines.
Proof.
  unfold Cargo.disable_lines, range.
  destruct (cargo_disable_fold lines [] false) as (kept & -> & Hk & Hh & _).
  split; [exact Hk | exact Hh].
Qed.

(** The text of a line is in a file of lines when it is in one of them. *)
Lemma Contains_Join_LF (k : string) (ls : list string) :
  has_byte LF k = false -> k <> "" -> ls <> [] ->
  Contains (Join ls NL +:+ NL) k = existsb (fun l => Contains l k) ls.
Proof.
  intros Hk Hne Hls. unfold NL at 2.
  rewrite (Contains_app_LF k (Join ls NL) "" Hk Hne).
  rewrite (Contains_Join k ls Hk Hne Hls).
  destruct k as [|a k]; [congruence|]. apply orb_false_r.
Qed.

Lemma cargo_disable_lines_nonblank (lines : list string) :
  existsb cargo_owned_header lines = false ->
  Cargo.disable_lines lines = List.filter (fun l => negb (is_blank l)) lines.
Proof.
  intros He. unfold Cargo.disable_lines, range.
  destruct (cargo_disable_fold lines [] false) as (kept & -> & _ & _ & Hn).
  cbn [app]. apply (Hn eq_refl).
  clear -He. induction lines as [|l lines IH]; [constructor|].
  cbn [existsb] in He. apply orb_false_iff in He as [Hl He].
  constructor; [exact Hl | apply IH, He].
Qed.

End CargoFurther.

(** X16.  What [Disable] of the cargo mutator keeps of a config: lines of
    the file, none of them blank and none of them a [[source.crates-io]] or
    [[source.ustc]] header; every other header is kept, in its order; and a
    file with neither of the two headers loses its blank lines only. *)
Theorem cargo_disable_keeps_other_sections (lines : list string) :
  Forall (fun l => In l lines /\ cargo_owned_header l = false
                   /\ is_blank l = false) (Cargo.disable_lines lines)
  /\ List.filter is_header (Cargo.disable_lines lines)
     = List.filter cargo_other_header lines
  /\ (existsb cargo_owned_header lines = false ->
      Cargo.disable_lines lines
      = List.filter (fun l => negb (is_blank l)) lines).
Proof.
  unfold Cargo.disable_lines, range.
  destruct (cargo_disable_fold lines [] false) as (kept & E & Hk & Hh & _).
  rewrite E. cbn [app]. split; [exact Hk|]. split; [exact Hh|].
  intros He. rewrite <- (cargo_disable_lines_nonblank lines He).
  unfold Cargo.disable_lines, range. rewrite E. reflexivity.
Qed.

(** X17.  [Disable] of the cargo mutator on a config that has neither a
    [[source.crates-io]] nor a [[source.ustc]] header still rewrites it: the
    blank lines go, every other line stays, and a file of blank lines only
    is removed. *)
Theorem cargo_disable_without_owned_sections
    (c : Cargo.CargoMirror) (w : World) (h : path) (data : string) :
  home w = Some h ->
  snd (os.MkdirAll (cargo_dir h) w) = None ->
  files w !! cargo_config h = Some data ->
  existsb cargo_owned_header (Split data LF) = false ->
  let kept := List.filter (fun l => negb (is_blank l)) (Split data LF) in
  snd (Cargo.Disable c w) = None
  /\ files (fst (Cargo.Disable c w)) !! cargo_config h
     = match kept with
       | [] => None
       | _ :: _ => Some (Join kept NL +:+ NL)
       end.
Proof.
  intros Hh Hm Hf Hno kept.
  destruct (cargo_ops_after_mkdir c w h Hh Hm) as (Hh1 & Hd1 & Hf1 & _ & -> & _).
  rewrite (cargo_Disable_run c _ h data Hh1 Hd1) by (rewrite Hf1; exact Hf).
  cbn [fst snd]. split; [reflexivity|].
  rewrite kept_file_lookup, (cargo_disable_lines_nonblank _ Hno).
  reflexivity.
Qed.

Lemma cargo_disable_without_owned_sections_witness :
  let w := with_file Sample.cargo_config
             ("[build]" +:+ NL +:+ NL +:+ "jobs = 4" +:+ NL +:+ "  " +:+ NL
              +:+ "[source.mine]" +:+ NL +:+ "registry = 'x'" +:+ NL)
             (with_dir (Sample.homeDir ++ [".cargo"]) Sample.fresh) in
  files (fst (Cargo.Disable Sample.cargo w)) !! Sample.cargo_config
  = Some ("[build]" +:+ NL +:+ "jobs = 4" +:+ NL
          +:+ "[source.mine]" +:+ NL +:+ "registry = 'x'" +:+ NL).
Proof.
  intros w.
  destruct (cargo_disable_without_owned_sections Sample.cargo w Sample.homeDir
              ("[build]" +:+ NL +:+ NL +:+ "jobs = 4" +:+ NL +:+ "  " +:+ NL
               +:+ "[source.mine]" +:+ NL +:+ "registry = 'x'" +:+ NL))
    as [_ H].
  - reflexivity.
  - vm_compute. reflexivity.
  - vm_compute. reflexivity.
  - vm_compute. reflexivity.
  - etransitivity; [exact H|]. vm_compute. reflexivity.
Defined.

(** *** The scan of [Enable] *)

Section CargoScan.

Import CargoSpec.

Variable c : Cargo.CargoMirror.

Lemma cargo_enable_body_eq (content : string) (st : Cargo.scan) (l : string) :
  Cargo.enable_body content st l
  = if is_crates_io l then
      Cargo.mkScan (Cargo.newLines st ++ [l]) true true true
    else if is_source l && negb (is_crates_io l) then
      Cargo.mkScan (Cargo.newLines st ++ [l]) (Cargo.hasSourceSection st)
        (Cargo.hasCratesIOSection st) false
    else if is_header l && negb (is_source l) then
      Cargo.mkScan
        ((if Cargo.inCratesIOSection st && negb (Contains content "replace-with")
          then Cargo.newLines st ++ [Cargo.replace_with]
          else Cargo.newLines st) ++ [l])
        (Cargo.hasSourceSection st) (Cargo.hasCratesIOSection st) false
    else if Cargo.inCratesIOSection st && is_replace_with l then
      Cargo.mkScan (Cargo.newLines st ++ [Cargo.replace_with])
        (Cargo.hasSourceSection st) (Cargo.hasCratesIOSection st)
        (Cargo.inCratesIOSection st)
    else if negb (is_blank l) || Nat.eqb (List.length (Cargo.newLines st)) 0 then
      Cargo.mkScan (Cargo.newLines st ++ [l]) (Cargo.hasSourceSection st)
        (Cargo.hasCratesIOSection st) (Cargo.inCratesIOSection st)
    else st.
Proof. reflexivity. Qed.

(** Every line the scan writes is a line it read or the [replace-with]
    line of the mutator. *)
Lemma cargo_scan_lines (P : string -> Prop) (content : string)
    (lines : list string) (st : Cargo.scan) :
  P Cargo.replace_with -> Forall P lines -> Forall P (Cargo.newLines st) ->
  Forall P (Cargo.newLines (range lines (Cargo.enable_body content) st)).
Proof.
  intros Hr Hall. unfold range. revert st.
  induction Hall as [|l lines Hl _ IH]; intros st Hst; cbn [fold_left];
    [exact Hst|].
  apply IH. rewrite cargo_enable_body_eq.
  repeat match goal with
         | |- context [if ?b then _ else _] => destruct b
         end; cbn [Cargo.newLines];
    repeat (apply Forall_app; split); try exact Hst;
      repeat constructor; assumption.
Qed.

Lemma is_source_header (l : string) : is_source l = true -> is_header l = true.
Proof.
  unfold is_source, is_header, HasPrefix.
  destruct (TrimSpace l) as [|a t]; [discriminate|].
  cbn [String.prefix]. destruct (ascii_dec "[" a) as [<-|]; [|discriminate].
  intros _. destruct t; reflexivity.
Qed.

Lemma header_foreign (l : string) : is_header l = true -> cargo_foreign l = true.
Proof.
  intros Hh. unfold cargo_foreign. rewrite (is_header_not_blank l Hh).
  destruct (is_replace_with l) eqn:E; [|reflexivity].
  destruct (is_replace_with_not_header l E) as (_ & _ & Hn). congruence.
Qed.

(** What the scan writes besides blank and [replace-with] lines is what it
    read besides them. *)
Lemma cargo_scan_foreign (content : string) (lines : list string)
    (st : Cargo.scan) :
  List.filter cargo_foreign
    (Cargo.newLines (range lines (Cargo.enable_body content) st))
  = List.filter cargo_foreign (Cargo.newLines st)
    ++ List.filter cargo_foreign lines.
Proof.
  unfold range. revert st.
  induction lines as [|l lines IH]; intros st; cbn [fold_left].
  - cbn [List.filter]. rewrite app_nil_r. reflexivity.
  - rewrite IH, cargo_enable_body_eq. cbn [List.filter].
    assert (Hrw : cargo_foreign Cargo.replace_with = false) by reflexivity.
    destruct (is_crates_io l) eqn:Ec.
    { destruct (is_crates_io_source l Ec) as [_ Hh].
      rewrite (header_foreign l Hh). cbn [Cargo.newLines].
      rewrite List.filter_app, <- app_assoc. cbn [List.filter].
      rewrite (header_foreign l Hh). reflexivity. }
    cbn [negb]. rewrite andb_true_r.
    destruct (is_source l) eqn:Es.
    { pose proof (is_source_header l Es) as Hh.
      rewrite (header_foreign l Hh). cbn [Cargo.newLines].
      rewrite List.filter_app, <- app_assoc. cbn [List.filter].
      rewrite (header_foreign l Hh). reflexivity. }
    cbn [negb]. rewrite andb_true_r.
    destruct (is_header l) eqn:Eh.
    { rewrite (header_foreign l Eh). cbn [Cargo.newLines].
      rewrite List.filter_app, <- app_assoc. cbn [List.filter].
      rewrite (header_foreign l Eh).
      destruct (Cargo.inCratesIOSection st && negb (Contains content "replace-with"));
        [|reflexivity].
      rewrite List.filter_app. cbn [List.filter]. rewrite Hrw, app_nil_r.
      reflexivity. }
    destruct (Cargo.inCratesIOSection st && is_replace_with l) eqn:Er.
    { apply andb_true_iff in Er as [_ Er].
      assert (Hf : cargo_foreign l = false).
      { unfold cargo_foreign. rewrite Er. apply andb_false_r. }
      rewrite Hf. cbn [Cargo.newLines].
      rewrite List.filter_app. cbn [List.filter]. rewrite Hrw, app_nil_r.
      reflexivity. }
    destruct (negb (is_blank l) || Nat.eqb (List.length (Cargo.newLines st)) 0)
      eqn:Ek.
    { cbn [Cargo.newLines]. rewrite List.filter_app, <- app_assoc.
      cbn [List.filter]. destruct (cargo_foreign l); reflexivity. }
    apply orb_false_iff in Ek as [Ek _]. apply negb_false_iff in Ek.
    assert (Hf : cargo_foreign l = false).
    { unfold cargo_foreign. rewrite Ek. reflexivity. }
    rewrite Hf. reflexivity.
Qed.

(** The line of the mutator, as [Status] reads it. *)
Lemma cargo_registry_line_TrimSpace :
  TrimSpace (Cargo.registry_line c) = Cargo.registry_line c.
Proof.
  unfold Cargo.registry_line.
  change ("registry = " +:+ Cargo.quote +:+ Cargo.registryURL c +:+ Cargo.quote)
    with (("registry = " +:+ Cargo.quote)
          +:+ (Cargo.registryURL c +:+ Cargo.quote)).
  rewrite TrimSpace_keep by reflexivity.
  rewrite TrimRightSpace_plain_last; [reflexivity|].
  apply plain_last_app. reflexivity.
Qed.

Lemma cargo_registry_line_foreign : cargo_foreign (Cargo.registry_line c) = true.
Proof.
  unfold cargo_foreign, is_blank, is_replace_with.
  rewrite cargo_registry_line_TrimSpace. reflexivity.
Qed.

Lemma cargo_registry_line_is_registry : is_registry (Cargo.registry_line c) = true.
Proof.
  unfold is_registry. rewrite cargo_registry_line_TrimSpace. reflexivity.
Qed.

Lemma Trim_quoted (u : string) :
  unquoted u -> Trim (Cargo.quote +:+ u +:+ Cargo.quote) "034" = u.
Proof.
  intros [Hf Hl]. unfold Trim.
  change (Cargo.quote +:+ u +:+ Cargo.quote)
    with (String "034" (u +:+ Cargo.quote)).
  cbn [trimFrontByte Ascii.eqb Bool.eqb].
  assert (E : trimFrontByte (u +:+ Cargo.quote) "034" = u +:+ Cargo.quote
              \/ u = "").
  { destruct u as [|a u]; [right; reflexivity|left].
    rewrite app_String. cbn [trimFrontByte]. cbn [quote_first] in Hf.
    rewrite Hf. reflexivity. }
  destruct E as [E | ->]; [|reflexivity].
  rewrite E, rev_app_distr.
  change (String.rev Cargo.quote) with Cargo.quote.
  change (Cargo.quote +:+ String.rev u) with (String "034" (String.rev u)).
  cbn [trimFrontByte Ascii.eqb Bool.eqb].
  destruct (String.rev u) as [|a r] eqn:Er.
  - rewrite <- (rev_involutive u), Er. reflexivity.
  - cbn [trimFrontByte]. cbn [quote_first] in Hl. rewrite Hl.
    rewrite <- Er. apply rev_involutive.
Qed.

Lemma cargo_registry_line_value :
  unquoted (Cargo.registryURL c) ->
  registry_value (Cargo.registry_line c) = Cargo.registryURL c.
Proof.
  intros Hu. unfold registry_value. rewrite cargo_registry_line_TrimSpace.
  unfold Cargo.registry_line.
  change (cut ("registry = " +:+ Cargo.quote +:+ Cargo.registryURL c
               +:+ Cargo.quote) "=")
    with (Some ("registry ",
                " " +:+ (Cargo.quote +:+ Cargo.registryURL c +:+ Cargo.quote))).
  assert (Ht : trimmed_value (Cargo.quote +:+ Cargo.registryURL c +:+ Cargo.quote)).
  { split; [reflexivity|].
    change (Cargo.quote +:+ Cargo.registryURL c +:+ Cargo.quote)
      with ((Cargo.quote +:+ Cargo.registryURL c) +:+ Cargo.quote)
      || rewrite app_assoc_s.
    apply plain_last_app. reflexivity. }
  destruct (TrimSpace_trimmed_value _ Ht) as [_ ->].
  apply Trim_quoted, Hu.
Qed.

(** Where the text [[source.ustc]] is nowhere in the config, [Enable]
    ends its file with the [[source.ustc]] section. *)
Lemma cargo_enable_lines_shape (content : string) :
  Contains content "[source.ustc]" = false ->
  exists mid,
    Cargo.enable_lines c content
    = (Cargo.newLines (Cargo.enable_scan content) ++ mid)
      ++ [Cargo.registry_line c]
    /\ Forall (fun l => In l [""; "[source.crates-io]"; Cargo.replace_with;
                             "[source.ustc]"]) mid
    /\ In "[source.ustc]" mid.
Proof.
  intros Hc. unfold Cargo.enable_lines, Cargo.enable_append. rewrite Hc.
  cbn [negb].
  destruct (negb (Cargo.hasSourceSection (Cargo.enable_scan content))
            || negb (Cargo.hasCratesIOSection (Cargo.enable_scan content))).
  - destruct (Nat.ltb 0 (List.length (Cargo.newLines (Cargo.enable_scan content)))
              && negb (String.eqb
                         (List.last (Cargo.newLines (Cargo.enable_scan content)) "")
                         "")).
    + exists [""; "[source.crates-io]"; Cargo.replace_with; ""; "[source.ustc]"].
      split; [rewrite <- !app_assoc; reflexivity|].
      split; [|cbn [In]; tauto].
      repeat (constructor; [cbn [In]; tauto|]). constructor.
    + exists ["[source.crates-io]"; Cargo.replace_with; ""; "[source.ustc]"].
      split; [rewrite <- !app_assoc; reflexivity|].
      split; [|cbn [In]; tauto].
      repeat (constructor; [cbn [In]; tauto|]). constructor.
  - exists [""; "[source.ustc]"].
    split; [rewrite <- !app_assoc; reflexivity|].
    split; [|cbn [In]; tauto].
    repeat (constructor; [cbn [In]; tauto|]). constructor.
Qed.

End CargoScan.

(** X18.  [Enable] of the cargo mutator keeps every line that is neither
    blank nor starts with [replace-with], in its place among the others, and
    adds to them: the headers of both sections and the registry line when no
    line is [[source.crates-io]]; else the [[source.ustc]] header and the
    registry line when the text [[source.ustc]] occurs nowhere in the file;
    else nothing - not even when the file has no registry line. *)
Theorem cargo_enable_keeps_other_lines (c : Cargo.CargoMirror) (content : string) :
  List.filter cargo_foreign (Cargo.enable_lines c content)
  = List.filter cargo_foreign (Split content LF) ++ cargo_appended c content.
Proof.
  pose proof (cargo_registry_line_foreign c) as Hr.
  unfold Cargo.enable_lines, Cargo.enable_append, cargo_appended.
  pose proof (cargo_scan_foreign content (Split content LF)
                (Cargo.mkScan [] false false false)) as Hs.
  destruct (cargo_scan_flags content (Split content LF)
              (Cargo.mkScan [] false false false)) as [Hf1 Hf2].
  cbn [Cargo.newLines Cargo.hasSourceSection Cargo.hasCratesIOSection
       List.filter app orb] in Hs, Hf1, Hf2.
  fold (Cargo.enable_scan content) in Hs, Hf1, Hf2.
  rewrite Hf1, Hf2.
  destruct (existsb CargoSpec.is_crates_io (Split content LF)); cbn [negb orb].
  - destruct (Contains content "[source.ustc]"); cbn [negb].
    + rewrite Hs, app_nil_r. reflexivity.
    + rewrite !List.filter_app, Hs. cbn [List.filter]. rewrite Hr. reflexivity.
  - destruct (Nat.ltb 0 (List.length (Cargo.newLines (Cargo.enable_scan content)))
              && negb (String.eqb
                         (List.last (Cargo.newLines (Cargo.enable_scan content)) "")
                         ""));
      rewrite !List.filter_app, Hs; cbn [List.filter]; rewrite Hr;
        rewrite ?app_nil_r; reflexivity.
Qed.

Section CargoStatusAfter.

Import CargoSpec.

Lemma cargo_status_content_enabled (c : Cargo.CargoMirror) (content : string) :
  one_line (Cargo.registryURL c) ->
  unquoted (Cargo.registryURL c) ->
  Contains content "[source.ustc]" = false ->
  Forall (fun l => is_registry l = false) (Split content LF) ->
  Cargo.status_content (Cargo.enable_content c content)
  = (true, Cargo.registryURL c).
Proof.
  intros Hu Hq Hc Hno.
  destruct (cargo_enable_lines_shape c content Hc) as (mid & E & Hmid & Hin).
  unfold Cargo.enable_content. rewrite E.
  set (pre := Cargo.newLines (Cargo.enable_scan content) ++ mid).
  assert (Hone : Forall (fun l => has_byte LF l = false) (pre ++ [Cargo.registry_line c])).
  { apply Forall_app. split; [apply Forall_app; split|].
    - apply cargo_scan_lines; [reflexivity | apply Split_one_line | constructor].
    - eapply List.Forall_impl; [|exact Hmid]. cbn [In].
      intros l [<-|[<-|[<-|[<-|[]]]]]; reflexivity.
    - repeat constructor. unfold Cargo.registry_line.
      rewrite !has_byte_app, Hu. reflexivity. }
  assert (Hreg : Forall (fun l => is_registry l = false) pre).
  { apply Forall_app. split.
    - apply cargo_scan_lines; [reflexivity | exact Hno | constructor].
    - eapply List.Forall_impl; [|exact Hmid]. cbn [In].
      intros l [<-|[<-|[<-|[<-|[]]]]]; reflexivity. }
  assert (Hsplit : Split (Join (pre ++ [Cargo.registry_line c]) NL +:+ NL) LF
                   = (pre ++ [Cargo.registry_line c]) ++ [""]).
  { apply Split_Join; [exact Hone|]. destruct pre; discriminate. }
  unfold Cargo.status_content.
  rewrite (Contains_lines "[source.ustc]") by (reflexivity || discriminate).
  rewrite Hsplit.
  assert (Hex : existsb (fun l => Contains l "[source.ustc]")
                  ((pre ++ [Cargo.registry_line c]) ++ [""]) = true).
  { apply List.existsb_exists. exists "[source.ustc]". split; [|reflexivity].
    apply in_or_app. left. apply in_or_app. left. apply in_or_app. right.
    exact Hin. }
  rewrite Hex, <- app_assoc. cbn [app].
  rewrite (cargo_status_lines_first pre _ _ Hreg (cargo_registry_line_is_registry c)).
  rewrite (cargo_registry_line_value c Hq). reflexivity.
Qed.

Lemma Forall_sub {A : Type} (P Q : A -> Prop) (l : list A) :
  Forall P l -> (forall x, P x -> Q x) -> Forall Q l.
Proof. intros H HPQ. eapply List.Forall_impl; [exact HPQ | exact H]. Qed.

Lemma Forall_existsb_false {A : Type} (f : A -> bool) (l : list A) :
  existsb f l = false -> Forall (fun x => f x = false) l.
Proof.
  induction l as [|x l IH]; intros He; [constructor|].
  cbn [existsb] in He. apply orb_false_iff in He as [Hx He].
  constructor; [exact Hx | apply IH, He].
Qed.

Lemma Forall_forallb_implb {A : Type} (f g : A -> bool) (l : list A) :
  forallb (fun x => implb (f x) (g x)) l = true ->
  Forall (fun x => f x = true -> g x = true) l.
Proof.
  induction l as [|x l IH]; intros He; [constructor|].
  cbn [forallb] in He. apply andb_true_iff in He as [Hx He].
  constructor; [|apply IH, He].
  intros Hf. rewrite Hf in Hx. exact Hx.
Qed.

(** Where every line with the text [[source.ustc]] is one of the headers
    [Disable] drops, no such text is left. *)
Lemma cargo_status_content_disabled (lines : list string) :
  Forall (fun l => Contains l "[source.ustc]" = true ->
                   cargo_owned_header l = true) lines ->
  forall l rest, Cargo.disable_lines lines = l :: rest ->
  Cargo.status_content (Join (l :: rest) NL +:+ NL)
  = (false, "default registry").
Proof.
  intros Hall l rest E.
  destruct (cargo_disable_keeps_lines lines) as [Hk _].
  rewrite E in Hk.
  assert (Hno : Forall (fun x => Contains x "[source.ustc]" = false) (l :: rest)).
  { apply (Forall_sub _ _ _ Hk). intros x (Hx & Ho & _).
    rewrite List.Forall_forall in Hall. specialize (Hall x Hx).
    destruct (Contains x "[source.ustc]"); [|reflexivity].
    rewrite (Hall eq_refl) in Ho. discriminate. }
  unfold Cargo.status_content.
  rewrite (Contains_Join_LF "[source.ustc]" (l :: rest))
    by (reflexivity || discriminate).
  replace (existsb (fun x => Contains x "[source.ustc]") (l :: rest)) with false;
    [reflexivity|].
  symmetry. clear -Hno. induction Hno as [|x xs Hx _ IH]; [reflexivity|].
  cbn [existsb]. rewrite Hx, IH. reflexivity.
Qed.

End CargoStatusAfter.

(** X19.  After [Enable] of the cargo mutator, [Status] reports the mirror
    as enabled with the value of the mutator, when the config had neither
    the text [[source.ustc]] nor a line that starts with [registry] and has
    an [=], and the value is one line with no double quote at either end:
    the registry line [Enable] appends is then the first one [Status]
    finds. *)
Theorem cargo_status_after_enable
    (c : Cargo.CargoMirror) (w : World) (h : path) :
  home w = Some h ->
  snd (os.MkdirAll (cargo_dir h) w) = None ->
  writable (fst (os.MkdirAll (cargo_dir h) w)) (cargo_config h) ->
  one_line (Cargo.registryURL c) ->
  unquoted (Cargo.registryURL c) ->
  Contains (default "" (files w !! cargo_config h)) "[source.ustc]" = false ->
  Forall (fun l => CargoSpec.is_registry l = false)
    (Split (default "" (files w !! cargo_config h)) LF) ->
  snd (Cargo.Enable c w) = None
  /\ snd (Cargo.Status c (fst (Cargo.Enable c w)))
     = (true, Cargo.registryURL c, None).
Proof.
  intros Hh Hm Hw Hu Hq Hc Hno.
  destruct (cargo_ops_after_mkdir c w h Hh Hm) as (Hh1 & Hd1 & Hf1 & -> & _ & _).
  set (w1 := fst (os.MkdirAll (cargo_dir h) w)) in *.
  rewrite (cargo_Enable_dir c w1 h Hh1 Hd1 Hw), Hf1. cbn [fst snd].
  split; [reflexivity|].
  set (content := default "" (files w !! cargo_config h)) in *.
  rewrite (cargo_Status_run c (with_file (cargo_config h) _ w1) h Hh1 Hd1
             (writable_with_file _ _ _ Hw)).
  cbn [snd].
  replace (files (with_file (cargo_config h) (Cargo.enable_content c content) w1)
           !! cargo_config h)
    with (Some (Cargo.enable_content c content))
    by (symmetry; apply lookup_insert_eq).
  rewrite (cargo_status_content_enabled c content Hu Hq Hc Hno). reflexivity.
Qed.

Lemma cargo_status_after_enable_witness :
  let w := with_file Sample.cargo_config
             ("[build]" +:+ NL +:+ "jobs = 4" +:+ NL +:+ "[source.crates-io]" +:+ NL
              +:+ "replace-with = 'tuna'" +:+ NL)
             (with_dir (Sample.homeDir ++ [".cargo"]) Sample.fresh) in
  snd (Cargo.Status Sample.cargo (fst (Cargo.Enable Sample.cargo w)))
  = (true, "https://mirrors.ustc.edu.cn/crates.io-index", None).
Proof.
  intros w.
  destruct (cargo_status_after_enable Sample.cargo w Sample.homeDir) as [_ H].
  - reflexivity.
  - vm_compute. reflexivity.
  - repeat split; vm_compute; reflexivity.
  - vm_compute. reflexivity.
  - split; vm_compute; reflexivity.
  - vm_compute. reflexivity.
  - apply Forall_existsb_false. vm_compute. reflexivity.
  - exact H.
Defined.

(** X20.  After [Disable] of the cargo mutator, [Status] reports the
    default registry when every line of the config that holds the text
    [[source.ustc]] is a [[source.ustc]] header (or the [[source.crates-io]]
    one): [Disable] drops those, and [Status] looks for the text anywhere. *)
Theorem cargo_status_after_disable
    (c : Cargo.CargoMirror) (w : World) (h : path) :
  home w = Some h ->
  snd (os.MkdirAll (cargo_dir h) w) = None ->
  writable (fst (os.MkdirAll (cargo_dir h) w)) (cargo_config h) ->
  Forall (fun l => Contains l "[source.ustc]" = true ->
                   cargo_owned_header l = true)
    (Split (default "" (files w !! cargo_config h)) LF) ->
  snd (Cargo.Disable c w) = None
  /\ snd (Cargo.Status c (fst (Cargo.Disable c w)))
     = (false, "default registry", None).
Proof.
  intros Hh Hm Hw Hall.
  destruct (cargo_ops_after_mkdir c w h Hh Hm) as (Hh1 & Hd1 & Hf1 & _ & -> & _).
  set (w1 := fst (os.MkdirAll (cargo_dir h) w)) in *. rewrite <- Hf1 in Hall.
  destruct (files w1 !! cargo_config h) as [data|] eqn:Hf.
  - rewrite (cargo_Disable_run c w1 h data Hh1 Hd1 Hf). cbn [fst snd].
    split; [reflexivity|]. cbn [default from_option id] in Hall.
    rewrite (cargo_Status_run c _ h).
    + cbn [snd]. rewrite kept_file_lookup.
      destruct (Cargo.disable_lines (Split data LF)) as [|l rest] eqn:E;
        [reflexivity|].
      rewrite (cargo_status_content_disabled _ Hall l rest E). reflexivity.
    + destruct (Cargo.disable_lines (Split data LF)); exact Hh1.
    + rewrite <- Hd1. apply is_dir_dirs.
      destruct (Cargo.disable_lines (Split data LF)); reflexivity.
    + apply writable_kept_file. exact Hw.
  - rewrite (cargo_Disable_none c w1 h Hh1 Hd1 Hw Hf). cbn [fst snd].
    split; [reflexivity|].
    rewrite (cargo_Status_run c w1 h Hh1 Hd1 Hw), Hf. reflexivity.
Qed.

Lemma cargo_status_after_disable_witness :
  let w := fst (Cargo.Enable Sample.cargo Sample.fresh) in
  snd (Cargo.Status Sample.cargo (fst (Cargo.Disable Sample.cargo w)))
  = (false, "default registry", None).
Proof.
  intros w.
  destruct (cargo_status_after_disable Sample.cargo w Sample.homeDir) as [_ H].
  - reflexivity.
  - vm_compute. reflexivity.
  - repeat split; vm_compute; reflexivity.
  - apply Forall_forallb_implb. vm_compute. reflexivity.
  - exact H.
Defined.

(** ** Docker: the object [Enable] and [Disable] write, and [Status] after them *)

Section DockerFurther.
Context `{Json}.

Lemma format_fold (regs acc : list string) :
  fold_left Docker.format_body regs acc = acc ++ map docker_normalize regs.
Proof.
  revert acc. induction regs as [|r regs IH]; intros acc; cbn [fold_left map].
  - rewrite app_nil_r. reflexivity.
  - rewrite IH. unfold Docker.format_body, docker_normalize.
    destruct (negb (HasPrefix r "http://") && negb (HasPrefix r "https://"));
      rewrite <- app_assoc; reflexivity.
Qed.

Lemma formattedRegistries_map (d : Docker.DockerMirror) :
  Docker.formattedRegistries d = map docker_normalize (Docker.registries d).
Proof. apply (format_fold _ []). Qed.

Lemma normalize_has_scheme (r : string) : has_scheme (docker_normalize r) = true.
Proof.
  unfold docker_normalize, has_scheme.
  destruct (HasPrefix r "http://") eqn:E1; cbn [negb andb].
  - rewrite E1. reflexivity.
  - destruct (HasPrefix r "https://") eqn:E2; cbn [negb].
    + rewrite E1, E2. reflexivity.
    + replace (HasPrefix ("https://" +:+ r) "https://") with true
        by (symmetry; apply prefix_app).
      apply orb_true_r.
Qed.

Lemma normalize_fixed (r : string) :
  has_scheme r = true -> docker_normalize r = r.
Proof.
  unfold docker_normalize, has_scheme. intros Hs.
  destruct (HasPrefix r "http://"); [reflexivity|].
  destruct (HasPrefix r "https://"); [reflexivity | discriminate].
Qed.

Lemma display_normalize (r : string) :
  has_scheme r = false -> docker_display (docker_normalize r) = r.
Proof.
  unfold has_scheme, docker_normalize, docker_display. intros Hs.
  apply orb_false_iff in Hs as [H1 H2]. rewrite H1, H2. cbn [negb andb].
  rewrite (TrimPrefix_app "https://" r). unfold TrimPrefix. rewrite H1.
  reflexivity.
Qed.

Lemma display_fold (l acc : list string) :
  fold_left Docker.display_body (map JString l) acc
  = acc ++ map docker_display l.
Proof.
  revert acc. induction l as [|x l IH]; intros acc; cbn [fold_left map].
  - rewrite app_nil_r. reflexivity.
  - rewrite IH. cbn [Docker.display_body]. rewrite <- app_assoc. reflexivity.
Qed.

Lemma ltb_length {A : Type} (l : list A) :
  Nat.ltb 0 (List.length l) = true <-> l <> [].
Proof. destruct l; cbn; split; congruence. Qed.

Lemma not_darwin_not_desktop (w : World) :
  not_darwin w -> Docker.isDockerDesktop w = false.
Proof. unfold not_darwin, Docker.isDockerDesktop. intros ->. reflexivity. Qed.

Lemma MkdirAll_goos (d : path) (w : World) :
  goos (fst (os.MkdirAll d w)) = goos w.
Proof.
  unfold os.MkdirAll.
  destruct (os.is_dir w d); [reflexivity|].
  destruct (os.is_file w d || os.under_file w d); reflexivity.
Qed.

(** [Enable] on a file that parses into an object. *)
Lemma docker_Enable_parsed (d : Docker.DockerMirror) (w : World) (h : path)
    (data : string) (m : gmap string (jvalue float64)) :
  Docker.isDockerDesktop w = false -> home w = Some h ->
  snd (os.MkdirAll (docker_dir h) w) = None ->
  files w !! daemon_json h = Some data -> Unmarshal data = Some (mkmap m) ->
  Docker.Enable d w
  = (with_file (daemon_json h) (MarshalIndent (mkmap (docker_enabled d m)))
       (fst (os.MkdirAll (docker_dir h) w)), None).
Proof.
  intros Hdd Hh Hm Hf Hu. unfold Docker.Enable.
  rewrite Hdd, (getDockerConfigPath_run w h Hh), parent_daemon_json.
  pose proof (MkdirAll_files (docker_dir h) w) as Hf1.
  destruct (os.MkdirAll (docker_dir h) w) as [w1 [e|]]; [discriminate|].
  cbn [fst] in *. rewrite <- Hf1 in Hf.
  rewrite (ReadFile_file w1 _ data Hf), Hu. unfold docker_enabled.
  destruct (Nat.ltb 0 (List.length (Docker.registries d)));
    rewrite (WriteFile_file _ _ data _ Hf); reflexivity.
Qed.

(** [Enable] on the document [null]. *)
Lemma docker_Enable_null (d : Docker.DockerMirror) (w : World) (h : path)
    (data : string) :
  Docker.isDockerDesktop w = false -> home w = Some h ->
  snd (os.MkdirAll (docker_dir h) w) = None ->
  files w !! daemon_json h = Some data -> Unmarshal data = Some nilmap ->
  Docker.Enable d w
  = if Nat.ltb 0 (List.length (Docker.registries d))
    then (fst (os.MkdirAll (docker_dir h) w),
          Some (Panic "assignment to entry in nil map"))
    else (with_file (daemon_json h) (MarshalIndent nilmap)
            (fst (os.MkdirAll (docker_dir h) w)), None).
Proof.
  intros Hdd Hh Hm Hf Hu. unfold Docker.Enable.
  rewrite Hdd, (getDockerConfigPath_run w h Hh), parent_daemon_json.
  pose proof (MkdirAll_files (docker_dir h) w) as Hf1.
  destruct (os.MkdirAll (docker_dir h) w) as [w1 [e|]]; [discriminate|].
  cbn [fst] in *. rewrite <- Hf1 in Hf.
  rewrite (ReadFile_file w1 _ data Hf), Hu.
  destruct (Nat.ltb 0 (List.length (Docker.registries d))); [reflexivity|].
  rewrite (WriteFile_file _ _ data _ Hf). reflexivity.
Qed.

Lemma size_delete_zero (m : gmap string (jvalue float64)) (key : string) :
  size (delete key m) = 0 <-> (forall k, k <> key -> m !! k = None).
Proof.
  rewrite map_size_empty_iff, map_empty. split.
  - intros Hall k Hk. rewrite <- (Hall k). symmetry.
    apply lookup_delete_ne. congruence.
  - intros Hall k. destruct (decide (k = key)) as [->|Hk].
    + apply lookup_delete_eq.
    + rewrite lookup_delete_ne by congruence. apply Hall, Hk.
Qed.

(** [Disable] on a file that parses. *)
Lemma docker_Disable_parsed (d : Docker.DockerMirror) (w : World) (h : path)
    (data : string) (config : gomap float64) :
  Docker.isDockerDesktop w = false -> home w = Some h ->
  files w !! daemon_json h = Some data -> Unmarshal data = Some config ->
  Docker.Disable d w
  = (if Nat.eqb (Docker.map_len (Docker.map_delete "registry-mirrors" config)) 0
     then without_file (daemon_json h) w
     else with_file (daemon_json h)
            (MarshalIndent (Docker.map_delete "registry-mirrors" config)) w,
     None).
Proof.
  intros Hdd Hh Hf Hu. unfold Docker.Disable.
  rewrite Hdd, (getDockerConfigPath_run w h Hh), (ReadFile_file w _ data Hf), Hu.
  destruct (Nat.eqb _ 0).
  - rewrite (Remove_file w _ data Hf). reflexivity.
  - rewrite (WriteFile_file _ _ data _ Hf). reflexivity.
Qed.

Lemma docker_Status_parsed (d : Docker.DockerMirror) (w : World) (h : path)
    (data : string) (config : gomap float64) :
  Docker.isDockerDesktop w = false -> home w = Some h ->
  files w !! daemon_json h = Some data -> Unmarshal data = Some config ->
  Docker.Status d w
  = (w, (fst (Docker.status_config config), snd (Docker.status_config config),
         None)).
Proof.
  intros Hdd Hh Hf Hu. unfold Docker.Status.
  rewrite Hdd, (getDockerConfigPath_run w h Hh), (ReadFile_file w _ data Hf), Hu.
  destruct (Docker.status_config config). reflexivity.
Qed.

Lemma docker_Status_absent (d : Docker.DockerMirror) (w : World) (h : path) :
  Docker.isDockerDesktop w = false -> home w = Some h ->
  writable w (daemon_json h) -> files w !! daemon_json h = None ->
  Docker.Status d w = (w, (false, "default registry", None)).
Proof.
  intros Hdd Hh Hw Hf. unfold Docker.Status.
  rewrite Hdd, (getDockerConfigPath_run w h Hh), (ReadFile_writable _ _ Hw), Hf.
  reflexivity.
Qed.

(** What [Status] makes of an object whose mirrors are strings. *)
Lemma status_config_strings (m : gmap string (jvalue float64)) (l : list string) :
  m !! "registry-mirrors" = Some (JArray (map JString l)) ->
  Docker.status_config (mkmap m)
  = match l with
    | [] => (false, "default registry")
    | _ :: _ => (true, Join (map docker_display l) ", ")
    end.
Proof.
  intros Hm. unfold Docker.status_config. rewrite Hm.
  destruct l as [|x l]; [reflexivity|].
  rewrite display_fold. reflexivity.
Qed.

Lemma status_config_no_mirrors (config : gomap float64) :
  Docker.status_config (Docker.map_delete "registry-mirrors" config)
  = (false, "default registry").
Proof.
  destruct config as [|m]; [reflexivity|].
  unfold Docker.status_config. cbn [Docker.map_delete].
  rewrite lookup_delete_eq. reflexivity.
Qed.

End DockerFurther.

(** X21.  The registries Docker [Enable] writes are the registries of the
    mutator, each with [https://] put before it unless it starts with
    [http://] or [https://]: as many, in the same order, every one with a
    scheme; registries that have a scheme are written as they are, so that
    formatting twice is formatting once; and what [Status] displays of a
    registry that had no scheme is that registry. *)
Theorem docker_formatted_registries_have_scheme `{Json}
    (d : Docker.DockerMirror) :
  Docker.formattedRegistries d = map docker_normalize (Docker.registries d)
  /\ List.length (Docker.formattedRegistries d) = List.length (Docker.registries d)
  /\ Forall (fun r => has_scheme r = true) (Docker.formattedRegistries d)
  /\ Docker.formattedRegistries
       (Docker.NewDockerMirror (Docker.formattedRegistries d))
     = Docker.formattedRegistries d
  /\ (forall r, has_scheme r = false -> docker_display (docker_normalize r) = r).
Proof.
  rewrite !formattedRegistries_map. cbn [Docker.registries].
  split; [reflexivity|]. split; [apply length_map|]. split; [|split].
  - induction (Docker.registries d) as [|r regs IH]; cbn [map]; constructor;
      [apply normalize_has_scheme | exact IH].
  - induction (Docker.registries d) as [|r regs IH]; cbn [map]; [reflexivity|].
    rewrite IH, (normalize_fixed _ (normalize_has_scheme r)). reflexivity.
  - apply display_normalize.
Qed.

(** X22.  Docker [Enable] on a [daemon.json] that parses into an object
    returns no error and writes that object back with [registry-mirrors]
    set to the formatted registries: every other key keeps its value, no
    other file is written (no backup), and a mutator without registries
    writes the object as it read it, mirrors included. *)
Theorem docker_enable_sets_mirrors_only `{Json}
    (d : Docker.DockerMirror) (w : World) (h : path) (data : string)
    (m : gmap string (jvalue float64)) :
  Docker.isDockerDesktop w = false ->
  home w = Some h ->
  snd (os.MkdirAll (docker_dir h) w) = None ->
  files w !! daemon_json h = Some data ->
  Unmarshal data = Some (mkmap m) ->
  snd (Docker.Enable d w) = None
  /\ files (fst (Docker.Enable d w)) !! daemon_json h
     = Some (MarshalIndent (mkmap (docker_enabled d m)))
  /\ (forall q, q <> daemon_json h ->
        files (fst (Docker.Enable d w)) !! q = files w !! q)
  /\ (forall k, k <> "registry-mirrors" -> docker_enabled d m !! k = m !! k)
  /\ (Docker.registries d <> [] ->
      docker_enabled d m !! "registry-mirrors"
      = Some (JArray (map JString (map docker_normalize (Docker.registries d)))))
  /\ (Docker.registries d = [] -> docker_enabled d m = m).
Proof.
  intros Hdd Hh Hm Hf Hu.
  rewrite (docker_Enable_parsed d w h data m Hdd Hh Hm Hf Hu). cbn [fst snd].
  split; [reflexivity|]. split; [apply lookup_insert_eq|]. split.
  { intros q Hq. cbn [with_file files].
    rewrite lookup_insert_ne by congruence. rewrite MkdirAll_files. reflexivity. }
  unfold docker_enabled. split; [|split].
  - intros k Hk. destruct (Nat.ltb 0 _); [|reflexivity].
    apply lookup_insert_ne. congruence.
  - intros Hne. apply ltb_length in Hne. rewrite Hne, lookup_insert_eq.
    unfold Docker.mirrors_value. rewrite formattedRegistries_map. reflexivity.
  - intros ->. reflexivity.
Qed.

Lemma docker_enable_sets_mirrors_only_witness :
  files (fst (@Docker.Enable debug_codec Sample.docker (docker_home debug_text)))
    !! Sample.daemon_json
  = Some (debug_mirrors_text Sample.default_mirrors)
  /\ files (fst (@Docker.Enable debug_codec Sample.docker (docker_home debug_text)))
       !! Sample.daemon_backup = None.
Proof.
  destruct (@docker_enable_sets_mirrors_only debug_codec Sample.docker
              (docker_home debug_text) Sample.homeDir debug_text
              {[ "debug" := JBool true ]})
    as (_ & Hf & Ho & _).
  - vm_compute. reflexivity.
  - reflexivity.
  - vm_compute. reflexivity.
  - vm_compute. reflexivity.
  - vm_compute. reflexivity.
  - split.
    + etransitivity; [exact Hf|]. vm_compute. reflexivity.
    + etransitivity; [apply Ho; vm_compute; discriminate|].
      vm_compute. reflexivity.
Defined.

(** X23.  Docker [Enable] on a [daemon.json] that holds the document
    [null] - which decodes without error into the nil map - panics when the
    mutator has registries, on the assignment to the nil map: nothing is
    written, and the file stays as it was. *)
Theorem docker_enable_panics_on_null_document `{Json}
    (d : Docker.DockerMirror) (w : World) (h : path) (data : string) :
  Docker.isDockerDesktop w = false ->
  home w = Some h ->
  snd (os.MkdirAll (docker_dir h) w) = None ->
  files w !! daemon_json h = Some data ->
  Unmarshal data = Some nilmap ->
  Docker.registries d <> [] ->
  snd (Docker.Enable d w) = Some (Panic "assignment to entry in nil map")
  /\ files (fst (Docker.Enable d w)) = files w.
Proof.
  intros Hdd Hh Hm Hf Hu Hne.
  rewrite (docker_Enable_null d w h data Hdd Hh Hm Hf Hu).
  apply ltb_length in Hne. rewrite Hne. cbn [fst snd].
  split; [reflexivity | apply MkdirAll_files].
Qed.

Lemma docker_enable_panics_on_null_document_witness :
  snd (@Docker.Enable debug_codec Sample.docker (docker_home "null"))
  = Some (Panic "assignment to entry in nil map")
  /\ files (fst (@Docker.Enable debug_codec Sample.docker (docker_home "null")))
     = files (docker_home "null").
Proof.
  apply (@docker_enable_panics_on_null_document debug_codec Sample.docker
           (docker_home "null") Sample.homeDir "null").
  - vm_compute. reflexivity.
  - reflexivity.
  - vm_compute. reflexivity.
  - vm_compute. reflexivity.
  - vm_compute. reflexivity.
  - discriminate.
Defined.

(** X24.  Docker [Disable] on a [daemon.json] that parses into an object
    returns no error and takes [registry-mirrors] out of it: when the object
    has no other key the file is removed, else the object is written back
    with every other key as it was; no other file and no directory
    changes. *)
Theorem docker_disable_removes_mirrors_only `{Json}
    (d : Docker.DockerMirror) (w : World) (h : path) (data : string)
    (m : gmap string (jvalue float64)) :
  Docker.isDockerDesktop w = false ->
  home w = Some h ->
  files w !! daemon_json h = Some data ->
  Unmarshal data = Some (mkmap m) ->
  snd (Docker.Disable d w) = None
  /\ ((forall k, k <> "registry-mirrors" -> m !! k = None) ->
      files (fst (Docker.Disable d w)) !! daemon_json h = None)
  /\ (forall k, k <> "registry-mirrors" -> is_Some (m !! k) ->
      files (fst (Docker.Disable d w)) !! daemon_json h
      = Some (MarshalIndent (mkmap (delete "registry-mirrors" m))))
  /\ (forall k, k <> "registry-mirrors" ->
      delete "registry-mirrors" m !! k = m !! k)
  /\ delete "registry-mirrors" m !! "registry-mirrors" = None
  /\ (forall q, q <> daemon_json h ->
        files (fst (Docker.Disable d w)) !! q = files w !! q)
  /\ dirs (fst (Docker.Disable d w)) = dirs w.
Proof.
  intros Hdd Hh Hf Hu.
  rewrite (docker_Disable_parsed d w h data _ Hdd Hh Hf Hu).
  cbn [fst snd Docker.map_delete Docker.map_len].
  split; [reflexivity|]. split; [|split; [|split; [|split; [|split]]]].
  - intros Hall. apply (size_delete_zero m) in Hall. rewrite Hall.
    cbn [Nat.eqb without_file files]. apply lookup_delete_eq.
  - intros k Hk [v Hv].
    destruct (Nat.eqb (size (delete "registry-mirrors" m)) 0) eqn:E.
    + apply Nat.eqb_eq in E.
      rewrite (proj1 (size_delete_zero m "registry-mirrors") E k Hk) in Hv.
      discriminate.
    + apply lookup_insert_eq.
  - intros k Hk. apply lookup_delete_ne. congruence.
  - apply lookup_delete_eq.
  - intros q Hq. destruct (Nat.eqb _ 0); cbn [without_file with_file files].
    + apply lookup_delete_ne. congruence.
    + apply lookup_insert_ne. congruence.
  - destruct (Nat.eqb _ 0); reflexivity.
Qed.

Lemma docker_disable_removes_mirrors_only_witness :
  files (fst (@Docker.Disable debug_codec Sample.docker
                (docker_home (debug_mirrors_text Sample.default_mirrors))))
    !! Sample.daemon_json
  = Some debug_text.
Proof.
  destruct (@docker_disable_removes_mirrors_only debug_codec Sample.docker
              (docker_home (debug_mirrors_text Sample.default_mirrors))
              Sample.homeDir (debug_mirrors_text Sample.default_mirrors)
              (<[ "registry-mirrors" :=
                    JArray (map JString Sample.default_mirrors) ]>
                 {[ "debug" := JBool true ]}))
    as (_ & _ & Hf & _).
  - vm_compute. reflexivity.
  - reflexivity.
  - vm_compute. reflexivity.
  - vm_compute. reflexivity.
  - etransitivity; [apply (Hf "debug"); [discriminate | vm_compute; eauto]|].
    vm_compute. reflexivity.
Defined.

(** X25.  After Docker [Enable] with at least one registry on a
    [daemon.json] that parses into an object, and where the decoder reads
    back the document the encoder wrote, [Status] reports the mirrors as
    enabled and shows the registries in their order, separated by a comma
    and a blank, each without the scheme [Enable] gave it or it had. *)
Theorem docker_status_after_enable `{Json}
    (d : Docker.DockerMirror) (w : World) (h : path) (data : string)
    (m : gmap string (jvalue float64)) :
  not_darwin w ->
  home w = Some h ->
  snd (os.MkdirAll (docker_dir h) w) = None ->
  files w !! daemon_json h = Some data ->
  Unmarshal data = Some (mkmap m) ->
  Docker.registries d <> [] ->
  Unmarshal (MarshalIndent (mkmap (docker_enabled d m)))
  = Some (mkmap (docker_enabled d m)) ->
  snd (Docker.Status d (fst (Docker.Enable d w)))
  = (true,
     Join (map docker_display (map docker_normalize (Docker.registries d))) ", ",
     None).
Proof.
  intros Hnd Hh Hm Hf Hu Hne Hrt.
  rewrite (docker_Enable_parsed d w h data m (not_darwin_not_desktop w Hnd)
             Hh Hm Hf Hu).
  cbn [fst].
  rewrite (docker_Status_parsed d _ h
             (MarshalIndent (mkmap (docker_enabled d m)))
             (mkmap (docker_enabled d m))).
  - cbn [snd].
    rewrite (status_config_strings (docker_enabled d m)
               (map docker_normalize (Docker.registries d))).
    + destruct (Docker.registries d); [congruence | reflexivity].
    + unfold docker_enabled. apply ltb_length in Hne. rewrite Hne.
      rewrite lookup_insert_eq. unfold Docker.mirrors_value.
      rewrite formattedRegistries_map. reflexivity.
  - apply not_darwin_not_desktop. unfold not_darwin. cbn [with_file goos].
    rewrite MkdirAll_goos. exact Hnd.
  - cbn [with_file home]. rewrite MkdirAll_home. exact Hh.
  - apply lookup_insert_eq.
  - exact Hrt.
Qed.

Lemma docker_status_after_enable_witness :
  snd (@Docker.Status debug_codec Sample.docker
         (fst (@Docker.Enable debug_codec Sample.docker (docker_home debug_text))))
  = (true, "docker.1ms.run, docker.m.daocloud.io", None).
Proof.
  etransitivity.
  - apply (@docker_status_after_enable debug_codec Sample.docker
             (docker_home debug_text) Sample.homeDir debug_text
             {[ "debug" := JBool true ]}).
    + reflexivity.
    + reflexivity.
    + vm_compute. reflexivity.
    + vm_compute. reflexivity.
    + vm_compute. reflexivity.
    + discriminate.
    + vm_compute. reflexivity.
  - vm_compute. reflexivity.
Defined.

(** X26.  After Docker [Disable] on a [daemon.json] that parses, which
    returns no error, [Status] reports the default registry - whether
    [Disable] removed the file or wrote the other keys back, where the
    decoder reads back the document the encoder wrote. *)
Theorem docker_status_after_disable `{Json}
    (d : Docker.DockerMirror) (w : World) (h : path) (data : string)
    (config : gomap float64) :
  not_darwin w ->
  home w = Some h ->
  writable w (daemon_json h) ->
  files w !! daemon_json h = Some data ->
  Unmarshal data = Some config ->
  Unmarshal (MarshalIndent (Docker.map_delete "registry-mirrors" config))
  = Some (Docker.map_delete "registry-mirrors" config) ->
  snd (Docker.Disable d w) = None
  /\ snd (Docker.Status d (fst (Docker.Disable d w)))
     = (false, "default registry", None).
Proof.
  intros Hnd Hh Hw Hf Hu Hrt.
  rewrite (docker_Disable_parsed d w h data config
             (not_darwin_not_desktop w Hnd) Hh Hf Hu).
  cbn [fst snd]. split; [reflexivity|].
  destruct (Nat.eqb _ 0).
  - rewrite (docker_Status_absent d _ h); [reflexivity | | exact Hh | |].
    + apply not_darwin_not_desktop. exact Hnd.
    + apply writable_without_file, Hw.
    + apply lookup_delete_eq.
  - rewrite (docker_Status_parsed d _ h
               (MarshalIndent (Docker.map_delete "registry-mirrors" config))
               (Docker.map_delete "registry-mirrors" config)).
    + cbn [snd]. rewrite status_config_no_mirrors. reflexivity.
    + apply not_darwin_not_desktop. exact Hnd.
    + exact Hh.
    + apply lookup_insert_eq.
    + exact Hrt.
Qed.

Lemma docker_status_after_disable_witness :
  snd (@Docker.Status debug_codec Sample.docker
         (fst (@Docker.Disable debug_codec Sample.docker
                 (docker_home (debug_mirrors_text Sample.default_mirrors)))))
  = (false, "default registry", None).
Proof.
  destruct (@docker_status_after_disable debug_codec Sample.docker
              (docker_home (debug_mirrors_text Sample.default_mirrors))
              Sample.homeDir (debug_mirrors_text Sample.default_mirrors)
              (mkmap (<[ "registry-mirrors" :=
                           JArray (map JString Sample.default_mirrors) ]>
                        {[ "debug" := JBool true ]})))
    as [_ Hs].
  - reflexivity.
  - reflexivity.
  - repeat split; vm_compute; reflexivity.
  - vm_compute. reflexivity.
  - vm_compute. reflexivity.
  - vm_compute. reflexivity.
  - exact Hs.
Defined.

(** X27.  On macOS with [/Applications/Docker.app], the Docker mutator
    touches nothing: [Enable] and [Disable] return no error and [Status]
    reports that the settings of Docker Desktop are to be checked, all three
    before they look for the home directory or read [daemon.json] - also
    where the home directory is unknown or the file does not parse. *)
Theorem docker_desktop_is_left_alone `{Json}
    (d : Docker.DockerMirror) (w : World) :
  desktop_installed w ->
  Docker.Enable d w = (w, None)
  /\ Docker.Disable d w = (w, None)
  /\ Docker.Status d w = (w, (false, "check Docker Desktop settings", None)).
Proof.
  intros [Hg Hs].
  assert (Hdd : Docker.isDockerDesktop w = true).
  { unfold Docker.isDockerDesktop, os.Stat. rewrite Hg, Hs. reflexivity. }
  unfold Docker.Enable, Docker.Disable, Docker.Status. rewrite Hdd.
  repeat split.
Qed.

Lemma docker_desktop_is_left_alone_witness :
  let w := mkWorld "darwin" None ∅
             {[ ["Applications"]; ["Applications"; "Docker.app"] ]} ∅ in
  @Docker.Enable debug_codec Sample.docker w = (w, None)
  /\ @Docker.Disable debug_codec Sample.docker w = (w, None)
  /\ @Docker.Status debug_codec Sample.docker w
     = (w, (false, "check Docker Desktop settings", None)).
Proof.
  intros w. apply (@docker_desktop_is_left_alone debug_codec Sample.docker w).
  split; vm_compute; reflexivity.
Defined.

(** X28.  Where the home directory is unknown, every operation of every
    mutator that needs it returns the error of [os.UserHomeDir], wrapped the
    same way, and changes nothing: no file, no directory and no variable;
    [Status] then reports false with an empty description.  ([Status] of the
    Go mutator needs no home directory, and the Docker mutator looks for
    Docker Desktop first.) *)
Theorem unknown_home_changes_nothing `{Json}
    (n : NPM.NPMMirror) (g : Go.GoMirror) (p : Pip.PipMirror)
    (c : Cargo.CargoMirror) (d : Docker.DockerMirror) (w : World) :
  home w = None ->
  Docker.isDockerDesktop w = false ->
  let e := Wrapped "failed to get user home directory" HomeError in
  (NPM.Enable n w = (w, Some e) /\ NPM.Disable n w = (w, Some e)
   /\ NPM.Status n w = (w, (false, "", Some e)))
  /\ (Go.Enable g w = (w, Some e) /\ Go.Disable g w = (w, Some e))
  /\ (Pip.Enable p w = (w, Some e) /\ Pip.Disable p w = (w, Some e)
      /\ Pip.Status p w = (w, (false, "", Some e)))
  /\ (Cargo.Enable c w = (w, Some e) /\ Cargo.Disable c w = (w, Some e)
      /\ Cargo.Status c w = (w, (false, "", Some e)))
  /\ (Docker.Enable d w = (w, Some e) /\ Docker.Disable d w = (w, Some e)
      /\ Docker.Status d w = (w, (false, "", Some e))).
Proof.
  intros Hh Hdd e.
  unfold NPM.Enable, NPM.Disable, NPM.Status, Go.Enable, Go.Disable,
    Pip.Enable, Pip.Disable, Pip.Status, Pip.getPipConfigPath,
    Cargo.Enable, Cargo.Disable, Cargo.Status, Cargo.getCargoConfigPath,
    Docker.Enable, Docker.Disable, Docker.Status, Docker.getDockerConfigPath,
    os.UserHomeDir.
  rewrite Hh, Hdd. repeat split.
Qed.

Lemma unknown_home_changes_nothing_witness :
  let w := mkWorld "linux" None ∅ ∅ ∅ in
  NPM.Enable Sample.npm w
  = (w, Some (Wrapped "failed to get user home directory" HomeError))
  /\ Pip.Status Sample.pip w
     = (w, (false, "", Some (Wrapped "failed to get user home directory" HomeError)))
  /\ @Docker.Disable debug_codec Sample.docker w
     = (w, Some (Wrapped "failed to get user home directory" HomeError)).
Proof.
  intros w.
  destruct (@unknown_home_changes_nothing debug_codec Sample.npm Sample.go
              Sample.pip Sample.cargo Sample.docker w)
    as ((Hn & _) & _ & (_ & _ & Hp) & _ & (_ & Hd & _)).
  - reflexivity.
  - reflexivity.
  - split; [exact Hn | split; [exact Hp | exact Hd]].
Defined.

(** ** Package [config]: [Load] and [Save] *)

Section ConfigFacts.
Context `{config.Yaml}.

Lemma GetConfigPath_run (w : World) (h : path) :
  home w = Some h -> snd (os.MkdirAll (crosh_dir h) w) = None ->
  config.GetConfigPath w
  = (fst (os.MkdirAll (crosh_dir h) w), Ok (config_yaml h)).
Proof.
  intros Hh Hm. unfold config.GetConfigPath, os.UserHomeDir, Join_path.
  rewrite Hh. fold (crosh_dir h).
  destruct (os.MkdirAll (crosh_dir h) w) as [w1 [e|]]; [discriminate|].
  reflexivity.
Qed.

Lemma Stat_absent (w : World) (p : path) :
  writable w p -> files w !! p = None -> os.Stat p w = Some ENOENT.
Proof.
  intros (Hd & Hu & _) Hf. unfold os.Stat, os.is_file.
  rewrite Hf, Hd, Hu. rewrite bool_decide_false by (intros [? ?]; discriminate).
  reflexivity.
Qed.

Lemma Stat_file (w : World) (p : path) (data : string) :
  files w !! p = Some data -> os.Stat p w = None.
Proof.
  intros Hf. unfold os.Stat, os.is_file. rewrite Hf.
  rewrite bool_decide_true by eauto. reflexivity.
Qed.

End ConfigFacts.

(** X29.  [Load] of package [config], where [~/.crosh/config.yaml] does
    not exist, returns the configuration of [DefaultConfig] and no error; it
    creates the directory [~/.crosh] on the way and writes no file, so the
    defaults are not saved; and the path of xray-core in them lies below the
    home directory. *)
Theorem load_without_file_returns_defaults `{config.Yaml} (w : World) (h : path) :
  home w = Some h ->
  snd (os.MkdirAll (crosh_dir h) w) = None ->
  writable (fst (os.MkdirAll (crosh_dir h) w)) (config_yaml h) ->
  files w !! config_yaml h = None ->
  snd (config.Load w) = Ok (config.DefaultConfig w)
  /\ os.is_dir (fst (config.Load w)) (crosh_dir h) = true
  /\ files (fst (config.Load w)) = files w
  /\ config.ProxyConfig.XrayPath (config.Proxy (config.DefaultConfig w))
     = path_string (h ++ [".crosh"; "xray-core"]).
Proof.
  intros Hh Hm Hw Hf. unfold config.Load.
  rewrite (GetConfigPath_run w h Hh Hm).
  set (w1 := fst (os.MkdirAll (crosh_dir h) w)) in *.
  assert (Hf1 : files w1 !! config_yaml h = None).
  { unfold w1. rewrite MkdirAll_files. exact Hf. }
  rewrite (Stat_absent w1 _ Hw Hf1). cbn [os.IsNotExist fst snd].
  assert (Hx : forall u, home u = Some h ->
               config.xray_path u = path_string (h ++ [".crosh"; "xray-core"])).
  { intros u Hu. unfold config.xray_path, os.UserHomeDir. rewrite Hu.
    reflexivity. }
  split; [|split; [|split]].
  - unfold config.DefaultConfig. rewrite (Hx w Hh), (Hx w1); [reflexivity|].
    unfold w1. rewrite MkdirAll_home. exact Hh.
  - apply (MkdirAll_ok_is_dir _ _ Hm).
  - apply MkdirAll_files.
  - cbn [config.DefaultConfig config.Proxy config.ProxyConfig.XrayPath].
    apply (Hx w Hh).
Qed.

Lemma load_without_file_returns_defaults_witness :
  snd (@config.Load sample_yaml Sample.fresh) = Ok (sample_config false)
  /\ files (fst (@config.Load sample_yaml Sample.fresh)) = ∅.
Proof.
  destruct (@load_without_file_returns_defaults sample_yaml Sample.fresh
              Sample.homeDir) as (Hl & _ & Hf & _).
  - reflexivity.
  - vm_compute. reflexivity.
  - repeat split; vm_compute; reflexivity.
  - reflexivity.
  - split; [exact Hl | exact Hf].
Defined.

(** X30.  [Save] then [Load] of package [config]: where the file can be
    written and the decoder reads back what the encoder wrote for the
    configuration, [Save] returns no error, [~/.crosh/config.yaml] holds the
    encoded configuration, and [Load] returns that configuration - not the
    defaults. *)
Theorem save_then_load_returns_config `{config.Yaml}
    (c : config.Config) (w : World) (h : path) (data : string) :
  home w = Some h ->
  snd (os.MkdirAll (crosh_dir h) w) = None ->
  writable (fst (os.MkdirAll (crosh_dir h) w)) (config_yaml h) ->
  config.yaml_Marshal c = Ok data ->
  config.yaml_Unmarshal data = Ok c ->
  snd (config.Save c w) = None
  /\ files (fst (config.Save c w)) !! config_yaml h = Some data
  /\ snd (config.Load (fst (config.Save c w))) = Ok c.
Proof.
  intros Hh Hm Hw Hma Hun. unfold config.Save.
  rewrite (GetConfigPath_run w h Hh Hm), Hma.
  set (w1 := fst (os.MkdirAll (crosh_dir h) w)) in *.
  rewrite (WriteFile_ok _ _ _ Hw). cbn [fst snd].
  split; [reflexivity|]. split; [apply lookup_insert_eq|].
  assert (Hd1 : os.is_dir w1 (crosh_dir h) = true)
    by apply (MkdirAll_ok_is_dir _ _ Hm).
  fold (with_file (config_yaml h) data w1). unfold config.Load.
  rewrite (GetConfigPath_run (with_file (config_yaml h) data w1) h).
  - rewrite (MkdirAll_dir (with_file (config_yaml h) data w1) _ Hd1).
    cbn [fst].
    rewrite (Stat_file _ _ data) by apply lookup_insert_eq.
    rewrite (ReadFile_file _ _ data) by apply lookup_insert_eq.
    rewrite Hun. reflexivity.
  - cbn [with_file home]. unfold w1. rewrite MkdirAll_home. exact Hh.
  - rewrite (MkdirAll_dir (with_file (config_yaml h) data w1) _ Hd1).
    reflexivity.
Qed.

Lemma save_then_load_returns_config_witness :
  snd (@config.Load sample_yaml
         (fst (@config.Save sample_yaml (sample_config true) Sample.fresh)))
  = Ok (sample_config true).
Proof.
  destruct (@save_then_load_returns_config sample_yaml (sample_config true)
              Sample.fresh Sample.homeDir (sample_yaml_text true))
    as (_ & _ & Hl).
  - reflexivity.
  - vm_compute. reflexivity.
  - repeat split; vm_compute; reflexivity.
  - reflexivity.
  - reflexivity.
  - exact Hl.
Defined.
